(** * A shallow embedding of [harmony_multi_branch_verifier.py]

    The script checks that one branch of a remote repository holds three
    artifact files and that each of them obeys a fixed set of rules.  This
    development embeds the script function by function and settles the
    properties stated for it.

    Layout: Python values and library calls the script relies on, the
    [CONFIG] table, the API client, the three validators, the router and
    [main]; then the lemmas about them. *)

From Stdlib Require Import ZArith NArith List Ascii String Lia.
From stdpp Require Import base list gmap.


(** ** Python strings

    A Python [str] is a sequence of Unicode code points; [len] counts code
    points, not bytes. *)

Definition char := N.
Bind Scope N_scope with char.
Definition pystr := list char.

(** An ASCII literal as a Python string. *)
Fixpoint str (s : string) : pystr :=
  match s with
  | EmptyString => []
  | String a s' => N_of_ascii a :: str s'
  end.

Definition newline : char := 10%N.

Fixpoint pystr_eqb (a b : pystr) : bool :=
  match a, b with
  | [], [] => true
  | x :: a', y :: b' => (x =? y)%N && pystr_eqb a' b'
  | _, _ => false
  end.

(** [s.startswith(p)] *)
Fixpoint startswith (p s : pystr) : bool :=
  match p, s with
  | [], _ => true
  | x :: p', y :: s' => (x =? y)%N && startswith p' s'
  | _ :: _, [] => false
  end.

(** [sub in s] for two strings: substring test. *)
Fixpoint contains (s sub : pystr) : bool :=
  startswith sub s ||
  match s with
  | [] => false
  | _ :: s' => contains s' sub
  end.

(** [s.replace(c, "")] for a one-character [c]. *)
Definition remove_char (c : char) (s : pystr) : pystr :=
  List.filter (fun x => negb (x =? c)%N) s.

(** [s.split(sep)] for a one-character separator: never returns the empty
    list. *)
Fixpoint split (sep : char) (s : pystr) : list pystr :=
  match s with
  | [] => [[]]
  | c :: s' =>
      if (c =? sep)%N then [] :: split sep s'
      else match split sep s' with
           | l :: ls => (c :: l) :: ls
           | [] => [[c]]
           end
  end.

(** [", ".join(l)] is only ever printed; the model keeps the list. *)

(** Number of bytes of the UTF-8 encoding of a string, that is the size of
    the file a decoded text came from. *)
Definition utf8_width (c : char) : nat :=
  if (c <? 128)%N then 1
  else if (c <? 2048)%N then 2
  else if (c <? 65536)%N then 3
  else 4.

Definition utf8_length (s : pystr) : nat :=
  fold_right (fun c n => utf8_width c + n) 0 s.

(** *** The interpreter's Unicode tables

    [str.strip()], [str.lower()] and the regular-expression class [\d]
    consult the Unicode database of the interpreter.  The script's behaviour
    is stated for any such database. *)

Class UnicodeDB := {
  isspace : char -> bool;       (* [str.isspace] on one code point *)
  isdecimal : char -> bool;     (* general category Nd: the class \d *)
  lower : pystr -> pystr        (* [str.lower] *)
}.

Section Strings.
Context {U : UnicodeDB}.

Fixpoint lstrip (s : pystr) : pystr :=
  match s with
  | [] => []
  | c :: s' => if isspace c then lstrip s' else s
  end.

Definition rstrip (s : pystr) : pystr := rev (lstrip (rev s)).

(** [s.strip()] *)
Definition strip (s : pystr) : pystr := rstrip (lstrip s).

End Strings.

(** A database that agrees with CPython on every code point below 128 and on
    the few uncased, non-space code points the examples use.  White space is
    CPython's full table. *)

Definition in_range (lo hi c : N) : bool := (lo <=? c)%N && (c <=? hi)%N.

Definition cpython_isspace (c : char) : bool :=
  in_range 9 13 c || in_range 28 32 c || (c =? 133)%N || (c =? 160)%N ||
  (c =? 5760)%N || in_range 8192 8202 c || in_range 8232 8233 c ||
  (c =? 8239)%N || (c =? 8287)%N || (c =? 12288)%N.

Definition ascii_lower (c : char) : char :=
  if in_range 65 90 c then (c + 32)%N else c.

#[export] Instance ascii_db : UnicodeDB := {|
  isspace := cpython_isspace;
  isdecimal := in_range 48 57;
  lower := map ascii_lower
|}.

(** ** Regular expressions

    The two patterns of [CONFIG] have the shape [^body$].  [re.match] anchors
    at the start; [$] matches at the end of the string and also just before a
    newline that ends the string. *)

Inductive char_class :=
| CChar (c : char)
| CRange (lo hi : char)
| CDigit                    (* \d *)
| CDot                      (* . : anything but a newline *)
| CUnion (a b : char_class).

Inductive regex :=
| Void
| Eps
| Class (cl : char_class)
| Seq (r1 r2 : regex)
| Alt (r1 r2 : regex)
| Star (r : regex).

Fixpoint rep (n : nat) (r : regex) : regex :=   (* r{n} *)
  match n with
  | O => Eps
  | S n' => Seq r (rep n' r)
  end.

Definition plus (r : regex) : regex := Seq r (Star r).   (* r+ *)

Fixpoint lit (s : pystr) : regex :=
  match s with
  | [] => Eps
  | c :: s' => Seq (Class (CChar c)) (lit s')
  end.

Fixpoint seqs (rs : list regex) : regex :=
  match rs with
  | [] => Eps
  | r :: rs' => Seq r (seqs rs')
  end.

Section Regex.
Context {U : UnicodeDB}.

Fixpoint class_mem (cl : char_class) (c : char) : bool :=
  match cl with
  | CChar x => (c =? x)%N
  | CRange lo hi => in_range lo hi c
  | CDigit => isdecimal c
  | CDot => negb (c =? newline)%N
  | CUnion a b => class_mem a c || class_mem b c
  end.

Fixpoint nullable (r : regex) : bool :=
  match r with
  | Void => false
  | Eps => true
  | Class _ => false
  | Seq r1 r2 => nullable r1 && nullable r2
  | Alt r1 r2 => nullable r1 || nullable r2
  | Star _ => true
  end.

Definition mk_seq (r1 r2 : regex) : regex :=
  match r1, r2 with
  | Void, _ => Void
  | _, Void => Void
  | Eps, _ => r2
  | _, _ => Seq r1 r2
  end.

Definition mk_alt (r1 r2 : regex) : regex :=
  match r1, r2 with
  | Void, _ => r2
  | _, Void => r1
  | _, _ => Alt r1 r2
  end.

(** Brzozowski derivative. *)
Fixpoint deriv (c : char) (r : regex) : regex :=
  match r with
  | Void => Void
  | Eps => Void
  | Class cl => if class_mem cl c then Eps else Void
  | Seq r1 r2 =>
      if nullable r1
      then mk_alt (mk_seq (deriv c r1) r2) (deriv c r2)
      else mk_seq (deriv c r1) r2
  | Alt r1 r2 => mk_alt (deriv c r1) (deriv c r2)
  | Star r1 => mk_seq (deriv c r1) (Star r1)
  end.

Definition fullmatch (r : regex) (s : pystr) : bool :=
  nullable (fold_left (fun r c => deriv c r) s r).

(** [re.match("^" + body + "$", s)] as a truth value. *)
Definition re_match (body : regex) (s : pystr) : bool :=
  fullmatch body s ||
  match rev s with
  | c :: s' => (c =? newline)%N && fullmatch body (rev s')
  | [] => false
  end.

End Regex.

Definition hex_digit : char_class := CUnion (CRange 48 57) (CRange 97 102).

(** [^[0-9a-f]{40}$] *)
Definition sha_pattern : regex := rep 40 (Class hex_digit).

(** [^\d{4}-\d{2}-\d{2} \| .+ \| [0-9a-f]{40}$] *)
Definition timeline_pattern : regex :=
  seqs [ rep 4 (Class CDigit); lit (str "-"); rep 2 (Class CDigit);
         lit (str "-"); rep 2 (Class CDigit); lit (str " | ");
         plus (Class CDot); lit (str " | "); rep 40 (Class hex_digit) ].

(** ** Python values

    What [json.loads] and [response.json()] return.  A [dict] keeps its
    items in insertion order and its keys are pairwise distinct; [JNull] is
    [None]. *)

#[local] Set Warnings "-register-all".

Inductive json :=
| JNull
| JBool (b : bool)
| JInt (n : Z)
| JFloat (m e : Z)                       (* the float m * 2^e *)
| JStr (s : pystr)
| JArr (l : list json)
| JObj (items : list (pystr * json)).

Definition pybytes := list N.

Fixpoint dict_get (k : pystr) (items : list (pystr * json)) : option json :=
  match items with
  | [] => None
  | (k', v) :: rest => if pystr_eqb k' k then Some v else dict_get k rest
  end.

Definition has_key (k : pystr) (items : list (pystr * json)) : bool :=
  existsb (fun kv => pystr_eqb (fst kv) k) items.

(** [del d[k]] *)
Definition dict_remove (k : pystr) (items : list (pystr * json))
  : list (pystr * json) :=
  List.filter (fun kv => negb (pystr_eqb (fst kv) k)) items.

Definition is_str (x : pystr) (v : json) : bool :=
  match v with
  | JStr s => pystr_eqb s x
  | _ => false
  end.

(** Truth value of an object, as [not x] sees it. *)
Definition truthy (v : json) : bool :=
  match v with
  | JNull => false
  | JBool b => b
  | JInt n => negb (n =? 0)%Z
  | JFloat m _ => negb (m =? 0)%Z
  | JStr s => negb (Nat.eqb (length s) 0)
  | JArr l => negb (Nat.eqb (length l) 0)
  | JObj items => negb (Nat.eqb (length items) 0)
  end.

(** ** Exceptions, output and the monad of the script *)

Inductive exn :=
| TypeError
| AttributeError
| KeyError
| ValueError
| RecursionError
| StopIteration
| RequestError
| SystemExit (code : Z).

(** [except Exception] does not catch [SystemExit]. *)
Definition is_Exception (e : exn) : bool :=
  match e with
  | SystemExit _ => false
  | _ => true
  end.

Inductive outcome (A : Type) :=
| Ret (a : A)
| Raise (e : exn).
Arguments Ret {A} a.
Arguments Raise {A} e.

(** One constructor per [print] of the script, with the interpolated
    values. *)
Inductive msg :=
(* _load_github_env *)
| EnvVarMissing (var env_file : pystr)
(* _call_github_api *)
| ApiNotFound (endpoint : pystr)
| ApiRequestFailed (endpoint : pystr) (status : Z)
| ApiResponseText (text : pystr)
| ApiException (endpoint : pystr) (e : exn)
(* _check_branch_existence *)
| BranchMissingAbort (branch : pystr)
| BranchMissingContinue (branch : pystr)
| BranchExists (branch : pystr)
(* _get_artifact_content *)
| FileNotFound (branch file_name : pystr)
| DecodeFailed (file_name : pystr) (e : exn)
(* _validate_branch_commits_json *)
| JsonSyntaxError
| JsonSyntaxOk
| TooFewBranches (min actual : nat)
| MissingBranches (missing : list pystr)
| BranchesOk (count : nat)
| TooFewCommits (branch : pystr) (actual : nat)
| MissingFields (branch : pystr) (idx : nat) (missing : list pystr)
| BadSha (branch : pystr) (idx : nat) (sha : pystr)
| DuplicateSha (sha : pystr)
| ShortAuthor (branch : pystr) (idx : nat) (author : json)
| BadFilesChanged (branch : pystr) (idx : nat) (files_changed : json)
| CommitsOk
(* _validate_cross_branch_md *)
| DocTooShort (min actual : nat)
| LengthOk
| MissingSections (missing : list pystr)
| SectionsOk
| MissingKeywords (missing : list pystr)
| KeywordsOk
| MissingContributors (missing : list pystr)
| ContributorsOk
(* _validate_merge_timeline *)
| TooFewLines (min actual : nat)
| LineCountOk (count : nat)
| BadLine (idx : nat) (line : pystr)
| FormatHint
| FormatOk
| MissingEntries (shown : list pystr)
| EntriesOk
(* _validate_artifact *)
| UnsupportedArtifact (artifact_name : pystr)
(* main *)
| Banner
| Step (n : nat)
| EnvInitFailed
| EnvReady (org : pystr)
| Validating (artifact_name : pystr)
| ArtifactOk (artifact_name : pystr)
| ArtifactsFailed
| SourceValidationPlaceholder
| SourceValidationSkipped
| PolicyOk (forbid : bool) (allowed : list pystr)
| Summary (org branch : pystr).

(** The lines that report a failed check (printed with the cross mark). *)
Definition is_failure (m : msg) : bool :=
  match m with
  | EnvVarMissing _ _ | ApiRequestFailed _ _ | ApiException _ _
  | BranchMissingAbort _ | FileNotFound _ _ | DecodeFailed _ _
  | JsonSyntaxError | TooFewBranches _ _ | MissingBranches _
  | TooFewCommits _ _ | MissingFields _ _ _ | BadSha _ _ _ | DuplicateSha _
  | ShortAuthor _ _ _ | BadFilesChanged _ _ _
  | DocTooShort _ _ | MissingSections _ | MissingKeywords _
  | MissingContributors _
  | TooFewLines _ _ | BadLine _ _ | MissingEntries _
  | EnvInitFailed | ArtifactsFailed => true
  | _ => false
  end.

Inductive event :=
| Print (m : msg)
| HttpGet (url : pystr) (headers : list (pystr * pystr)) (timeout : N).

Definition failures (log : list event) : list msg :=
  omap (fun ev => match ev with
                  | Print m => if is_failure m then Some m else None
                  | HttpGet _ _ _ => None
                  end) log.

(** A computation prints, calls the network and ends with a value or an
    exception. *)
Definition M (A : Type) : Type := (list event * outcome A)%type.

Definition ret {A} (a : A) : M A := ([], Ret a).
Definition raise {A} (e : exn) : M A := ([], Raise e).
Definition lift {A} (o : outcome A) : M A := ([], o).
Definition print (m : msg) : M unit := ([Print m], Ret tt).

Definition bind {A B} (m : M A) (f : A -> M B) : M B :=
  match m with
  | (l, Ret a) => let (l', o) := f a in (l ++ l', o)
  | (l, Raise e) => (l, Raise e)
  end.

(** [try: m  except Exception as e: h e] *)
Definition try_except {A} (m : M A) (h : exn -> M A) : M A :=
  match m with
  | (l, Raise e) =>
      if is_Exception e then let (l', o) := h e in (l ++ l', o)
      else (l, Raise e)
  | _ => m
  end.

Notation "'let*' x ':=' c 'in' k" := (bind c (fun x => k))
  (at level 10, x pattern, c at level 100, k at level 200).
Notation "c '>>' k" := (bind c (fun _ => k))
  (at level 90, k at level 200, right associativity).

Definition output {A} (m : M A) : list event := fst m.
Definition result {A} (m : M A) : outcome A := snd m.

(** *** Operations on values whose type is only known at run time *)

(** [len(v)] *)
Definition py_len (v : json) : outcome nat :=
  match v with
  | JStr s => Ret (length s)
  | JArr l => Ret (length l)
  | JObj items => Ret (length items)
  | _ => Raise TypeError
  end.

(** [x in v] for a string [x] *)
Definition py_in (x : pystr) (v : json) : outcome bool :=
  match v with
  | JObj items => Ret (has_key x items)
  | JArr l => Ret (existsb (is_str x) l)
  | JStr s => Ret (contains s x)
  | _ => Raise TypeError
  end.

(** The elements a [for] loop over [v] visits. *)
Definition py_iter (v : json) : outcome (list json) :=
  match v with
  | JArr l => Ret l
  | JObj items => Ret (map (fun kv => JStr (fst kv)) items)
  | JStr s => Ret (map (fun c => JStr [c]) s)
  | _ => Raise TypeError
  end.

(** [v[k]] for a string [k] *)
Definition py_getitem (v : json) (k : pystr) : outcome json :=
  match v with
  | JObj items =>
      match dict_get k items with
      | Some x => Ret x
      | None => Raise KeyError
      end
  | _ => Raise TypeError
  end.

(** [v.items()] *)
Definition py_items (v : json) : outcome (list (pystr * json)) :=
  match v with
  | JObj items => Ret items
  | _ => Raise AttributeError
  end.

(** [v.get(k, default)] *)
Definition py_get (v : json) (k : pystr) (default : json) : outcome json :=
  match v with
  | JObj items =>
      match dict_get k items with
      | Some x => Ret x
      | None => Ret default
      end
  | _ => Raise AttributeError
  end.

(** [v.replace("\n", "")] *)
Definition py_replace_newline (v : json) : outcome pystr :=
  match v with
  | JStr s => Ret (remove_char newline s)
  | _ => Raise AttributeError
  end.

(** [isinstance(v, int)]: [bool] is a subclass of [int]. *)
Definition isinstance_int (v : json) : bool :=
  match v with
  | JInt _ | JBool _ => true
  | _ => false
  end.

Definition int_value (v : json) : Z :=
  match v with
  | JInt n => n
  | JBool true => 1
  | _ => 0
  end.

(** [[x for x in xs if x not in v]] *)
Fixpoint not_in (xs : list pystr) (v : json) : M (list pystr) :=
  match xs with
  | [] => ret []
  | x :: rest =>
      let* b := lift (py_in x v) in
      let* l := not_in rest v in
      ret (if b then l else x :: l)
  end.

Definition nonempty {A} (l : list A) : bool :=
  match l with
  | [] => false
  | _ :: _ => true
  end.

(** *** Library calls and the outside world *)

(** What [json.loads] raises on a text it does not load: the
    [JSONDecodeError] of a text that is not JSON, or another exception (a
    plain [ValueError] for an integer literal beyond the digit limit of the
    interpreter, a [RecursionError] for too deep a nesting). *)
Inductive loads_error :=
| JSONDecodeError
| OtherError (e : exn).

Class Libs := {
  json_loads : pystr -> option json;             (* None: json.loads raises *)
  json_loads_error : pystr -> loads_error;       (* what it raises, if it does *)
  b64decode : pystr -> option pybytes;           (* None: binascii.Error *)
  bytes_decode : pybytes -> pystr -> option pystr  (* bytes.decode(encoding) *)
}.

Inductive http_result :=
| Response (status_code : Z) (json_body : option json) (text : pystr)
| RequestFailed.

Record World := {
  (* the environment once [load_dotenv(env_file)] has run *)
  environ : pystr -> pystr -> option pystr;
  requests_get : pystr -> list (pystr * pystr) -> N -> http_result
}.

(** ** 1) CONFIG *)

Record FieldRules := {
  sha_regex : regex;
  author_min_len : nat;
  files_changed_min : Z
}.

Record JsonSpec := {
  (* schema *)
  min_branches : nat;
  commit_fields : list pystr;
  min_commits_per_branch : nat;
  (* content_checks *)
  expected_branches : list pystr;
  field_rules : FieldRules
}.

Record MdSpec := {
  (* schema *)
  required_sections : list pystr;
  min_length : nat;
  encoding : pystr;
  (* content_checks *)
  must_contain_keywords : list pystr;
  expected_contributors : list pystr
}.

Record TxtSpec := {
  (* schema *)
  line_pattern : regex;
  min_lines : nat;
  (* content_checks *)
  expected_entries : list pystr
}.

Inductive ArtifactSpec :=
| JsonArtifact (s : JsonSpec)
| MdArtifact (s : MdSpec)
| TxtArtifact (s : TxtSpec).

Record Artifact := {
  name : pystr;
  must_be_in_branch : bool;
  spec : ArtifactSpec
}.

Record Config := {
  (* ENV_CONFIG *)
  github_token_var : pystr;
  github_org_var : pystr;
  env_file : pystr;
  (* GITHUB_API_CONFIG *)
  repo_name : pystr;
  api_version : pystr;
  auth_scheme : pystr;
  timeout : N;
  (* BRANCH_CONFIG *)
  target_branch : pystr;
  must_exist : bool;
  (* ARTIFACTS *)
  ARTIFACTS : list Artifact;
  (* SOURCE_VALIDATION *)
  source_validation_enable : bool;
  (* POLICY *)
  forbid_modifying_existing_files : bool;
  only_allow_artifacts : list pystr
}.

Definition json_artifact_spec : JsonSpec := {|
  min_branches := 3;
  commit_fields :=
    [str "sha"; str "author"; str "message"; str "files_changed"];
  min_commits_per_branch := 3;
  expected_branches :=
    [str "pr/45-googlefan256-main";
     str "pr/25-neuralsorcerer-patch-1";
     str "pr/41-amirhosseinghanipour-fix-race-conditions-and-offline-api"];
  field_rules := {|
    sha_regex := sha_pattern;
    author_min_len := 3;
    files_changed_min := 1 |} |}.

Definition md_artifact_spec : MdSpec := {|
  required_sections :=
    [str "## Top Contributors"; str "## Branch Commit Summary"];
  min_length := 500;
  encoding := str "utf-8";
  must_contain_keywords := [str "contributors"; str "commits"; str "branch"];
  expected_contributors :=
    [str "scott-oai: 35 commits";
     str "egorsmkv: 4 commits";
     str "axion66: 2 commits"] |}.

Definition timeline_artifact_spec : TxtSpec := {|
  line_pattern := timeline_pattern;
  min_lines := 10;
  expected_entries :=
    [str "2025-08-06 | Merge pull request #29 from axion66/improve-readme-and-checks | 3efbf742533a375fc148d75513597e139329578b";
     str "2025-08-06 | Merge pull request #30 from Yuan-ManX/harmony-format | 9d653a4c7382abc42d115014d195d9354e7ad357";
     str "2025-08-05 | Merge pull request #26 from jordan-wu-97/jordan/fix-function-call-atomic-bool | 82b3afb9eb043343f322c937262cc50405e892c3"]
|}.

Definition BRANCH_COMMITS : Artifact := {|
  name := str "BRANCH_COMMITS.json";
  must_be_in_branch := true;
  spec := JsonArtifact json_artifact_spec |}.

Definition CROSS_BRANCH_ANALYSIS : Artifact := {|
  name := str "CROSS_BRANCH_ANALYSIS.md";
  must_be_in_branch := true;
  spec := MdArtifact md_artifact_spec |}.

Definition MERGE_TIMELINE : Artifact := {|
  name := str "MERGE_TIMELINE.txt";
  must_be_in_branch := true;
  spec := TxtArtifact timeline_artifact_spec |}.

Definition CONFIG : Config := {|
  github_token_var := str "MCP_GITHUB_TOKEN";
  github_org_var := str "GITHUB_EVAL_ORG";
  env_file := str ".mcp_env";
  repo_name := str "harmony";
  api_version := str "v3";
  auth_scheme := str "Bearer";
  timeout := 10;
  target_branch := str "history-report-2025";
  must_exist := true;
  ARTIFACTS := [BRANCH_COMMITS; CROSS_BRANCH_ANALYSIS; MERGE_TIMELINE];
  source_validation_enable := false;
  forbid_modifying_existing_files := true;
  only_allow_artifacts :=
    [str "BRANCH_COMMITS.json"; str "CROSS_BRANCH_ANALYSIS.md";
     str "MERGE_TIMELINE.txt"]
|}.

(** [next(art for art in CONFIG["ARTIFACTS"] if art["name"] == n)] *)
Definition artifact_named (cfg : Config) (n : pystr) : M Artifact :=
  match List.find (fun art => pystr_eqb (name art) n) (ARTIFACTS cfg) with
  | Some art => ret art
  | None => raise StopIteration
  end.

(** Reading the keys of one kind of artifact from an entry of another kind
    is a [KeyError]. *)
Definition json_spec (art : Artifact) : M JsonSpec :=
  match spec art with
  | JsonArtifact s => ret s
  | _ => raise KeyError
  end.

Definition md_spec (art : Artifact) : M MdSpec :=
  match spec art with
  | MdArtifact s => ret s
  | _ => raise KeyError
  end.

Definition txt_spec (art : Artifact) : M TxtSpec :=
  match spec art with
  | TxtArtifact s => ret s
  | _ => raise KeyError
  end.

(** ["encoding" in art["schema"]] and [art["schema"]["encoding"]]: only the
    markdown schema has the key. *)
Definition schema_encoding (art : Artifact) : option pystr :=
  match spec art with
  | MdArtifact s => Some (encoding s)
  | _ => None
  end.

Section Script.
Context {U : UnicodeDB} {L : Libs}.
Variable cfg : Config.
Variable world : World.

(** ** 2) Helpers *)

(** [not s] for an optional string: [None] and [""] are false. *)
Definition falsy_str (o : option pystr) : bool :=
  match o with
  | None => true
  | Some s => negb (nonempty s)
  end.

(** Lines 138-149. *)
Definition _load_github_env : M (option pystr * option pystr) :=
  let github_token := environ world (env_file cfg) (github_token_var cfg) in
  let github_org := environ world (env_file cfg) (github_org_var cfg) in
  (if falsy_str github_token
   then print (EnvVarMissing (github_token_var cfg) (env_file cfg))
   else ret tt) >>
  (if falsy_str github_org
   then print (EnvVarMissing (github_org_var cfg) (env_file cfg))
   else ret tt) >>
  ret (github_token, github_org).

(** Lines 152-158. *)
Definition _build_github_headers (github_token : pystr)
  : list (pystr * pystr) :=
  [ (str "Authorization", auth_scheme cfg ++ str " " ++ github_token);
    (str "Accept",
     str "application/vnd.github." ++ api_version cfg ++ str "+json");
    (str "User-Agent", str "harmony-multi-branch-verifier") ].

(** Lines 171-178: [requests.get], which may raise, and the answer with the
    result of [response.json()], [None] when that call raises. *)
Definition http_call (api_url : pystr) (headers : list (pystr * pystr))
  : M (Z * option json * pystr) :=
  ([HttpGet api_url headers (timeout cfg)],
   match requests_get world api_url headers (timeout cfg) with
   | Response status body text => Ret (status, body, text)
   | RequestFailed => Raise RequestError
   end).

(** Lines 161-189. *)
Definition _call_github_api (endpoint : pystr)
  (headers : list (pystr * pystr)) (org : pystr) : M (bool * json) :=
  let api_url :=
    str "https://api.github.com/repos/" ++ org ++ str "/" ++ repo_name cfg
      ++ str "/" ++ endpoint in
  try_except
    (let* (status_code, body, text) := http_call api_url headers in
     if (status_code =? 200)%Z then
       match body with
       | Some data => ret (true, data)
       | None => raise ValueError          (* response.json() fails *)
       end
     else if (status_code =? 404)%Z then
       print (ApiNotFound endpoint) >> ret (false, JNull)
     else
       print (ApiRequestFailed endpoint status_code) >>
       print (ApiResponseText (take 200 text)) >>
       ret (false, JNull))
    (fun e => print (ApiException endpoint e) >> ret (false, JNull)).

(** Lines 192-206. *)
Definition _check_branch_existence (branch_name : pystr)
  (headers : list (pystr * pystr)) (org : pystr) : M bool :=
  let* (success, _) :=
    _call_github_api (str "branches/" ++ branch_name) headers org in
  if negb success && must_exist cfg then
    print (BranchMissingAbort branch_name) >> ret false
  else if negb success then
    print (BranchMissingContinue branch_name) >> ret true
  else
    print (BranchExists branch_name) >> ret true.

(** Lines 227-230:
    [next(art["schema"]["encoding"] for art in CONFIG["ARTIFACTS"]
         if art["name"] == file_name and "encoding" in art["schema"])]:
    [next] without a default raises [StopIteration] when no entry
    qualifies. *)
Definition next_encoding (file_name : pystr) : M pystr :=
  match
    omap (fun art => if pystr_eqb (name art) file_name
                     then schema_encoding art else None)
      (ARTIFACTS cfg)
  with
  | enc :: _ => ret enc
  | [] => raise StopIteration
  end.

(** Line 231: [base64.b64decode(base64_content).decode(encoding)]. *)
Definition decode_base64 (base64_content encoding : pystr) : M pystr :=
  match b64decode base64_content with
  | None => raise ValueError
  | Some raw =>
      match bytes_decode raw encoding with
      | Some text => ret text
      | None => raise ValueError
      end
  end.

(** Lines 209-234.  The [None] of the result is the Python [None]. *)
Definition _get_artifact_content (branch file_name : pystr)
  (headers : list (pystr * pystr)) (org : pystr) : M (option pystr) :=
  let* (success, file_data) :=
    _call_github_api (str "contents/" ++ file_name ++ str "?ref=" ++ branch)
      headers org in
  if negb success || negb (truthy file_data) then
    print (FileNotFound branch file_name) >> ret None
  else
    try_except
      (let* content := lift (py_get file_data (str "content") (JStr [])) in
       let* base64_content := lift (py_replace_newline content) in
       let* declared := next_encoding file_name in
       let encoding := if nonempty declared then declared else str "utf-8" in
       let* text := decode_base64 base64_content encoding in
       ret (Some text))
      (fun e => print (DecodeFailed file_name e) >> ret None).

(** ** 3) Validators *)

(** *** BRANCH_COMMITS.json *)

Section BranchCommits.
Variable json_artifact : JsonSpec.

Definition loop_state : Type := gset pystr * bool.   (* sha_set, valid *)

(** Lines 275-302, the body of the inner [for]: every failed check sets
    [valid] to [False] and goes on with the next commit. *)
Definition check_commit (branch : pystr) (idx : nat) (commit : json)
  (st : loop_state) : M loop_state :=
  let '(sha_set, valid) := st in
  let rules := field_rules json_artifact in
  let* missing_fields := not_in (commit_fields json_artifact) commit in
  if nonempty missing_fields then
    print (MissingFields branch idx missing_fields) >> ret (sha_set, false)
  else
    let* sha_v := lift (py_getitem commit (str "sha")) in
    match sha_v with
    | JStr sha =>
        if negb (re_match (sha_regex rules) sha) then
          print (BadSha branch idx sha) >> ret (sha_set, false)
        else if bool_decide (sha ∈ sha_set) then
          print (DuplicateSha sha) >> ret (sha_set, false)
        else
          let sha_set := sha_set ∪ {[ sha ]} in
          let* author := lift (py_getitem commit (str "author")) in
          let* author_len := lift (py_len author) in
          if author_len <? author_min_len rules then
            print (ShortAuthor branch idx author) >> ret (sha_set, false)
          else
            let* files_changed :=
              lift (py_getitem commit (str "files_changed")) in
            if negb (isinstance_int files_changed)
               || (int_value files_changed <? files_changed_min rules)%Z
            then
              print (BadFilesChanged branch idx files_changed) >>
              ret (sha_set, false)
            else ret (sha_set, valid)
    | _ => raise TypeError              (* re.match on a non-string *)
    end.

(** Line 274: [for idx, commit in enumerate(commits, 1)] *)
Fixpoint commits_loop (branch : pystr) (idx : nat) (commits : list json)
  (st : loop_state) : M loop_state :=
  match commits with
  | [] => ret st
  | commit :: rest =>
      let* st' := check_commit branch idx commit st in
      commits_loop branch (S idx) rest st'
  end.

(** Lines 268-272: [for branch, commits in data.items()] *)
Fixpoint branches_loop (items : list (pystr * json)) (st : loop_state)
  : M loop_state :=
  match items with
  | [] => ret st
  | (branch, commits) :: rest =>
      let* n := lift (py_len commits) in
      if n <? min_commits_per_branch json_artifact then
        print (TooFewCommits branch n) >> branches_loop rest (fst st, false)
      else
        let* cs := lift (py_iter commits) in
        let* st' := commits_loop branch 1 cs st in
        branches_loop rest st'
  end.

(** Lines 255-306: everything after the parse. *)
Definition validate_branch_commits (data : json) : M bool :=
  let* n := lift (py_len data) in
  if n <? min_branches json_artifact then
    print (TooFewBranches (min_branches json_artifact) n) >> ret false
  else
    let* missing_branches := not_in (expected_branches json_artifact) data in
    if nonempty missing_branches then
      print (MissingBranches missing_branches) >> ret false
    else
      print (BranchesOk n) >>
      let* items := lift (py_items data) in
      let* (_, valid) := branches_loop items (∅, true) in
      (if valid then print CommitsOk else ret tt) >>
      ret valid.

End BranchCommits.

(** Lines 240-253, then [validate_branch_commits].  The [except] clause of
    line 250 catches [json.JSONDecodeError] only. *)
Definition _validate_branch_commits_json (content : pystr) : M bool :=
  let* art := artifact_named cfg (str "BRANCH_COMMITS.json") in
  let* json_artifact := json_spec art in
  match json_loads content with
  | None =>
      match json_loads_error content with
      | JSONDecodeError => print JsonSyntaxError >> ret false
      | OtherError e => raise e
      end
  | Some data =>
      print JsonSyntaxOk >> validate_branch_commits json_artifact data
  end.

(** *** CROSS_BRANCH_ANALYSIS.md *)

(** Lines 309-342. *)
Definition _validate_cross_branch_md (content : pystr) : M bool :=
  let* art := artifact_named cfg (str "CROSS_BRANCH_ANALYSIS.md") in
  let* md_artifact := md_spec art in
  let required_sections := required_sections md_artifact in
  let expected_contributors := expected_contributors md_artifact in
  let keywords := must_contain_keywords md_artifact in
  if length content <? min_length md_artifact then
    print (DocTooShort (min_length md_artifact) (length content)) >>
    ret false
  else
    print LengthOk >>
    let missing_sections :=
      List.filter (fun s => negb (contains content s)) required_sections in
    if nonempty missing_sections then
      print (MissingSections missing_sections) >> ret false
    else
      print SectionsOk >>
      let missing_keywords :=
        List.filter (fun k => negb (contains (lower content) (lower k)))
          keywords in
      if nonempty missing_keywords then
        print (MissingKeywords missing_keywords) >> ret false
      else
        print KeywordsOk >>
        let missing_contributors :=
          List.filter (fun c => negb (contains content c))
            expected_contributors in
        if nonempty missing_contributors then
          print (MissingContributors missing_contributors) >> ret false
        else
          print ContributorsOk >> ret true.

(** *** MERGE_TIMELINE.txt *)

(** Line 353: [[l.strip() for l in content.split("\n") if l.strip()]] *)
Definition timeline_lines (content : pystr) : list pystr :=
  List.filter nonempty (map strip (split newline content)).

(** Lines 360-364, the format loop: [Some (idx, line)] is the first line
    that does not match, with its index as [enumerate(lines, 1)] counts. *)
Fixpoint first_bad_line (pat : regex) (idx : nat) (lines : list pystr)
  : option (nat * pystr) :=
  match lines with
  | [] => None
  | line :: rest =>
      if negb (re_match pat line) then Some (idx, line)
      else first_bad_line pat (S idx) rest
  end.

(** Lines 345-373. *)
Definition _validate_merge_timeline (content : pystr) : M bool :=
  let* art := artifact_named cfg (str "MERGE_TIMELINE.txt") in
  let* timeline_artifact := txt_spec art in
  let expected_entries := expected_entries timeline_artifact in
  let min_lines := min_lines timeline_artifact in
  let lines := timeline_lines content in
  if length lines <? min_lines then
    print (TooFewLines min_lines (length lines)) >> ret false
  else
    print (LineCountOk (length lines)) >>
    match first_bad_line (line_pattern timeline_artifact) 1 lines with
    | Some (idx, line) =>
        print (BadLine idx line) >> print FormatHint >> ret false
    | None =>
        print FormatOk >>
        let missing_entries :=
          List.filter (fun e => negb (contains content e)) expected_entries in
        if nonempty missing_entries then
          print (MissingEntries
                   (map (fun e => take 50 e ++ str "...") missing_entries)) >>
          ret false
        else
          print EntriesOk >> ret true
    end.

(** *** Router *)

(** Lines 376-386. *)
Definition _validate_artifact (content artifact_name : pystr) : M bool :=
  if pystr_eqb artifact_name (str "BRANCH_COMMITS.json") then
    _validate_branch_commits_json content
  else if pystr_eqb artifact_name (str "CROSS_BRANCH_ANALYSIS.md") then
    _validate_cross_branch_md content
  else if pystr_eqb artifact_name (str "MERGE_TIMELINE.txt") then
    _validate_merge_timeline content
  else
    print (UnsupportedArtifact artifact_name) >> ret true.

(** ** 4) Main *)

Definition sys_exit {A} (code : Z) : M A := raise (SystemExit code).

(** Lines 413-428, step 3: the loop over [CONFIG["ARTIFACTS"]], returning
    [all_valid]. *)
Fixpoint artifacts_loop (target_branch : pystr)
  (headers : list (pystr * pystr)) (github_org : pystr)
  (arts : list Artifact) (all_valid : bool) : M bool :=
  match arts with
  | [] => ret all_valid
  | artifact :: rest =>
      print (Validating (name artifact)) >>
      let* content :=
        _get_artifact_content target_branch (name artifact) headers
          github_org in
      if falsy_str content then
        artifacts_loop target_branch headers github_org rest false
      else
        let* ok :=
          _validate_artifact (default [] content) (name artifact) in
        if negb ok then
          artifacts_loop target_branch headers github_org rest false
        else
          print (ArtifactOk (name artifact)) >>
          artifacts_loop target_branch headers github_org rest all_valid
  end.

(** Lines 411-456: steps 3 to 5 of [main], entered once the target branch
    is verified. *)
Definition main_steps_3_to_5 (target_branch : pystr)
  (headers : list (pystr * pystr)) (github_org : pystr) : M unit :=
  (* step 3 *)
  print (Step 3) >>
  let* all_valid :=
    artifacts_loop target_branch headers github_org (ARTIFACTS cfg) true in
  if negb all_valid then
    print ArtifactsFailed >> sys_exit 1
  else
    (* step 4 *)
    print (Step 4) >>
    (if source_validation_enable cfg
     then print SourceValidationPlaceholder
     else print SourceValidationSkipped) >>
    (* step 5 *)
    print (Step 5) >>
    print (PolicyOk (forbid_modifying_existing_files cfg)
             (only_allow_artifacts cfg)) >>
    print (Summary github_org target_branch) >>
    sys_exit 0.

(** Lines 392-409, then [main_steps_3_to_5]. *)
Definition main : M unit :=
  print Banner >>
  (* step 1 *)
  print (Step 1) >>
  let* (github_token, github_org) := _load_github_env in
  if falsy_str github_token || falsy_str github_org then
    print EnvInitFailed >> sys_exit 1
  else
    let github_token := default [] github_token in
    let github_org := default [] github_org in
    let headers := _build_github_headers github_token in
    print (EnvReady github_org) >>
    (* step 2 *)
    print (Step 2) >>
    let target_branch := target_branch cfg in
    let* exists_ := _check_branch_existence target_branch headers github_org in
    if negb exists_ then sys_exit 1
    else main_steps_3_to_5 target_branch headers github_org.

(** The exit status of the process: the code of [sys.exit], 1 for any other
    uncaught exception, 0 when the script runs off its end. *)
Definition exit_status {A} (m : M A) : Z :=
  match result m with
  | Ret _ => 0
  | Raise (SystemExit code) => code
  | Raise _ => 1
  end.

End Script.

(** ** Vocabulary of the statements *)

(** The address [_call_github_api] requests for an endpoint. *)
Definition api_url (cfg : Config) (org endpoint : pystr) : pystr :=
  str "https://api.github.com/repos/" ++ org ++ str "/" ++ repo_name cfg
    ++ str "/" ++ endpoint.

Definition branch_endpoint (branch : pystr) : pystr :=
  str "branches/" ++ branch.

Definition contents_endpoint (branch file_name : pystr) : pystr :=
  str "contents/" ++ file_name ++ str "?ref=" ++ branch.

(** The credentials are present in the environment. *)
Definition env_loaded (cfg : Config) (world : World) (token org : pystr)
  : Prop :=
  environ world (env_file cfg) (github_token_var cfg) = Some token /\
  environ world (env_file cfg) (github_org_var cfg) = Some org /\
  nonempty token = true /\ nonempty org = true.

(** The addresses requested during a run, in order. *)
Definition requested (log : list event) : list pystr :=
  omap (fun ev => match ev with
                  | HttpGet url _ _ => Some url
                  | Print _ => None
                  end) log.

Definition printed (m : msg) (log : list event) : Prop := In (Print m) log.

Definition with_must_exist (cfg : Config) (b : bool) : Config := {|
  github_token_var := github_token_var cfg;
  github_org_var := github_org_var cfg;
  env_file := env_file cfg;
  repo_name := repo_name cfg;
  api_version := api_version cfg;
  auth_scheme := auth_scheme cfg;
  timeout := timeout cfg;
  target_branch := target_branch cfg;
  must_exist := b;
  ARTIFACTS := ARTIFACTS cfg;
  source_validation_enable := source_validation_enable cfg;
  forbid_modifying_existing_files := forbid_modifying_existing_files cfg;
  only_allow_artifacts := only_allow_artifacts cfg
|}.

(** *** Sample worlds *)

Definition sample_env (file var : pystr) : option pystr :=
  if pystr_eqb var (str "MCP_GITHUB_TOKEN") then Some (str "ghp_token")
  else if pystr_eqb var (str "GITHUB_EVAL_ORG") then Some (str "acme")
  else None.

(** Every request is answered alike. *)
Definition constant_world (r : http_result) : World := {|
  environ := sample_env;
  requests_get := fun _ _ _ => r
|}.

(** A library whose calls all fail: for statements in which no library call
    is reached or its answer does not matter. *)
Definition no_libs : Libs := {|
  json_loads := fun _ => None;
  json_loads_error := fun _ => JSONDecodeError;
  b64decode := fun _ => None;
  bytes_decode := fun _ _ => None
|}.

(** A contents response: [{"content": <base64>, "encoding": "base64"}]. *)
Definition contents_response (b64 : pystr) : http_result :=
  Response 200
    (Some (JObj [(str "content", JStr b64); (str "encoding", JStr (str "base64"))]))
    [].

(** *** Sample documents *)

(** [s * n] for a one-character [s]. *)
Definition times (c : char) (n : nat) : pystr := repeat c n.

(** [s.ljust(n, "x")] *)
Definition pad_to (n : nat) (s : pystr) : pystr :=
  s ++ times 120 (n - length s).

Definition join_lines (ls : list pystr) : pystr :=
  concat (map (fun l => l ++ [newline]) ls).

(** A report with both sections, the three keywords and the three
    contributor lines. *)
Definition report_body : pystr :=
  join_lines
    [ str "# Cross branch analysis";
      str "## Top Contributors";
      str "scott-oai: 35 commits";
      str "egorsmkv: 4 commits";
      str "axion66: 2 commits";
      str "## Branch Commit Summary";
      str "Every branch was inspected." ].

(** The same report followed by U+4E2D (three bytes in UTF-8) and padded to
    499 code points: 501 bytes. *)
Definition report_499_chars : pystr :=
  pad_to 499 (report_body ++ [20013%N]).


(** *** Sample timelines *)

Definition entry (day descr sha : string) : pystr :=
  str day ++ str " | " ++ str descr ++ str " | " ++ str sha.

Definition seven_entries : list pystr :=
  [ entry "2025-08-01" "Initial import" "0000000000000000000000000000000000000001";
    entry "2025-08-02" "Add parser" "0000000000000000000000000000000000000002";
    entry "2025-08-02" "Add renderer" "0000000000000000000000000000000000000003";
    entry "2025-08-03" "Fix typos" "0000000000000000000000000000000000000004";
    entry "2025-08-03" "Update README" "0000000000000000000000000000000000000005";
    entry "2025-08-04" "Bump version" "0000000000000000000000000000000000000006";
    entry "2025-08-04" "Add tests" "0000000000000000000000000000000000000007" ].

(** Ten well-formed lines, the three expected entries among them. *)
Definition good_timeline : pystr :=
  join_lines (seven_entries ++ expected_entries timeline_artifact_spec).

(** The same with a fifth line that is not an entry. *)
Definition timeline_bad_fifth : pystr :=
  join_lines (take 4 seven_entries ++ [str "merged by hand"]
              ++ drop 4 seven_entries
              ++ expected_entries timeline_artifact_spec).

(** Two lines, the second of which is not an entry. *)
Definition timeline_short_bad : pystr :=
  join_lines [ entry "2025-08-01" "Initial import"
                 "0000000000000000000000000000000000000001";
               str "merged by hand" ].

(** Seven well-formed lines. *)
Definition timeline_seven : pystr := join_lines seven_entries.

(** *** The commit ledger, declaratively *)

(** The sha a commit object carries. *)
Definition commit_sha (c : json) : option pystr :=
  match c with
  | JObj fields =>
      match dict_get (str "sha") fields with
      | Some (JStr s) => Some s
      | _ => None
      end
  | _ => None
  end.

(** The commits a branch entry is iterated as. *)
Definition branch_commits (v : json) : list json :=
  match py_iter v with
  | Ret cs => cs
  | Raise _ => []
  end.

Definition shas_of (cs : list json) : list pystr := omap commit_sha cs.

(** Every sha of the artifact, in the order the loops meet them. *)
Definition all_shas (items : list (pystr * json)) : list pystr :=
  concat (map (fun kv => shas_of (branch_commits (snd kv))) items).

Section Ledger.
Context {U : UnicodeDB}.
Variable rules : JsonSpec.

(** The commits the loop accepts, sha uniqueness apart. *)
Definition commit_ok (c : json) : bool :=
  match c with
  | JObj fields =>
      forallb (fun f => has_key f fields) (commit_fields rules) &&
      match dict_get (str "sha") fields, dict_get (str "author") fields,
            dict_get (str "files_changed") fields with
      | Some (JStr sha), Some author, Some files_changed =>
          re_match (sha_regex (field_rules rules)) sha &&
          match py_len author with
          | Ret n => author_min_len (field_rules rules) <=? n
          | Raise _ => false
          end &&
          isinstance_int files_changed &&
          (files_changed_min (field_rules rules) <=? int_value files_changed)%Z
      | _, _, _ => false
      end
  | _ => false
  end.

Definition branch_ok (v : json) : bool :=
  match py_len v with
  | Ret n =>
      (min_commits_per_branch rules <=? n) &&
      forallb commit_ok (branch_commits v)
  | Raise _ => false
  end.

(** What the validator accepts, stated on the parsed artifact. *)
Definition artifact_ok (items : list (pystr * json)) : Prop :=
  min_branches rules <= length items /\
  forallb (fun b => has_key b items) (expected_branches rules) = true /\
  forallb (fun kv => branch_ok (snd kv)) items = true /\
  NoDup (all_shas items).

(** A commit as the format describes it: an object with the four fields, a
    sha that matches the pattern, an author name that is long enough, a
    message of whatever kind and a count of changed files that is an integer
    and large enough.  Further fields are allowed. *)
Definition well_formed_commit (c : json) : Prop :=
  exists fields sha author message files_changed,
    c = JObj fields /\
    forallb (fun f => has_key f fields) (commit_fields rules) = true /\
    dict_get (str "sha") fields = Some (JStr sha) /\
    re_match (sha_regex (field_rules rules)) sha = true /\
    dict_get (str "author") fields = Some (JStr author) /\
    author_min_len (field_rules rules) <= length author /\
    dict_get (str "message") fields = Some message /\
    dict_get (str "files_changed") fields = Some (JInt files_changed) /\
    (files_changed_min (field_rules rules) <= files_changed)%Z.

(** A branch entry as the format describes it: an array of enough
    well-formed commits. *)
Definition well_formed_branch (v : json) : Prop :=
  exists cs,
    v = JArr cs /\
    min_commits_per_branch rules <= length cs /\
    forall c, In c cs -> well_formed_commit c.

End Ledger.

(** The shape of the artifact, values left open: an object whose entries are
    arrays of objects in which ["sha"] and ["author"], where present, are
    strings. *)
Definition field_is_str (k : pystr) (fields : list (pystr * json)) : bool :=
  match dict_get k fields with
  | Some (JStr _) | None => true
  | Some _ => false
  end.

Definition commit_shaped (c : json) : bool :=
  match c with
  | JObj fields =>
      field_is_str (str "sha") fields && field_is_str (str "author") fields
  | _ => false
  end.

Definition branch_shaped (v : json) : bool :=
  match v with
  | JArr cs => forallb commit_shaped cs
  | _ => false
  end.

Definition artifact_shaped (items : list (pystr * json)) : bool :=
  forallb (fun kv => branch_shaped (snd kv)) items.


(** *** Sample ledgers *)

Definition commit (sha author message : string) (files_changed : Z) : json :=
  JObj [ (str "sha", JStr (str sha)); (str "author", JStr (str author));
         (str "message", JStr (str message));
         (str "files_changed", JInt files_changed) ].

Definition three_commits (a b c : string) : json :=
  JArr [ commit a "scott-oai" "first change" 2;
         commit b "egorsmkv" "second change" 1;
         commit c "axion66" "third change" 5 ].

Definition sample_ledger : list (pystr * json) :=
  [ (str "pr/45-googlefan256-main",
     three_commits "1111111111111111111111111111111111111111"
                   "2222222222222222222222222222222222222222"
                   "3333333333333333333333333333333333333333");
    (str "pr/25-neuralsorcerer-patch-1",
     three_commits "4444444444444444444444444444444444444444"
                   "5555555555555555555555555555555555555555"
                   "6666666666666666666666666666666666666666");
    (str "pr/41-amirhosseinghanipour-fix-race-conditions-and-offline-api",
     three_commits "7777777777777777777777777777777777777777"
                   "8888888888888888888888888888888888888888"
                   "9999999999999999999999999999999999999999") ].

(** The same commits under three other branch names. *)
Definition ledger_other_names : list (pystr * json) :=
  [ (str "main", snd (default (str "", JNull) (sample_ledger !! 0)));
    (str "develop", snd (default (str "", JNull) (sample_ledger !! 1)));
    (str "release", snd (default (str "", JNull) (sample_ledger !! 2))) ].

(** A further, unrelated branch. *)
Definition extra_branch : pystr * json :=
  (str "feature/extra",
   three_commits "aaaaaaaaaaaaaaaaaaaaaaaaaaaaaaaaaaaaaaaa"
                 "bbbbbbbbbbbbbbbbbbbbbbbbbbbbbbbbbbbbbbbb"
                 "cccccccccccccccccccccccccccccccccccccccc").

(** The sample ledger with the first sha of the first branch repeated as the
    last sha of the third branch. *)
Definition ledger_with_duplicate : list (pystr * json) :=
  [ (str "pr/45-googlefan256-main",
     three_commits "1111111111111111111111111111111111111111"
                   "2222222222222222222222222222222222222222"
                   "3333333333333333333333333333333333333333");
    (str "pr/25-neuralsorcerer-patch-1",
     three_commits "4444444444444444444444444444444444444444"
                   "5555555555555555555555555555555555555555"
                   "6666666666666666666666666666666666666666");
    (str "pr/41-amirhosseinghanipour-fix-race-conditions-and-offline-api",
     three_commits "7777777777777777777777777777777777777777"
                   "8888888888888888888888888888888888888888"
                   "1111111111111111111111111111111111111111") ].

(** A parser that answers with one artifact whatever the text: the
    statements are about what follows the parse. *)
Definition parses_to (data : json) : Libs := {|
  json_loads := fun _ => Some data;
  json_loads_error := fun _ => JSONDecodeError;
  b64decode := fun _ => None;
  bytes_decode := fun _ _ => None
|}.

(** A parser given by a table from texts to artifacts. *)
Definition parses_by (table : list (pystr * json)) : Libs := {|
  json_loads := fun content => dict_get content table;
  json_loads_error := fun _ => JSONDecodeError;
  b64decode := fun _ => None;
  bytes_decode := fun _ _ => None
|}.


(** A ledger with three faults: a branch of two commits, a commit without
    its message, and a sha that is too short. *)
Definition two_commits : list json :=
  [ commit "1111111111111111111111111111111111111111" "scott-oai"
      "first change" 2;
    commit "2222222222222222222222222222222222222222" "egorsmkv"
      "second change" 1 ].

Definition commit_without_message : json :=
  JObj [ (str "sha", JStr (str "5555555555555555555555555555555555555555"));
         (str "author", JStr (str "egorsmkv"));
         (str "files_changed", JInt 1) ].

Definition commit_short_sha : json :=
  commit "6666" "axion66" "third change" 5.

Definition faulty_commits : list json :=
  [ commit "4444444444444444444444444444444444444444" "scott-oai"
      "first change" 2;
    commit_without_message;
    commit_short_sha ].

Definition ledger_three_faults : list (pystr * json) :=
  [ (str "pr/45-googlefan256-main", JArr two_commits);
    (str "pr/25-neuralsorcerer-patch-1", JArr faulty_commits);
    (str "pr/41-amirhosseinghanipour-fix-race-conditions-and-offline-api",
     three_commits "7777777777777777777777777777777777777777"
                   "8888888888888888888888888888888888888888"
                   "9999999999999999999999999999999999999999") ].

(** Four texts and what they parse to. *)
Definition sample_parser : Libs :=
  parses_by
    [ (str "ledger", JObj sample_ledger);
      (str "ledger without pr/45",
       JObj (dict_remove (str "pr/45-googlefan256-main") sample_ledger));
      (str "ledger with extra", JObj (extra_branch :: sample_ledger));
      (str "ledger with faults", JObj ledger_three_faults) ].

(** *** The artifact phase *)

Definition artifact_url (cfg : Config) (org : pystr) (art : Artifact)
  : pystr :=
  api_url cfg org (contents_endpoint (target_branch cfg) (name art)).

Section Phase.
Context {U : UnicodeDB} {L : Libs}.
Variable cfg : Config.
Variable world : World.
Variable headers : list (pystr * pystr).
Variable org : pystr.

(** The content of an artifact that reaches the validator: fetched, decoded
    and not empty. *)
Definition fetched (art : Artifact) : option pystr :=
  match
    result (_get_artifact_content cfg world (target_branch cfg) (name art)
              headers org)
  with
  | Ret (Some content) => if nonempty content then Some content else None
  | _ => None
  end.

(** The artifact is there and valid. *)
Definition artifact_passes (art : Artifact) : Prop :=
  exists content,
    fetched art = Some content /\
    result (_validate_artifact cfg content (name art)) = Ret true.

(** No validation that takes place ends in an exception. *)
Definition validations_return : Prop :=
  forall art content,
    In art (ARTIFACTS cfg) -> fetched art = Some content ->
    exists ok, result (_validate_artifact cfg content (name art)) = Ret ok.

End Phase.

(** A stand-in codec under which the transfer encoding is the identity. *)
Definition identity_codec : Libs := {|
  json_loads := fun _ => None;
  json_loads_error := fun _ => JSONDecodeError;
  b64decode := fun s => Some s;
  bytes_decode := fun raw _ => Some raw
|}.

(** [CONFIG] with the narrative document as its only artifact. *)
Definition CONFIG_md_only : Config := {|
  github_token_var := github_token_var CONFIG;
  github_org_var := github_org_var CONFIG;
  env_file := env_file CONFIG;
  repo_name := repo_name CONFIG;
  api_version := api_version CONFIG;
  auth_scheme := auth_scheme CONFIG;
  timeout := timeout CONFIG;
  target_branch := target_branch CONFIG;
  must_exist := must_exist CONFIG;
  ARTIFACTS := [CROSS_BRANCH_ANALYSIS];
  source_validation_enable := source_validation_enable CONFIG;
  forbid_modifying_existing_files := forbid_modifying_existing_files CONFIG;
  only_allow_artifacts := only_allow_artifacts CONFIG
|}.

(** A world that answers every request with a valid report of 600 code
    points. *)
Definition report_world : World :=
  constant_world (contents_response (pad_to 600 report_body)).

(** *** Further sample data *)



(** The server answers 200 with a page that is not JSON. *)
Definition html_world : World :=
  constant_world (Response 200 None (str "<html>ok</html>")).

(** The validator returned [True]. *)
Definition passed (run : M bool) : bool :=
  match result run with
  | Ret true => true
  | _ => false
  end.

(** A repository in which the three artifacts are in place and valid.  The
    server sends each file as a token that the stand-in codec decodes to the
    text of the file, and the stand-in parser loads the text of the ledger as
    the sample ledger. *)
Definition ledger_text : pystr := str "{ the sample ledger, as JSON text }".

Definition intact_libs : Libs := {|
  json_loads := fun content =>
    if pystr_eqb content ledger_text then Some (JObj sample_ledger) else None;
  json_loads_error := fun _ => JSONDecodeError;
  b64decode := fun s =>
    if pystr_eqb s (str "TEVER0VS") then Some ledger_text
    else if pystr_eqb s (str "UkVQT1JU") then Some (pad_to 600 report_body)
    else if pystr_eqb s (str "VElNRUxJTkU=") then Some good_timeline
    else None;
  bytes_decode := fun raw encoding =>
    if pystr_eqb encoding (str "utf-8") then Some raw else None
|}.

Definition intact_world : World := {|
  environ := sample_env;
  requests_get := fun url _ _ =>
    if pystr_eqb url (artifact_url CONFIG (str "acme") BRANCH_COMMITS)
    then contents_response (str "TEVER0VS")
    else if pystr_eqb url
              (artifact_url CONFIG (str "acme") CROSS_BRANCH_ANALYSIS)
    then contents_response (str "UkVQT1JU")
    else if pystr_eqb url (artifact_url CONFIG (str "acme") MERGE_TIMELINE)
    then contents_response (str "VElNRUxJTkU=")
    else Response 200
           (Some (JObj [(str "name", JStr (target_branch CONFIG))])) []
|}.

(** ** Vocabulary of the further statements *)

(** The requests of a run with their headers and timeout. *)
Definition gets (log : list event)
  : list (pystr * list (pystr * pystr) * N) :=
  omap (fun ev => match ev with
                  | HttpGet url headers t => Some (url, headers, t)
                  | Print _ => None
                  end) log.

(** The [content] field as line 226 reads it: the empty string when the
    key is absent. *)
Definition content_field (items : list (pystr * json)) : json :=
  match dict_get (str "content") items with
  | Some v => v
  | None => JStr []
  end.

(** The encoding line 230 ends up with: the declared one, or ["utf-8"] when
    the declared one is the empty string. *)
Definition effective_encoding (declared : pystr) : pystr :=
  if nonempty declared then declared else str "utf-8".

(** *** Further sample worlds *)

(** No variable is set. *)
Definition empty_env_world : World := {|
  environ := fun _ _ => None;
  requests_get := fun _ _ _ => RequestFailed
|}.

(** The server answers every request with an error page. *)
Definition error_world : World :=
  constant_world (Response 500 None (str "Internal Server Error")).

(** *** What the ledger validator accepts, spelled out *)

(** A commit the inner loop lets through: an object with every required
    field, a string sha that matches the pattern, an author that has a
    length of at least the minimum (a string, but also an array or an
    object), and a count of changed files that is an [int] (a JSON integer
    or boolean) of at least the minimum. *)
Definition accepted_commit {U : UnicodeDB} (rules : JsonSpec) (c : json)
  : Prop :=
  exists fields sha author n files_changed,
    c = JObj fields /\
    (forall f, In f (commit_fields rules) -> has_key f fields = true) /\
    dict_get (str "sha") fields = Some (JStr sha) /\
    re_match (sha_regex (field_rules rules)) sha = true /\
    dict_get (str "author") fields = Some author /\
    py_len author = Ret n /\
    author_min_len (field_rules rules) <= n /\
    dict_get (str "files_changed") fields = Some files_changed /\
    isinstance_int files_changed = true /\
    (files_changed_min (field_rules rules) <= int_value files_changed)%Z.

Definition accepted_artifact {U : UnicodeDB} (rules : JsonSpec)
  (items : list (pystr * json)) : Prop :=
  min_branches rules <= length items /\
  (forall b, In b (expected_branches rules) -> exists v, In (b, v) items) /\
  (forall b v, In (b, v) items ->
     exists cs, v = JArr cs /\ min_commits_per_branch rules <= length cs /\
                forall c, In c cs -> accepted_commit rules c) /\
  NoDup (all_shas items).

(** Pure scalars: the values on which [len] raises. *)
Definition is_scalar (v : json) : bool :=
  match v with
  | JNull | JBool _ | JInt _ | JFloat _ _ => true
  | _ => false
  end.

(** *** What a pattern matches

    The usual meaning of a regular expression, against which the matcher is
    checked. *)
Inductive matches {U : UnicodeDB} : regex -> pystr -> Prop :=
| MEps : matches Eps []
| MClass (cl : char_class) (c : char) :
    class_mem cl c = true -> matches (Class cl) [c]
| MSeq (r1 r2 : regex) (s1 s2 : pystr) :
    matches r1 s1 -> matches r2 s2 -> matches (Seq r1 r2) (s1 ++ s2)
| MAltL (r1 r2 : regex) (s : pystr) :
    matches r1 s -> matches (Alt r1 r2) s
| MAltR (r1 r2 : regex) (s : pystr) :
    matches r2 s -> matches (Alt r1 r2) s
| MStarNil (r : regex) : matches (Star r) []
| MStarCons (r : regex) (s1 s2 : pystr) :
    matches r s1 -> matches (Star r) s2 -> matches (Star r) (s1 ++ s2).

(** A lowercase hexadecimal digit. *)
Definition is_hex (c : char) : Prop :=
  (48 <= c <= 57)%N \/ (97 <= c <= 102)%N.

(** [s] with an optional newline at its end: what [$] lets through. *)
Definition up_to_final_newline (s body : pystr) : Prop :=
  s = body \/ s = body ++ [newline].

(** A line of the merge log:
    [<4 digits>-<2 digits>-<2 digits> | <text> | <40 hex digits>]. *)
Definition timeline_entry (y m d text sha : pystr) : pystr :=
  y ++ str "-" ++ m ++ str "-" ++ d ++ str " | " ++ text ++ str " | " ++ sha.

(** The sample ledger with a fourth entry that is a number, not a list of
    commits. *)
Definition ledger_with_number : list (pystr * json) :=
  sample_ledger ++ [(str "notes", JInt 7)].

(** A [json.loads] that raises [e], not a [JSONDecodeError], on every
    text. *)
Definition loads_raises (e : exn) : Libs := {|
  json_loads := fun _ => None;
  json_loads_error := fun _ => OtherError e;
  b64decode := fun _ => None;
  bytes_decode := fun _ _ => None
|}.

(** * Properties *)

(** ** Strings *)

Lemma pystr_eqb_eq (a b : pystr) : pystr_eqb a b = true <-> a = b.
Proof.
  revert b; induction a as [|x a IH]; intros [|y b]; simpl; try easy.
  rewrite andb_true_iff, N.eqb_eq, IH. split.
  - intros [-> ->]; reflexivity.
  - intros [= -> ->]; auto.
Qed.

Lemma pystr_eqb_refl (a : pystr) : pystr_eqb a a = true.
Proof. apply pystr_eqb_eq; reflexivity. Qed.

Lemma pystr_eqb_neq (a b : pystr) : a <> b -> pystr_eqb a b = false.
Proof.
  intros Hne. destruct (pystr_eqb a b) eqn:E; [|reflexivity].
  apply pystr_eqb_eq in E. contradiction.
Qed.

Lemma startswith_app (p s : pystr) : startswith p (p ++ s) = true.
Proof. induction p as [|x p IH]; simpl; [|rewrite N.eqb_refl]; auto. Qed.

Lemma startswith_prefix (p s : pystr) :
  startswith p s = true <-> exists t, s = p ++ t.
Proof.
  split.
  - revert s; induction p as [|x p IH]; intros s H; simpl in *.
    + exists s; reflexivity.
    + destruct s as [|y s]; [discriminate|].
      apply andb_true_iff in H as [Hxy H]. apply N.eqb_eq in Hxy as ->.
      destruct (IH _ H) as [t ->]. exists t; reflexivity.
  - intros [t ->]. apply startswith_app.
Qed.

Lemma contains_unfold (s sub : pystr) :
  contains s sub =
  startswith sub s || match s with [] => false | _ :: s' => contains s' sub end.
Proof. by destruct s. Qed.

(** [sub in s] holds exactly when [s] is [pre ++ sub ++ post]. *)
Lemma contains_infix (s sub : pystr) :
  contains s sub = true <-> exists pre post, s = pre ++ sub ++ post.
Proof.
  split.
  - induction s as [|c s IH]; simpl; rewrite orb_true_iff.
    + intros [H|H]; [|discriminate].
      apply startswith_prefix in H as [t ->]. exists [], t; reflexivity.
    + intros [H|H].
      * apply startswith_prefix in H as [t ->]. exists [], t; reflexivity.
      * destruct (IH H) as (pre & post & ->). exists (c :: pre), post.
        reflexivity.
  - intros (pre & post & ->). induction pre as [|c pre IH].
    + rewrite contains_unfold. simpl app. by rewrite startswith_app.
    + simpl. rewrite IH. apply orb_true_r.
Qed.

Lemma contains_app_l (s t sub : pystr) :
  contains s sub = true -> contains (s ++ t) sub = true.
Proof.
  rewrite !contains_infix. intros (pre & post & ->).
  exists pre, (post ++ t). rewrite <- !app_assoc. reflexivity.
Qed.

Lemma utf8_width_pos (c : char) : 1 <= utf8_width c.
Proof. unfold utf8_width. repeat case_match; lia. Qed.

(** A text has at least as many bytes as code points. *)
Lemma length_le_utf8_length (s : pystr) : length s <= utf8_length s.
Proof.
  induction s as [|c s IH]; [reflexivity|].
  pose proof (utf8_width_pos c).
  change (S (length s) <= utf8_width c + utf8_length s). lia.
Qed.

Lemma nonempty_false {A} (l : list A) : nonempty l = false <-> l = [].
Proof. destruct l; simpl; split; congruence. Qed.

Lemma filter_nil_forallb {A} (f : A -> bool) (l : list A) :
  List.filter (fun x => negb (f x)) l = [] <-> forallb f l = true.
Proof.
  induction l as [|x l IH]; simpl; [tauto|].
  destruct (f x); simpl; [exact IH | split; discriminate].
Qed.

(** ** The monad *)

Lemma result_bind {A B} (m : M A) (f : A -> M B) :
  result (bind m f) =
  match result m with
  | Ret a => result (f a)
  | Raise e => Raise e
  end.
Proof. destruct m as [l [a|e]]; simpl; [by destruct (f a) | done]. Qed.

Lemma output_bind {A B} (m : M A) (f : A -> M B) :
  output (bind m f) =
  output m ++ match result m with
              | Ret a => output (f a)
              | Raise _ => []
              end.
Proof.
  destruct m as [l [a|e]]; simpl; [by destruct (f a) | by rewrite app_nil_r].
Qed.

Lemma M_eta {A} (m : M A) : m = (output m, result m).
Proof. by destruct m. Qed.

(** The two equations evaluate a [bind] once its first computation is
    known. *)
Lemma bind_Ret {A B} (m : M A) (f : A -> M B) l a :
  m = (l, Ret a) -> bind m f = (l ++ output (f a), result (f a)).
Proof. intros ->. simpl. by destruct (f a). Qed.

Lemma bind_Raise {A B} (m : M A) (f : A -> M B) l e :
  m = (l, Raise e) -> bind m f = (l, Raise e).
Proof. by intros ->. Qed.

Lemma bind_ret_l {A B} (a : A) (f : A -> M B) : bind (ret a) f = f a.
Proof. unfold bind, ret. by destruct (f a). Qed.

Lemma bind_lift_Ret {A B} (a : A) (f : A -> M B) : bind (lift (Ret a)) f = f a.
Proof. apply bind_ret_l. Qed.

Lemma bind_lift_Raise {A B} e (f : A -> M B) :
  bind (lift (Raise e)) f = raise e.
Proof. reflexivity. Qed.

Lemma bind_print {B} (m : msg) (k : M B) :
  bind (print m) (fun _ => k) = (Print m :: output k, result k).
Proof. unfold bind, print. by destruct k. Qed.

Lemma result_bind_Ret {A B} (m : M A) (f : A -> M B) (b : B) :
  result (bind m f) = Ret b ->
  exists a, result m = Ret a /\ result (f a) = Ret b.
Proof.
  rewrite result_bind. destruct (result m) as [a|e]; [eauto | discriminate].
Qed.

Lemma result_try_except {A} (m : M A) (h : exn -> M A) :
  result (try_except m h) =
  match result m with
  | Ret a => Ret a
  | Raise e => if is_Exception e then result (h e) else Raise e
  end.
Proof.
  destruct m as [l [a|e]]; simpl; [reflexivity|].
  destruct (is_Exception e); [by destruct (h e) | done].
Qed.

Lemma output_try_except {A} (m : M A) (h : exn -> M A) :
  output (try_except m h) =
  output m ++ match result m with
              | Ret a => []
              | Raise e => if is_Exception e then output (h e) else []
              end.
Proof.
  destruct m as [l [a|e]]; simpl; [by rewrite app_nil_r|].
  destruct (is_Exception e); simpl; [by destruct (h e) | by rewrite app_nil_r].
Qed.

(** ** The API client *)

Lemma falsy_str_Some (s : pystr) :
  nonempty s = true -> falsy_str (Some s) = false.
Proof. unfold falsy_str. by intros ->. Qed.

Section Client.
Context {U : UnicodeDB} {L : Libs}.
Variable cfg : Config.
Variable world : World.

(** What [_call_github_api] does, by the answer of the network.  It never
    raises. *)
Lemma call_github_api_eq endpoint headers org :
  _call_github_api cfg world endpoint headers org =
  (HttpGet (api_url cfg org endpoint) headers (timeout cfg) ::
   match requests_get world (api_url cfg org endpoint) headers (timeout cfg) with
   | Response status body text =>
       if (status =? 200)%Z then
         match body with
         | Some _ => []
         | None => [Print (ApiException endpoint ValueError)]
         end
       else if (status =? 404)%Z then [Print (ApiNotFound endpoint)]
       else [Print (ApiRequestFailed endpoint status);
             Print (ApiResponseText (take 200 text))]
   | RequestFailed => [Print (ApiException endpoint RequestError)]
   end,
   Ret match requests_get world (api_url cfg org endpoint) headers (timeout cfg) with
       | Response status (Some data) _ =>
           if (status =? 200)%Z then (true, data) else (false, JNull)
       | _ => (false, JNull)
       end).
Proof.
  unfold _call_github_api, http_call. fold (api_url cfg org endpoint).
  destruct (requests_get world _ headers _) as [status [data|] text|]; simpl;
    try reflexivity;
    destruct (status =? 200)%Z; simpl; try reflexivity;
    destruct (status =? 404)%Z; reflexivity.
Qed.

Lemma call_github_api_returns endpoint headers org :
  exists l success data,
    _call_github_api cfg world endpoint headers org = (l, Ret (success, data)).
Proof.
  rewrite call_github_api_eq.
  match goal with |- context [Ret ?a] => destruct a as [success data] end.
  eauto.
Qed.

Lemma check_branch_200 branch headers org data text :
  requests_get world (api_url cfg org (branch_endpoint branch)) headers
    (timeout cfg) = Response 200 (Some data) text ->
  _check_branch_existence cfg world branch headers org =
  ([HttpGet (api_url cfg org (branch_endpoint branch)) headers (timeout cfg);
    Print (BranchExists branch)], Ret true).
Proof.
  intros H. unfold _check_branch_existence. fold (branch_endpoint branch).
  rewrite call_github_api_eq, H. reflexivity.
Qed.

Lemma check_branch_404 branch headers org body text :
  requests_get world (api_url cfg org (branch_endpoint branch)) headers
    (timeout cfg) = Response 404 body text ->
  _check_branch_existence cfg world branch headers org =
  ([HttpGet (api_url cfg org (branch_endpoint branch)) headers (timeout cfg);
    Print (ApiNotFound (branch_endpoint branch));
    Print (if must_exist cfg then BranchMissingAbort branch
           else BranchMissingContinue branch)],
   Ret (negb (must_exist cfg))).
Proof.
  intros H. unfold _check_branch_existence. fold (branch_endpoint branch).
  rewrite call_github_api_eq, H.
  destruct body, (must_exist cfg); reflexivity.
Qed.

(** [main] up to the branch check, once the credentials are there. *)
Lemma main_env_loaded token org :
  env_loaded cfg world token org ->
  main cfg world =
  let headers := _build_github_headers cfg token in
  let check :=
    _check_branch_existence cfg world (target_branch cfg) headers org in
  let rest :=
    match result check with
    | Ret true => main_steps_3_to_5 cfg world (target_branch cfg) headers org
    | Ret false => sys_exit 1
    | Raise e => raise e
    end in
  (Print Banner :: Print (Step 1) :: Print (EnvReady org) :: Print (Step 2) ::
     output check ++ output rest,
   result rest).
Proof.
  intros (Ht & Ho & Hnt & Hno). unfold main, _load_github_env.
  rewrite Ht, Ho, !falsy_str_Some by assumption.
  cbn [negb orb default]. rewrite !bind_print, !bind_ret_l, !bind_print.
  rewrite !falsy_str_Some by assumption.
  cbn [output result fst snd negb orb default].
  destruct (_check_branch_existence _ _ _ _ _) as [l [[|]|e]];
    cbn [bind negb output result fst snd].
  - by destruct (main_steps_3_to_5 _ _ _ _ _).
  - reflexivity.
  - by rewrite app_nil_r.
Qed.

End Client.

Section ClientTheorems.
Context {U : UnicodeDB} {L : Libs}.

Lemma main_steps_3_to_5_starts cfg world branch headers org :
  printed (Step 3) (output (main_steps_3_to_5 cfg world branch headers org)).
Proof. unfold main_steps_3_to_5. rewrite bind_print. by left. Qed.

(** C8, amended: branch-existence check.  With the credentials loaded, a
    200 answer that carries a JSON body makes the check pass and the run go
    on to step 3;
    a 404 answer on a mandatory branch makes the check fail and the program
    stop with exit status 1 before any artifact is requested; a 404 answer on
    a branch that is not mandatory makes the check pass with a warning and
    the run go on to step 3. *)
Theorem branch_existence_check (cfg : Config) (world : World)
  (token org : pystr) :
  env_loaded cfg world token org ->
  let headers := _build_github_headers cfg token in
  let branch := target_branch cfg in
  let url := api_url cfg org (branch_endpoint branch) in
  let check := _check_branch_existence cfg world branch headers org in
  let answer := requests_get world url headers (timeout cfg) in
  (forall data text, answer = Response 200 (Some data) text ->
     check = ([HttpGet url headers (timeout cfg); Print (BranchExists branch)],
              Ret true) /\
     printed (Step 3) (output (main cfg world))) /\
  (forall body text, answer = Response 404 body text ->
     must_exist cfg = true ->
     result check = Ret false /\
     main cfg world =
       ([Print Banner; Print (Step 1); Print (EnvReady org); Print (Step 2);
         HttpGet url headers (timeout cfg);
         Print (ApiNotFound (branch_endpoint branch));
         Print (BranchMissingAbort branch)],
        Raise (SystemExit 1)) /\
     exit_status (main cfg world) = 1%Z) /\
  (forall body text, answer = Response 404 body text ->
     must_exist cfg = false ->
     check = ([HttpGet url headers (timeout cfg);
               Print (ApiNotFound (branch_endpoint branch));
               Print (BranchMissingContinue branch)],
              Ret true) /\
     printed (Step 3) (output (main cfg world))).
Proof.
  intros Henv headers branch url check answer.
  pose proof (main_env_loaded cfg world token org Henv) as Hmain.
  cbv zeta in Hmain. fold headers branch check in Hmain.
  split; [|split].
  - intros data text Ha.
    pose proof (check_branch_200 cfg world branch headers org data text Ha)
      as Hc.
    fold url check in Hc. split; [exact Hc|].
    rewrite Hmain, Hc. cbn [result output fst snd]. unfold printed.
    do 6 right. apply main_steps_3_to_5_starts.
  - intros body text Ha Hm.
    pose proof (check_branch_404 cfg world branch headers org body text Ha)
      as Hc.
    fold url check in Hc. rewrite Hm in Hc. cbn [negb] in Hc.
    assert (Hm1 : main cfg world =
       ([Print Banner; Print (Step 1); Print (EnvReady org); Print (Step 2);
         HttpGet url headers (timeout cfg);
         Print (ApiNotFound (branch_endpoint branch));
         Print (BranchMissingAbort branch)],
        Raise (SystemExit 1))).
    { rewrite Hmain, Hc. reflexivity. }
    split; [by rewrite Hc|]. split; [exact Hm1|]. by rewrite Hm1.
  - intros body text Ha Hm.
    pose proof (check_branch_404 cfg world branch headers org body text Ha)
      as Hc.
    fold url check in Hc. rewrite Hm in Hc. cbn [negb] in Hc.
    split; [exact Hc|].
    rewrite Hmain, Hc. cbn [result output fst snd]. unfold printed.
    do 7 right. apply main_steps_3_to_5_starts.
Qed.

(** C10: an artifact name outside the three configured ones is not
    validated: the router prints the skip warning and returns [True],
    whatever the content. *)
Theorem validate_artifact_unsupported (cfg : Config)
  (content artifact_name : pystr) :
  artifact_name <> str "BRANCH_COMMITS.json" ->
  artifact_name <> str "CROSS_BRANCH_ANALYSIS.md" ->
  artifact_name <> str "MERGE_TIMELINE.txt" ->
  _validate_artifact cfg content artifact_name =
  ([Print (UnsupportedArtifact artifact_name)], Ret true).
Proof.
  intros H1 H2 H3. unfold _validate_artifact.
  by rewrite !pystr_eqb_neq.
Qed.

(** *** Fetching an artifact *)

Lemma next_encoding_json :
  next_encoding CONFIG (str "BRANCH_COMMITS.json") = raise StopIteration.
Proof. reflexivity. Qed.

Lemma next_encoding_txt :
  next_encoding CONFIG (str "MERGE_TIMELINE.txt") = raise StopIteration.
Proof. reflexivity. Qed.

Lemma next_encoding_md :
  next_encoding CONFIG (str "CROSS_BRANCH_ANALYSIS.md") = ret (str "utf-8").
Proof. reflexivity. Qed.

(** Whenever the lookup of the encoding raises [StopIteration], the
    function returns [None]: after a failed request because nothing was
    found, after a successful one because the [except] clause catches the
    exception of [next]. *)
Lemma get_artifact_content_no_encoding cfg world branch file_name headers org :
  next_encoding cfg file_name = raise StopIteration ->
  result (_get_artifact_content cfg world branch file_name headers org)
  = Ret None.
Proof.
  intros Hnext. unfold _get_artifact_content.
  destruct (call_github_api_returns cfg world
              (str "contents/" ++ file_name ++ str "?ref=" ++ branch)
              headers org) as (l & success & file_data & ->).
  rewrite result_bind. cbn [result snd].
  destruct (negb _ || negb _); [reflexivity|].
  rewrite result_try_except, result_bind.
  destruct (py_get _ _ _) as [content|e] eqn:Eget; cbn [lift result snd].
  - rewrite result_bind.
    destruct (py_replace_newline content) as [b64|e] eqn:Erep;
      cbn [lift result snd].
    + rewrite Hnext. reflexivity.
    + by destruct content; inversion Erep.
  - unfold py_get in Eget.
    by destruct file_data; try destruct (dict_get _ _); inversion Eget.
Qed.

(** C1, as the code has it: the two configured artifacts whose schema
    declares no encoding are never returned.  For [BRANCH_COMMITS.json] and
    [MERGE_TIMELINE.txt] [_get_artifact_content] yields [None] whatever the
    network answers and whatever the decoders do; the default ["utf-8"] is
    never reached. *)
Theorem get_artifact_content_undeclared_encoding (world : World)
  (branch : pystr) (headers : list (pystr * pystr)) (org : pystr) :
  result (_get_artifact_content CONFIG world branch
            (str "BRANCH_COMMITS.json") headers org) = Ret None /\
  result (_get_artifact_content CONFIG world branch
            (str "MERGE_TIMELINE.txt") headers org) = Ret None.
Proof.
  split; apply get_artifact_content_no_encoding;
    [apply next_encoding_json | apply next_encoding_txt].
Qed.

(** With a declared encoding the function does what is expected of it. *)
Lemma get_artifact_content_md world branch headers org items b64 raw text rest :
  requests_get world
    (api_url CONFIG org
       (contents_endpoint branch (str "CROSS_BRANCH_ANALYSIS.md")))
    headers (timeout CONFIG) = Response 200 (Some (JObj items)) rest ->
  dict_get (str "content") items = Some (JStr b64) ->
  b64decode (remove_char newline b64) = Some raw ->
  bytes_decode raw (str "utf-8") = Some text ->
  result (_get_artifact_content CONFIG world branch
            (str "CROSS_BRANCH_ANALYSIS.md") headers org) = Ret (Some text).
Proof.
  intros Hget Hc Hb Hd. unfold _get_artifact_content.
  fold (contents_endpoint branch (str "CROSS_BRANCH_ANALYSIS.md")).
  rewrite call_github_api_eq, Hget, result_bind. cbn [result snd Z.eqb Pos.eqb].
  assert (Ht : truthy (JObj items) = true) by (by destruct items).
  rewrite Ht. cbn [negb orb].
  rewrite result_try_except, result_bind. unfold py_get. rewrite Hc.
  cbn [lift result snd]. rewrite result_bind. cbn [py_replace_newline lift result snd].
  rewrite next_encoding_md, bind_ret_l, result_bind.
  unfold decode_base64. rewrite Hb. cbn [nonempty]. 
  change (if nonempty (str "utf-8") then str "utf-8" else str "utf-8")
    with (str "utf-8").
  rewrite Hd. reflexivity.
Qed.

End ClientTheorems.

Lemma sample_env_loaded (r : http_result) :
  env_loaded CONFIG (constant_world r) (str "ghp_token") (str "acme").
Proof. repeat split. Defined.

(** C8, refuted as stated: a 200 answer whose body is not JSON does not
    make the check pass.  [response.json()] raises inside the [try] of
    [_call_github_api], the call counts as failed and, the branch being
    mandatory, the run stops with status 1 before step 3. *)
Lemma branch_existence_200_without_json :
  requests_get html_world
    (api_url CONFIG (str "acme") (branch_endpoint (target_branch CONFIG)))
    (_build_github_headers CONFIG (str "ghp_token")) (timeout CONFIG)
  = Response 200 None (str "<html>ok</html>") /\
  result (_check_branch_existence CONFIG html_world (target_branch CONFIG)
            (_build_github_headers CONFIG (str "ghp_token")) (str "acme"))
  = Ret false /\
  main (L := no_libs) CONFIG html_world =
  ([Print Banner; Print (Step 1); Print (EnvReady (str "acme"));
    Print (Step 2);
    HttpGet
      (api_url CONFIG (str "acme") (branch_endpoint (target_branch CONFIG)))
      (_build_github_headers CONFIG (str "ghp_token")) (timeout CONFIG);
    Print (ApiException (branch_endpoint (target_branch CONFIG)) ValueError);
    Print (BranchMissingAbort (target_branch CONFIG))],
   Raise (SystemExit 1)).
Proof.
  split; [reflexivity|]. split; vm_compute; reflexivity.
Qed.

Lemma branch_existence_check_witness :
  printed (Step 3)
    (output (main (L := no_libs) CONFIG
               (constant_world (Response 200 (Some (JObj [])) [])))) /\
  exit_status (main (L := no_libs) CONFIG
                 (constant_world (Response 404 None []))) = 1%Z /\
  printed (Step 3)
    (output (main (L := no_libs) (with_must_exist CONFIG false)
               (constant_world (Response 404 None [])))).
Proof.
  split; [|split].
  - pose proof (branch_existence_check (L := no_libs) CONFIG
              (constant_world (Response 200 (Some (JObj [])) []))
              (str "ghp_token") (str "acme") (sample_env_loaded _)) as H.
    apply (proj1 H (JObj []) [] eq_refl).
  - pose proof (branch_existence_check (L := no_libs) CONFIG
              (constant_world (Response 404 None []))
              (str "ghp_token") (str "acme") (sample_env_loaded _)) as H.
    apply (proj1 (proj2 H) None [] eq_refl eq_refl).
  - pose proof (branch_existence_check (L := no_libs)
              (with_must_exist CONFIG false)
              (constant_world (Response 404 None []))
              (str "ghp_token") (str "acme") (sample_env_loaded _)) as H.
    apply (proj2 (proj2 H) None [] eq_refl eq_refl).
Defined.

Lemma validate_artifact_unsupported_witness :
  _validate_artifact (L := no_libs) CONFIG (str "# notes") (str "README.md") =
  ([Print (UnsupportedArtifact (str "README.md"))], Ret true).
Proof.
  apply (validate_artifact_unsupported (L := no_libs)); discriminate.
Defined.

(** ** The narrative document *)

Section Markdown.
Context {U : UnicodeDB}.

(** The four checks of [_validate_cross_branch_md], in order. *)
Lemma validate_cross_branch_md_eq (content : pystr) :
  let md := md_artifact_spec in
  let missing_sections :=
    List.filter (fun s => negb (contains content s)) (required_sections md) in
  let missing_keywords :=
    List.filter (fun k => negb (contains (lower content) (lower k)))
      (must_contain_keywords md) in
  let missing_contributors :=
    List.filter (fun c => negb (contains content c))
      (expected_contributors md) in
  _validate_cross_branch_md CONFIG content =
  if length content <? min_length md then
    ([Print (DocTooShort (min_length md) (length content))], Ret false)
  else if nonempty missing_sections then
    ([Print LengthOk; Print (MissingSections missing_sections)], Ret false)
  else if nonempty missing_keywords then
    ([Print LengthOk; Print SectionsOk;
      Print (MissingKeywords missing_keywords)], Ret false)
  else if nonempty missing_contributors then
    ([Print LengthOk; Print SectionsOk; Print KeywordsOk;
      Print (MissingContributors missing_contributors)], Ret false)
  else
    ([Print LengthOk; Print SectionsOk; Print KeywordsOk;
      Print ContributorsOk], Ret true).
Proof.
  intros md ms mk mc. unfold _validate_cross_branch_md.
  change (artifact_named CONFIG (str "CROSS_BRANCH_ANALYSIS.md"))
    with (ret CROSS_BRANCH_ANALYSIS).
  rewrite bind_ret_l.
  change (md_spec CROSS_BRANCH_ANALYSIS) with (ret md).
  rewrite bind_ret_l. fold ms mk mc.
  destruct (length content <? min_length md); [reflexivity|].
  destruct (nonempty ms); [reflexivity|].
  destruct (nonempty mk); [reflexivity|].
  destruct (nonempty mc); reflexivity.
Qed.

(** The validator returns a verdict for every text. *)
Lemma validate_cross_branch_md_total (content : pystr) :
  exists verdict,
    result (_validate_cross_branch_md CONFIG content) = Ret verdict.
Proof.
  rewrite validate_cross_branch_md_eq. cbv zeta.
  repeat case_match; eauto.
Qed.


(** A file of fewer than 500 bytes is rejected on its length. *)
Lemma validate_cross_branch_md_short (content : pystr) :
  utf8_length content < 500 ->
  _validate_cross_branch_md CONFIG content =
  ([Print (DocTooShort 500 (length content))], Ret false).
Proof.
  intros Hlen. rewrite validate_cross_branch_md_eq. cbv zeta.
  pose proof (length_le_utf8_length content).
  change (min_length md_artifact_spec) with 500.
  destruct (Nat.ltb_spec (length content) 500); [reflexivity | lia].
Qed.

(** A text of at least 500 code points with every required section,
    keyword and contributor line passes. *)
Lemma validate_cross_branch_md_pass (content : pystr) :
  500 <= length content ->
  (forall s, In s (required_sections md_artifact_spec) ->
             contains content s = true) ->
  (forall k, In k (must_contain_keywords md_artifact_spec) ->
             contains (lower content) (lower k) = true) ->
  (forall c, In c (expected_contributors md_artifact_spec) ->
             contains content c = true) ->
  _validate_cross_branch_md CONFIG content =
  ([Print LengthOk; Print SectionsOk; Print KeywordsOk; Print ContributorsOk],
   Ret true).
Proof.
  intros Hlen Hs Hk Hc. rewrite validate_cross_branch_md_eq. cbv zeta.
  change (min_length md_artifact_spec) with 500.
  destruct (Nat.ltb_spec (length content) 500); [lia|].
  assert (E1 : List.filter (fun s => negb (contains content s))
                 (required_sections md_artifact_spec) = []).
  { apply (filter_nil_forallb (contains content)), forallb_forall, Hs. }
  assert (E2 : List.filter
                 (fun k => negb (contains (lower content) (lower k)))
                 (must_contain_keywords md_artifact_spec) = []).
  { apply (filter_nil_forallb (fun k => contains (lower content) (lower k))),
      forallb_forall, Hk. }
  assert (E3 : List.filter (fun c => negb (contains content c))
                 (expected_contributors md_artifact_spec) = []).
  { apply (filter_nil_forallb (contains content)), forallb_forall, Hc. }
  rewrite E1, E2, E3. reflexivity.
Qed.

End Markdown.

(** C6, as the code has it: the length check counts code points, not
    bytes.  A report of 501 bytes that holds both sections, the three
    keywords and the three contributor lines is rejected as too short,
    because it has 499 code points. *)
Theorem cross_branch_md_counts_code_points :
  utf8_length report_499_chars = 501 /\
  length report_499_chars = 499 /\
  forallb (contains report_499_chars)
    (required_sections md_artifact_spec) = true /\
  forallb (fun k => contains (lower report_499_chars) (lower k))
    (must_contain_keywords md_artifact_spec) = true /\
  forallb (contains report_499_chars)
    (expected_contributors md_artifact_spec) = true /\
  _validate_cross_branch_md CONFIG report_499_chars =
  ([Print (DocTooShort 500 499)], Ret false).
Proof. repeat split; vm_compute; reflexivity. Qed.


(** ** The merge timeline *)

Section Timeline.
Context {U : UnicodeDB}.

Lemma first_bad_line_None (pat : regex) (idx : nat) (lines : list pystr) :
  first_bad_line pat idx lines = None <->
  forallb (re_match pat) lines = true.
Proof.
  revert idx; induction lines as [|line lines IH]; intros idx; simpl.
  - tauto.
  - destruct (re_match pat line); simpl; [apply IH | split; discriminate].
Qed.

(** The loop stops at the first line that does not match and reports its
    position as [enumerate(lines, 1)] counts. *)
Lemma first_bad_line_first (pat : regex) (idx : nat) (lines : list pystr)
  (k : nat) (line : pystr) :
  lines !! k = Some line ->
  re_match pat line = false ->
  (forall j l, j < k -> lines !! j = Some l -> re_match pat l = true) ->
  first_bad_line pat idx lines = Some (idx + k, line).
Proof.
  revert idx k; induction lines as [|x lines IH]; intros idx k Hk Hbad Hpre.
  - discriminate.
  - destruct k as [|k]; simpl in *.
    + injection Hk as ->. rewrite Hbad. simpl. by rewrite Nat.add_0_r.
    + rewrite (Hpre 0 x) by (lia || reflexivity). simpl.
      rewrite (IH (S idx) k Hk Hbad).
      * f_equal. f_equal. lia.
      * intros j l Hj Hl. apply (Hpre (S j) l); [lia | exact Hl].
Qed.

(** The three checks of [_validate_merge_timeline], in order. *)
Lemma validate_merge_timeline_eq (content : pystr) :
  let txt := timeline_artifact_spec in
  let lines := timeline_lines content in
  let missing_entries :=
    List.filter (fun e => negb (contains content e)) (expected_entries txt) in
  _validate_merge_timeline CONFIG content =
  if length lines <? min_lines txt then
    ([Print (TooFewLines (min_lines txt) (length lines))], Ret false)
  else
    match first_bad_line (line_pattern txt) 1 lines with
    | Some (idx, line) =>
        ([Print (LineCountOk (length lines)); Print (BadLine idx line);
          Print FormatHint], Ret false)
    | None =>
        if nonempty missing_entries then
          ([Print (LineCountOk (length lines)); Print FormatOk;
            Print (MissingEntries
                     (map (fun e => take 50 e ++ str "...") missing_entries))],
           Ret false)
        else
          ([Print (LineCountOk (length lines)); Print FormatOk;
            Print EntriesOk], Ret true)
    end.
Proof.
  intros txt lines missing. unfold _validate_merge_timeline.
  change (artifact_named CONFIG (str "MERGE_TIMELINE.txt"))
    with (ret MERGE_TIMELINE).
  rewrite bind_ret_l.
  change (txt_spec MERGE_TIMELINE) with (ret txt).
  rewrite bind_ret_l. fold lines missing.
  destruct (length lines <? min_lines txt); [reflexivity|].
  destruct (first_bad_line _ _ _) as [[idx line]|]; [reflexivity|].
  destruct (nonempty missing); reflexivity.
Qed.

Lemma validate_merge_timeline_total (content : pystr) :
  exists verdict,
    result (_validate_merge_timeline CONFIG content) = Ret verdict.
Proof.
  rewrite validate_merge_timeline_eq. cbv zeta. repeat case_match; eauto.
Qed.


(** C7, amended.  The lines of a log are its non-blank lines, trimmed.
    - A log with a line that does not match the pattern fails; when the log
      has at least 10 lines the run reports the 1-based index of the first
      such line, when it has fewer the count check fails first and no line
      is reported.
    - A log whose lines all match but number fewer than 10 fails on the
      count check.
    - A log of at least 10 lines that all match and whose raw text holds
      every expected entry passes, whatever other entries it has. *)
Theorem merge_timeline_verdicts (content : pystr) :
  let pat := timeline_pattern in
  let lines := timeline_lines content in
  let run := _validate_merge_timeline CONFIG content in
  (forall k line,
     lines !! k = Some line ->
     re_match pat line = false ->
     (forall j l, j < k -> lines !! j = Some l -> re_match pat l = true) ->
     result run = Ret false /\
     (10 <= length lines ->
      output run = [Print (LineCountOk (length lines));
                    Print (BadLine (S k) line); Print FormatHint]) /\
     (length lines < 10 ->
      output run = [Print (TooFewLines 10 (length lines))])) /\
  (forallb (re_match pat) lines = true ->
   length lines < 10 ->
   run = ([Print (TooFewLines 10 (length lines))], Ret false)) /\
  (forallb (re_match pat) lines = true ->
   10 <= length lines ->
   forallb (contains content) (expected_entries timeline_artifact_spec)
     = true ->
   run = ([Print (LineCountOk (length lines)); Print FormatOk;
           Print EntriesOk], Ret true)).
Proof.
  intros pat lines run. subst run.
  rewrite validate_merge_timeline_eq. cbv zeta. fold lines.
  change (min_lines timeline_artifact_spec) with 10.
  change (line_pattern timeline_artifact_spec) with pat.
  split; [|split].
  - intros k line Hk Hbad Hpre.
    rewrite (first_bad_line_first pat 1 lines k line Hk Hbad Hpre).
    destruct (Nat.ltb_spec (length lines) 10); cbn [result output fst snd].
    + split; [reflexivity|]. split; intros; [lia | reflexivity].
    + split; [reflexivity|]. split; intros; [|lia].
      by rewrite Nat.add_1_l.
  - intros Hall Hlen.
    destruct (Nat.ltb_spec (length lines) 10); [reflexivity | lia].
  - intros Hall Hlen Hexp.
    destruct (Nat.ltb_spec (length lines) 10); [lia|].
    apply first_bad_line_None with (idx := 1) in Hall. rewrite Hall.
    apply (filter_nil_forallb (contains content)) in Hexp. rewrite Hexp.
    reflexivity.
Qed.

End Timeline.

(** C7, refuted as stated: a log of two lines whose second line is not an
    entry fails on the count check, and the line is not reported; and a log
    that ends with a newline holds a raw line, the empty one, that does not
    match the pattern, and passes all the same. *)
Lemma merge_timeline_short_log_hides_bad_line :
  timeline_lines timeline_short_bad
    = [entry "2025-08-01" "Initial import"
         "0000000000000000000000000000000000000001";
       str "merged by hand"] /\
  re_match timeline_pattern (str "merged by hand") = false /\
  _validate_merge_timeline CONFIG timeline_short_bad =
    ([Print (TooFewLines 10 2)], Ret false) /\
  (~ exists idx line,
       printed (BadLine idx line)
         (output (_validate_merge_timeline CONFIG timeline_short_bad))) /\
  last (split newline good_timeline) = Some [] /\
  re_match timeline_pattern [] = false /\
  result (_validate_merge_timeline CONFIG good_timeline) = Ret true.
Proof.
  assert (E : _validate_merge_timeline CONFIG timeline_short_bad =
    ([Print (TooFewLines 10 2)], Ret false)) by (vm_compute; reflexivity).
  split; [vm_compute; reflexivity|].
  split; [vm_compute; reflexivity|].
  split; [exact E|].
  split; [|repeat split; vm_compute; reflexivity].
  intros (idx & line & H). rewrite E in H. unfold printed in H. simpl in H.
  destruct H as [H|[]]; discriminate.
Qed.

Lemma merge_timeline_verdicts_witness :
  (* a bad fifth line among eleven *)
  _validate_merge_timeline CONFIG timeline_bad_fifth =
    ([Print (LineCountOk 11); Print (BadLine 5 (str "merged by hand"));
      Print FormatHint], Ret false) /\
  (* a bad second line among two *)
  _validate_merge_timeline CONFIG timeline_short_bad =
    ([Print (TooFewLines 10 2)], Ret false) /\
  (* seven good lines *)
  _validate_merge_timeline CONFIG timeline_seven =
    ([Print (TooFewLines 10 7)], Ret false) /\
  (* ten good lines with the expected entries *)
  _validate_merge_timeline CONFIG good_timeline =
    ([Print (LineCountOk 10); Print FormatOk; Print EntriesOk], Ret true).
Proof.
  split; [|split; [|split]].
  - pose proof (proj1 (merge_timeline_verdicts timeline_bad_fifth)
                  4 (str "merged by hand")) as H.
    destruct H as (Hr & Ho & _).
    + vm_compute; reflexivity.
    + vm_compute; reflexivity.
    + intros j l Hj Hl.
      destruct j as [|[|[|[|j]]]]; [| | | |lia];
        vm_compute in Hl; injection Hl as <-; vm_compute; reflexivity.
    + rewrite (M_eta (_validate_merge_timeline _ _)), Hr, Ho.
      * reflexivity.
      * vm_compute. lia.
  - pose proof (proj1 (merge_timeline_verdicts timeline_short_bad)
                  1 (str "merged by hand")) as H.
    destruct H as (Hr & _ & Ho).
    + vm_compute; reflexivity.
    + vm_compute; reflexivity.
    + intros j l Hj Hl.
      destruct j as [|j]; [|lia].
      vm_compute in Hl; injection Hl as <-; vm_compute; reflexivity.
    + rewrite (M_eta (_validate_merge_timeline _ _)), Hr, Ho.
      * reflexivity.
      * vm_compute. lia.
  - etrans.
    + apply (proj1 (proj2 (merge_timeline_verdicts timeline_seven))).
      * vm_compute; reflexivity.
      * vm_compute. lia.
    + vm_compute; reflexivity.
  - etrans.
    + apply (proj2 (proj2 (merge_timeline_verdicts good_timeline))).
      * vm_compute; reflexivity.
      * vm_compute. lia.
      * vm_compute; reflexivity.
    + vm_compute; reflexivity.
Defined.

(** ** The commit ledger *)

Lemma has_key_dict_get (k : pystr) (items : list (pystr * json)) :
  has_key k items = true <-> is_Some (dict_get k items).
Proof.
  induction items as [|[k' v] items IH]; simpl.
  - split; [discriminate | by intros [? ?]].
  - destruct (pystr_eqb k' k); simpl; [split; eauto | exact IH].
Qed.

Lemma has_key_false_dict_get (k : pystr) (items : list (pystr * json)) :
  has_key k items = false <-> dict_get k items = None.
Proof.
  pose proof (has_key_dict_get k items) as H.
  destruct (has_key k items), (dict_get k items) as [x|]; split; try done.
  - intros _. destruct (proj1 H eq_refl); discriminate.
  - intros _. assert (true = false) by (symmetry; apply H; eauto).
    discriminate.
Qed.

Lemma has_key_dict_remove (k : pystr) (items : list (pystr * json)) :
  has_key k (dict_remove k items) = false.
Proof.
  induction items as [|[k' v] items IH]; simpl; [reflexivity|].
  destruct (pystr_eqb k' k) eqn:E; simpl; [exact IH|].
  by rewrite E.
Qed.

Lemma not_in_output (xs : list pystr) (v : json) : output (not_in xs v) = [].
Proof.
  induction xs as [|x xs IH]; cbn [not_in]; [reflexivity|].
  rewrite output_bind. destruct (py_in x v) as [b|e]; cbn [lift output result fst snd];
    [|reflexivity].
  rewrite output_bind, IH. by destruct (result (not_in xs v)).
Qed.

Lemma not_in_JObj (xs : list pystr) (items : list (pystr * json)) :
  not_in xs (JObj items) =
  ret (List.filter (fun x => negb (has_key x items)) xs).
Proof.
  induction xs as [|x xs IH]; cbn [not_in py_in]; [reflexivity|].
  rewrite bind_lift_Ret, IH, bind_ret_l.
  cbn [List.filter]. by destruct (has_key x items).
Qed.

Lemma not_in_eta (xs : list pystr) (v : json) :
  not_in xs v = lift (result (not_in xs v)).
Proof. rewrite (M_eta (not_in xs v)) at 1. by rewrite not_in_output. Qed.

Lemma py_getitem_Ret (v : json) (k : pystr) (x : json) :
  py_getitem v k = Ret x ->
  exists items, v = JObj items /\ dict_get k items = Some x.
Proof.
  destruct v; simpl; try discriminate.
  destruct (dict_get k items) eqn:E; [|discriminate].
  intros [= <-]. eauto.
Qed.

Section CheckCommit.
Context {U : UnicodeDB}.
Variable rules : JsonSpec.

Ltac step :=
  cbn [lift ret raise result output fst snd negb orb andb];
  rewrite ?bind_print, ?bind_lift_Ret, ?bind_ret_l, ?bind_lift_Raise;
  cbn [lift ret raise result output fst snd negb orb andb].

(** A commit leaves [valid] true only if it was true, the commit is
    acceptable and its sha is new; the sha then joins the set. *)
Lemma check_commit_true (branch : pystr) (idx : nat) (c : json) (S : gset pystr) (v : bool)
  (S' : gset pystr) :
  result (check_commit rules branch idx c (S, v)) = Ret (S', true) ->
  v = true /\ commit_ok rules c = true /\
  exists s, commit_sha c = Some s /\ (s ∉ S) /\ S' = S ∪ {[ s ]}.
Proof.
  unfold check_commit. rewrite not_in_eta.
  destruct (result (not_in (commit_fields rules) c)) as [missing|e] eqn:Emiss;
    step; [|discriminate].
  destruct (nonempty missing) eqn:Ene; step; [discriminate|].
  destruct (py_getitem c (str "sha")) as [sha_v|e] eqn:Esha; step;
    [|discriminate].
  destruct (py_getitem_Ret _ _ _ Esha) as (fields & -> & Hsha).
  rewrite not_in_JObj in Emiss. injection Emiss as <-.
  apply nonempty_false, (filter_nil_forallb (fun f => has_key f fields)) in Ene.
  destruct sha_v as [| | | |sha| |]; try discriminate.
  destruct (re_match (sha_regex (field_rules rules)) sha) eqn:Ere; step;
    [|discriminate].
  destruct (bool_decide (sha ∈ S)) eqn:Edec; step; [discriminate|].
  apply bool_decide_eq_false in Edec.
  destruct (py_getitem (JObj fields) (str "author")) as [author|e] eqn:Eauth;
    step; [|discriminate].
  destruct (py_getitem_Ret _ _ _ Eauth) as (fields' & [= <-] & Hauth).
  destruct (py_len author) as [n|e] eqn:Elen; step; [|discriminate].
  destruct (Nat.ltb_spec n (author_min_len (field_rules rules))); step;
    [discriminate|].
  destruct (py_getitem (JObj fields) (str "files_changed")) as [fc|e] eqn:Efc;
    step; [|discriminate].
  destruct (py_getitem_Ret _ _ _ Efc) as (fields' & [= <-] & Hfc).
  destruct (isinstance_int fc) eqn:Eint; step; [|discriminate].
  destruct (Z.ltb_spec (int_value fc) (files_changed_min (field_rules rules)));
    step; [discriminate|].
  intros [= <- ->]. split; [reflexivity|]. split.
  - unfold commit_ok. rewrite Ene, Hsha, Hauth, Hfc, Ere, Elen, Eint.
    cbn [andb]. rewrite andb_true_r, andb_true_iff. split.
    + by apply Nat.leb_le.
    + by apply Z.leb_le.
  - exists sha. unfold commit_sha. by rewrite Hsha.
Qed.

(** An acceptable commit with a new sha prints nothing and leaves [valid]
    as it was. *)
Lemma check_commit_ok (branch : pystr) (idx : nat) (c : json) (S : gset pystr) (v : bool)
  (s : pystr) :
  commit_ok rules c = true -> commit_sha c = Some s -> s ∉ S ->
  check_commit rules branch idx c (S, v) = ([], Ret (S ∪ {[ s ]}, v)).
Proof.
  unfold commit_ok, commit_sha, check_commit.
  destruct c as [| | | | | |fields]; try discriminate.
  destruct (dict_get (str "sha") fields) as [[| | | |sha| |]|] eqn:Hsha;
    try (rewrite andb_false_r; discriminate).
  destruct (dict_get (str "author") fields) as [author|] eqn:Hauth;
    [|rewrite andb_false_r; discriminate].
  destruct (dict_get (str "files_changed") fields) as [fc|] eqn:Hfc;
    [|rewrite andb_false_r; discriminate].
  rewrite !andb_true_iff.
  intros (Hfields & ((Hre & Hlen) & Hint) & Hmin) [= <-] Hnew.
  rewrite not_in_JObj.
  apply (filter_nil_forallb (fun f => has_key f fields)) in Hfields.
  rewrite Hfields. step. unfold py_getitem. rewrite Hsha, Hauth, Hfc. step.
  rewrite Hre. step. rewrite bool_decide_eq_false_2 by exact Hnew. step.
  destruct (py_len author) as [n|e]; [|discriminate]. step.
  apply Nat.leb_le in Hlen. apply Z.leb_le in Hmin.
  destruct (Nat.ltb_spec n (author_min_len (field_rules rules))); [lia|].
  step. rewrite Hint.
  destruct (Z.ltb_spec (int_value fc) (files_changed_min (field_rules rules)));
    [lia|].
  reflexivity.
Qed.

(** [valid] never turns true again, and the set only grows. *)
Lemma check_commit_mono (branch : pystr) (idx : nat) (c : json) (S : gset pystr) (v : bool)
  (S' : gset pystr) (v' : bool) :
  result (check_commit rules branch idx c (S, v)) = Ret (S', v') ->
  (v' = true -> v = true) /\ S ⊆ S'.
Proof.
  intros H. split.
  - intros ->. by apply check_commit_true in H as (-> & _).
  - revert H. unfold check_commit. rewrite not_in_eta.
    destruct (result (not_in (commit_fields rules) c)) as [missing|e];
      step; [|discriminate].
    destruct (nonempty missing); step; [by intros [= <- <-]|].
    destruct (py_getitem c (str "sha")) as [sha_v|e]; step; [|discriminate].
    destruct sha_v as [| | | |sha| |]; try discriminate.
    destruct (re_match _ sha); step; [|by intros [= <- <-]].
    destruct (bool_decide (sha ∈ S)); step; [by intros [= <- <-]|].
    destruct (py_getitem c (str "author")) as [author|e]; step;
      [|discriminate].
    destruct (py_len author) as [n|e]; step; [|discriminate].
    destruct (n <? _); step; [intros [= <- <-]; set_solver|].
    destruct (py_getitem c (str "files_changed")) as [fc|e]; step;
      [|discriminate].
    destruct (negb (isinstance_int fc) || _); step;
      intros [= <- <-]; set_solver.
Qed.

End CheckCommit.

Section Loops.
Context {U : UnicodeDB}.
Variable rules : JsonSpec.

Lemma commit_ok_sha (c : json) :
  commit_ok rules c = true -> exists s, commit_sha c = Some s.
Proof.
  unfold commit_ok, commit_sha. destruct c as [| | | | | |fields];
    try discriminate.
  destruct (dict_get (str "sha") fields) as [[| | | |sha| |]|];
    rewrite ?andb_false_r; try discriminate.
  eauto.
Qed.

Lemma shas_of_cons (c : json) (cs : list json) (s : pystr) :
  commit_sha c = Some s -> shas_of (c :: cs) = s :: shas_of cs.
Proof. unfold shas_of. simpl. by intros ->. Qed.

(** The inner loop leaves [valid] true only if it was true, every commit is
    acceptable and the shas are new and pairwise distinct. *)
Lemma commits_loop_true (branch : pystr) (idx : nat) (cs : list json)
  (S : gset pystr) (v : bool) (S' : gset pystr) :
  result (commits_loop rules branch idx cs (S, v)) = Ret (S', true) ->
  v = true /\ forallb (commit_ok rules) cs = true /\ NoDup (shas_of cs) /\
  (forall s, s ∈ shas_of cs -> s ∉ S) /\
  (forall x, x ∈ S' <-> x ∈ S \/ x ∈ shas_of cs).
Proof.
  revert idx S v. induction cs as [|c cs IH]; intros idx S v; cbn [commits_loop].
  - intros [= <- ->]. repeat split; try constructor; set_solver.
  - intros H. apply result_bind_Ret in H as ([S1 v1] & Hc & Hrest).
    apply IH in Hrest as (-> & Hall & Hnd & Hfresh & Hmem).
    apply check_commit_true in Hc as (-> & Hok & s & Hs & Hnew & ->).
    rewrite (shas_of_cons c cs s Hs). split; [reflexivity|].
    split; [by cbn; rewrite Hok|].
    split; [constructor; [|exact Hnd]; intros Hin; apply Hfresh in Hin; set_solver|].
    split.
    + intros x [->|Hx]%elem_of_cons; [exact Hnew|].
      apply Hfresh in Hx. set_solver.
    + intros x. rewrite Hmem. set_solver.
Qed.

(** Acceptable commits with new, pairwise distinct shas pass the inner loop
    in silence. *)
Lemma commits_loop_ok (branch : pystr) (idx : nat) (cs : list json)
  (S : gset pystr) (v : bool) :
  forallb (commit_ok rules) cs = true -> NoDup (shas_of cs) ->
  (forall s, s ∈ shas_of cs -> s ∉ S) ->
  exists S', commits_loop rules branch idx cs (S, v) = ([], Ret (S', v)) /\
             forall x, x ∈ S' <-> x ∈ S \/ x ∈ shas_of cs.
Proof.
  revert idx S. induction cs as [|c cs IH]; intros idx S Hall Hnd Hfresh;
    cbn [commits_loop].
  - exists S. split; [reflexivity | set_solver].
  - cbn in Hall. apply andb_true_iff in Hall as [Hok Hall].
    destruct (commit_ok_sha c Hok) as [s Hs].
    rewrite (shas_of_cons c cs s Hs) in *.
    apply NoDup_cons in Hnd as [Hs_new Hnd].
    rewrite (bind_Ret _ _ _ _ (check_commit_ok rules branch idx c S v s Hok Hs
                                  (Hfresh s (list_elem_of_here _ _)))).
    destruct (IH (Datatypes.S idx) (S ∪ {[ s ]}) Hall Hnd) as (S' & -> & Hmem).
    + intros x Hx. specialize (Hfresh x (list_elem_of_further _ _ _ Hx)).
      set_solver.
    + exists S'. split; [reflexivity|]. intros x. rewrite Hmem. set_solver.
Qed.

Lemma all_shas_cons (b : pystr) (v : json) (items : list (pystr * json)) :
  all_shas ((b, v) :: items) = shas_of (branch_commits v) ++ all_shas items.
Proof. reflexivity. Qed.

Lemma branch_commits_iter (v : json) (cs : list json) :
  py_iter v = Ret cs -> branch_commits v = cs.
Proof. unfold branch_commits. by intros ->. Qed.

Lemma py_len_iter (v : json) (n : nat) :
  py_len v = Ret n -> exists cs, py_iter v = Ret cs.
Proof. destruct v; try discriminate; simpl; eauto. Qed.

(** The outer loop, likewise. *)
Lemma branches_loop_true (items : list (pystr * json)) (S : gset pystr)
  (v : bool) (S' : gset pystr) :
  result (branches_loop rules items (S, v)) = Ret (S', true) ->
  v = true /\
  forallb (fun kv => branch_ok rules (snd kv)) items = true /\
  NoDup (all_shas items) /\
  (forall s, s ∈ all_shas items -> s ∉ S) /\
  (forall x, x ∈ S' <-> x ∈ S \/ x ∈ all_shas items).
Proof.
  revert S v. induction items as [|[b commits] items IH]; intros S v;
    cbn [branches_loop].
  - intros [= <- ->]. repeat split; try constructor; set_solver.
  - destruct (py_len commits) as [n|e] eqn:Elen;
      [rewrite bind_lift_Ret | discriminate].
    destruct (Nat.ltb_spec n (min_commits_per_branch rules)) as [Hlt|Hge].
    { rewrite bind_print. cbn [result snd fst].
      intros H. by apply IH in H as (? & _). }
    destruct (py_iter commits) as [cs|e] eqn:Eiter;
      [rewrite bind_lift_Ret | discriminate].
    intros H. apply result_bind_Ret in H as ([S1 v1] & Hc & Hrest).
    apply IH in Hrest as (-> & Hall & Hnd & Hfresh & Hmem).
    apply commits_loop_true in Hc as (-> & Hcs & Hnd1 & Hfresh1 & Hmem1).
    rewrite all_shas_cons, (branch_commits_iter _ _ Eiter).
    split; [reflexivity|]. split.
    { cbn [forallb snd]. rewrite Hall, andb_true_r. unfold branch_ok.
      rewrite Elen, (branch_commits_iter _ _ Eiter), Hcs, andb_true_r.
      by apply Nat.leb_le. }
    split.
    { apply NoDup_app. split; [exact Hnd1|]. split; [|exact Hnd].
      intros x Hx Hx'. apply Hfresh in Hx'. apply Hx'. apply Hmem1. by right. }
    split.
    + intros x [Hx|Hx]%elem_of_app; [by apply Hfresh1|].
      apply Hfresh in Hx. intros HS. apply Hx, Hmem1. by left.
    + intros x. rewrite Hmem, Hmem1, elem_of_app. tauto.
Qed.

Lemma branches_loop_ok (items : list (pystr * json)) (S : gset pystr)
  (v : bool) :
  forallb (fun kv => branch_ok rules (snd kv)) items = true ->
  NoDup (all_shas items) ->
  (forall s, s ∈ all_shas items -> s ∉ S) ->
  exists S', branches_loop rules items (S, v) = ([], Ret (S', v)) /\
             forall x, x ∈ S' <-> x ∈ S \/ x ∈ all_shas items.
Proof.
  revert S. induction items as [|[b commits] items IH]; intros S Hall Hnd Hfresh;
    cbn [branches_loop].
  - exists S. split; [reflexivity | set_solver].
  - cbn [forallb snd] in Hall. apply andb_true_iff in Hall as [Hb Hall].
    unfold branch_ok in Hb.
    destruct (py_len commits) as [n|e] eqn:Elen; [|discriminate].
    apply andb_true_iff in Hb as [Hn Hcs]. apply Nat.leb_le in Hn.
    destruct (py_len_iter _ _ Elen) as [cs Eiter].
    rewrite (branch_commits_iter _ _ Eiter) in Hcs.
    rewrite all_shas_cons, (branch_commits_iter _ _ Eiter) in Hnd, Hfresh.
    apply NoDup_app in Hnd as (Hnd1 & Hdisj & Hnd2).
    rewrite bind_lift_Ret.
    destruct (Nat.ltb_spec n (min_commits_per_branch rules)); [lia|].
    rewrite Eiter, bind_lift_Ret.
    destruct (commits_loop_ok b 1 cs S v Hcs Hnd1) as (S1 & E1 & Hmem1).
    { intros s Hs. apply Hfresh, elem_of_app. by left. }
    rewrite (bind_Ret _ _ _ _ E1).
    destruct (IH S1 Hall Hnd2) as (S' & -> & Hmem).
    + intros s Hs HS1. apply Hmem1 in HS1 as [HS|Hs1].
      * revert HS. apply Hfresh, elem_of_app. by right.
      * by apply (Hdisj s).
    + exists S'. split; [reflexivity|].
      intros x. rewrite Hmem, Hmem1, all_shas_cons,
        (branch_commits_iter _ _ Eiter), elem_of_app. tauto.
Qed.

(** *** The validator on the parsed artifact *)

(** What the validator accepts is what [artifact_ok] describes. *)
Lemma validate_branch_commits_pass (items : list (pystr * json)) :
  artifact_ok rules items ->
  validate_branch_commits rules (JObj items) =
  ([Print (BranchesOk (length items)); Print CommitsOk], Ret true).
Proof.
  intros (Hn & Hexp & Hall & Hnd). unfold validate_branch_commits.
  cbn [py_len]. rewrite bind_lift_Ret.
  destruct (Nat.ltb_spec (length items) (min_branches rules)); [lia|].
  rewrite not_in_JObj, bind_ret_l.
  apply (filter_nil_forallb (fun b => has_key b items)) in Hexp.
  rewrite Hexp. cbn [nonempty]. rewrite bind_print.
  cbn [py_items]. rewrite bind_lift_Ret.
  destruct (branches_loop_ok items ∅ true Hall Hnd) as (S' & E & _);
    [set_solver|].
  rewrite (bind_Ret _ _ _ _ E). reflexivity.
Qed.

Lemma validate_branch_commits_true (data : json) :
  result (validate_branch_commits rules data) = Ret true ->
  exists items, data = JObj items /\ artifact_ok rules items.
Proof.
  unfold validate_branch_commits.
  destruct (py_len data) as [n|e] eqn:Elen;
    [rewrite bind_lift_Ret | discriminate].
  destruct (Nat.ltb_spec n (min_branches rules)) as [Hlt|Hge].
  { rewrite bind_print. discriminate. }
  rewrite not_in_eta.
  destruct (result (not_in (expected_branches rules) data)) as [missing|e]
    eqn:Emiss; [rewrite bind_lift_Ret | discriminate].
  destruct (nonempty missing) eqn:Ene.
  { rewrite bind_print. discriminate. }
  rewrite bind_print. cbn [result snd].
  destruct (py_items data) as [items|e] eqn:Eitems;
    [rewrite bind_lift_Ret | discriminate].
  destruct data; try discriminate. injection Eitems as ->.
  injection Elen as <-.
  rewrite not_in_JObj in Emiss. injection Emiss as <-.
  apply nonempty_false, (filter_nil_forallb (fun b => has_key b items)) in Ene.
  intros H. apply result_bind_Ret in H as ([S' v'] & Hloop & Hv).
  assert (v' = true) as ->.
  { destruct v'; [reflexivity|]. rewrite bind_ret_l in Hv. discriminate. }
  apply branches_loop_true in Hloop as (_ & Hall & Hnd & _).
  exists items. split; [reflexivity|]. by repeat split.
Qed.

(** On an object the validator always returns a verdict before the loops
    when a gate fails. *)
Lemma validate_branch_commits_missing_branch (items : list (pystr * json))
  (b : pystr) :
  In b (expected_branches rules) -> has_key b items = false ->
  result (validate_branch_commits rules (JObj items)) = Ret false /\
  exists m, output (validate_branch_commits rules (JObj items)) = [Print m] /\
            is_failure m = true.
Proof.
  intros Hb Hk. unfold validate_branch_commits.
  cbn [py_len]. rewrite bind_lift_Ret.
  destruct (length items <? min_branches rules).
  { rewrite bind_print. split; [reflexivity|]. eauto. }
  rewrite not_in_JObj, bind_ret_l.
  destruct (List.filter _ _) as [|m ms] eqn:Ef.
  - apply (filter_nil_forallb (fun b => has_key b items)) in Ef.
    rewrite forallb_forall in Ef. rewrite (Ef b Hb) in Hk. discriminate.
  - cbn [nonempty]. rewrite bind_print. split; [reflexivity|]. eauto.
Qed.

End Loops.

(** *** Shas and positions *)






Lemma all_shas_app (l k : list (pystr * json)) :
  all_shas (l ++ k) = all_shas l ++ all_shas k.
Proof. unfold all_shas. by rewrite map_app, concat_app. Qed.

Lemma all_shas_Permutation (l k : list (pystr * json)) :
  Permutation l k -> Permutation (all_shas l) (all_shas k).
Proof.
  induction 1 as [|[b v] l k _ IH|[b v] [b' v'] l|l k m _ IH1 _ IH2].
  - reflexivity.
  - rewrite !all_shas_cons. by apply Permutation_app_head.
  - rewrite !all_shas_cons, !app_assoc.
    apply Permutation_app_tail, Permutation_app_comm.
  - by etrans.
Qed.

Lemma has_key_In (k : pystr) (items : list (pystr * json)) :
  has_key k items = true <-> exists v, In (k, v) items.
Proof.
  unfold has_key. rewrite existsb_exists. split.
  - intros ([k' v] & Hin & Hk). apply pystr_eqb_eq in Hk. simpl in Hk.
    subst. eauto.
  - intros [v Hin]. exists (k, v). split; [exact Hin | apply pystr_eqb_refl].
Qed.

(** *** Artifacts of the documented shape *)

Section Shaped.
Context {U : UnicodeDB}.
Variable rules : JsonSpec.
Hypothesis sha_required : In (str "sha") (commit_fields rules).
Hypothesis author_required : In (str "author") (commit_fields rules).
Hypothesis files_changed_required :
  In (str "files_changed") (commit_fields rules).

Ltac step :=
  cbn [lift ret raise result output fst snd negb orb andb];
  rewrite ?bind_print, ?bind_lift_Ret, ?bind_ret_l, ?bind_lift_Raise;
  cbn [lift ret raise result output fst snd negb orb andb].

(** On a commit of the documented shape no check raises. *)
Lemma check_commit_returns (branch : pystr) (idx : nat) (c : json)
  (st : loop_state) :
  commit_shaped c = true ->
  exists st', result (check_commit rules branch idx c st) = Ret st'.
Proof.
  destruct st as [S v]. unfold commit_shaped, check_commit, field_is_str.
  destruct c as [| | | | | |fields]; try discriminate.
  intros [Hs Ha]%andb_true_iff. rewrite not_in_JObj. step.
  destruct (List.filter _ _) as [|m ms] eqn:Ef; cbn [nonempty]; step;
    [|eauto].
  apply (filter_nil_forallb (fun f => has_key f fields)) in Ef.
  rewrite forallb_forall in Ef.
  destruct (proj1 (has_key_dict_get _ _) (Ef _ sha_required)) as [sha_v Hsha].
  destruct (proj1 (has_key_dict_get _ _) (Ef _ author_required))
    as [author Hauth].
  destruct (proj1 (has_key_dict_get _ _) (Ef _ files_changed_required))
    as [fc Hfc].
  unfold py_getitem. rewrite Hsha, Hauth, Hfc in *. step.
  destruct sha_v as [| | | |sha| |]; try discriminate.
  destruct author as [| | | |author| |]; try discriminate.
  destruct (re_match _ sha); step; [|eauto].
  destruct (bool_decide _); step; [eauto|].
  cbn [py_len]. step.
  destruct (_ <? _); step; [eauto|].
  destruct (_ || _); step; eauto.
Qed.

Lemma commits_loop_returns (branch : pystr) (idx : nat) (cs : list json)
  (st : loop_state) :
  forallb commit_shaped cs = true ->
  exists st', result (commits_loop rules branch idx cs st) = Ret st'.
Proof.
  revert idx st. induction cs as [|c cs IH]; intros idx st Hcs;
    cbn [commits_loop].
  - eauto.
  - cbn in Hcs. apply andb_true_iff in Hcs as [Hc Hcs].
    destruct (check_commit_returns branch idx c st Hc) as [st1 H1].
    rewrite result_bind, H1. by apply IH.
Qed.

Lemma branches_loop_returns (items : list (pystr * json)) (st : loop_state) :
  artifact_shaped items = true ->
  exists st', result (branches_loop rules items st) = Ret st'.
Proof.
  revert st. induction items as [|[b v] items IH]; intros st Hs;
    cbn [branches_loop].
  - eauto.
  - cbn in Hs. apply andb_true_iff in Hs as [Hv Hs].
    destruct v as [| | | | |cs|]; try discriminate. cbn [py_len py_iter].
    step. destruct (_ <? _); step.
    + by apply IH.
    + destruct (commits_loop_returns b 1 cs st Hv) as [st1 H1].
      rewrite result_bind, H1. by apply IH.
Qed.

Lemma validate_branch_commits_returns (items : list (pystr * json)) :
  artifact_shaped items = true ->
  exists verdict,
    result (validate_branch_commits rules (JObj items)) = Ret verdict.
Proof.
  intros Hs. unfold validate_branch_commits. cbn [py_len]. step.
  destruct (_ <? _); step; [eauto|].
  rewrite not_in_JObj. step.
  destruct (nonempty _); step; [eauto|].
  cbn [py_items]. step.
  destruct (branches_loop_returns items (∅, true) Hs) as [[S' v'] H].
  rewrite result_bind, H. destruct v'; step; eauto.
Qed.

End Shaped.

Section WellFormed.
Context {U : UnicodeDB}.
Variable rules : JsonSpec.

Lemma well_formed_commit_ok (c : json) :
  well_formed_commit rules c -> commit_ok rules c = true.
Proof.
  intros (fields & sha & author & message & fc & -> & Hf & Hsha & Hre &
          Hauth & Hlen & _ & Hfc & Hmin).
  unfold commit_ok. rewrite Hf, Hsha, Hauth, Hfc, Hre. cbn.
  rewrite andb_true_r, andb_true_iff. split.
  - by apply Nat.leb_le.
  - by apply Z.leb_le.
Qed.

Lemma well_formed_branch_ok (v : json) :
  well_formed_branch rules v -> branch_ok rules v = true.
Proof.
  intros (cs & -> & Hn & Hcs). unfold branch_ok. cbn.
  rewrite andb_true_iff. split; [by apply Nat.leb_le|].
  apply forallb_forall. intros c Hc. by apply well_formed_commit_ok, Hcs.
Qed.

Lemma well_formed_branches_ok (items : list (pystr * json)) :
  (forall b v, In (b, v) items -> well_formed_branch rules v) ->
  forallb (fun kv => branch_ok rules (snd kv)) items = true.
Proof.
  intros H. apply forallb_forall. intros [b v] Hin.
  by apply well_formed_branch_ok, (H b).
Qed.

End WellFormed.

(** *** [_validate_branch_commits_json] *)

Section BranchCommitsTheorems.
Context {U : UnicodeDB} {L : Libs}.

Lemma validate_branch_commits_json_parsed (content : pystr) (data : json) :
  json_loads content = Some data ->
  _validate_branch_commits_json CONFIG content =
  (Print JsonSyntaxOk ::
     output (validate_branch_commits json_artifact_spec data),
   result (validate_branch_commits json_artifact_spec data)).
Proof.
  intros H. unfold _validate_branch_commits_json.
  change (artifact_named CONFIG (str "BRANCH_COMMITS.json"))
    with (ret BRANCH_COMMITS).
  rewrite bind_ret_l.
  change (json_spec BRANCH_COMMITS) with (ret json_artifact_spec).
  rewrite bind_ret_l, H. apply bind_print.
Qed.

(** A text that [json.loads] does not load: a [JSONDecodeError] is caught
    and reported, any other exception leaves the function before it has
    printed anything. *)
Lemma validate_branch_commits_json_not_loaded (content : pystr) :
  json_loads content = None ->
  _validate_branch_commits_json CONFIG content =
  match json_loads_error content with
  | JSONDecodeError => ([Print JsonSyntaxError], Ret false)
  | OtherError e => ([], Raise e)
  end.
Proof.
  intros H. unfold _validate_branch_commits_json.
  change (artifact_named CONFIG (str "BRANCH_COMMITS.json"))
    with (ret BRANCH_COMMITS).
  rewrite bind_ret_l.
  change (json_spec BRANCH_COMMITS) with (ret json_artifact_spec).
  rewrite bind_ret_l, H. by destruct (json_loads_error content).
Qed.

Lemma validate_branch_commits_json_syntax_error (content : pystr) :
  json_loads content = None ->
  json_loads_error content = JSONDecodeError ->
  _validate_branch_commits_json CONFIG content =
  ([Print JsonSyntaxError], Ret false).
Proof.
  intros H He. by rewrite (validate_branch_commits_json_not_loaded _ H), He.
Qed.

(** The validator passes exactly the artifacts [artifact_ok] describes. *)
Lemma validate_branch_commits_json_true_iff (content : pystr) (data : json) :
  json_loads content = Some data ->
  result (_validate_branch_commits_json CONFIG content) = Ret true <->
  exists items, data = JObj items /\ artifact_ok json_artifact_spec items.
Proof.
  intros H. rewrite (validate_branch_commits_json_parsed content data H).
  cbn [result snd]. split.
  - apply validate_branch_commits_true.
  - intros (items & -> & Hok).
    by rewrite (validate_branch_commits_pass _ items Hok).
Qed.

(** C3, amended: an object with at least 3 branches, among them the three
    expected ones, in which every branch is an array of at least 3 commits,
    every commit carries the four fields (the message being of any kind)
    with a sha that matches the pattern, an author of at least 3 characters
    and an integer count of changed files of at least 1, and no sha occurs
    twice, passes. *)
Theorem branch_commits_well_formed_pass (content : pystr)
  (items : list (pystr * json)) :
  json_loads content = Some (JObj items) ->
  3 <= length items ->
  (forall b, In b (expected_branches json_artifact_spec) ->
             has_key b items = true) ->
  (forall b v, In (b, v) items -> well_formed_branch json_artifact_spec v) ->
  NoDup (all_shas items) ->
  _validate_branch_commits_json CONFIG content =
  ([Print JsonSyntaxOk; Print (BranchesOk (length items)); Print CommitsOk],
   Ret true).
Proof.
  intros Hparse Hn Hexp Hwf Hnd.
  rewrite (validate_branch_commits_json_parsed content _ Hparse).
  rewrite (validate_branch_commits_pass json_artifact_spec items);
    [reflexivity|].
  split; [exact Hn|]. split; [by apply forallb_forall|].
  split; [by apply well_formed_branches_ok | exact Hnd].
Qed.


(** C5: an object artifact from which one of the three expected branch
    names has been removed fails; a passing artifact to which further
    branches are added, anywhere, still passes, provided the added branches
    are themselves well formed and bring new shas. *)
Theorem branch_commits_expected_names :
  (forall content items b,
     In b (expected_branches json_artifact_spec) ->
     json_loads content = Some (JObj (dict_remove b items)) ->
     result (_validate_branch_commits_json CONFIG content) = Ret false) /\
  (forall content content' items extra items',
     json_loads content = Some (JObj items) ->
     result (_validate_branch_commits_json CONFIG content) = Ret true ->
     json_loads content' = Some (JObj items') ->
     Permutation items' (items ++ extra) ->
     (forall b v, In (b, v) extra ->
                  well_formed_branch json_artifact_spec v) ->
     NoDup (all_shas extra) ->
     (forall s, s ∈ all_shas extra -> s ∉ all_shas items) ->
     result (_validate_branch_commits_json CONFIG content') = Ret true).
Proof.
  split.
  - intros content items b Hb Hparse.
    rewrite (validate_branch_commits_json_parsed content _ Hparse).
    cbn [result snd].
    by apply (validate_branch_commits_missing_branch json_artifact_spec
                (dict_remove b items) b Hb), has_key_dict_remove.
  - intros content content' items extra items' Hparse Hpass Hparse' Hperm
      Hwf Hnd Hfresh.
    apply (validate_branch_commits_json_true_iff content _ Hparse) in Hpass
      as (? & [= <-] & Hn & Hexp & Hall & Hnd0).
    apply (validate_branch_commits_json_true_iff content' _ Hparse').
    exists items'. split; [reflexivity|]. repeat split.
    + rewrite (Permutation_length Hperm), length_app. lia.
    + apply forallb_forall. intros b Hb.
      rewrite forallb_forall in Hexp.
      apply has_key_In. destruct (proj1 (has_key_In _ _) (Hexp b Hb)) as [v Hv].
      exists v. apply (Permutation_in _ (Permutation_sym Hperm)), in_or_app.
      by left.
    + apply forallb_forall. intros kv Hkv.
      apply (Permutation_in _ Hperm), in_app_or in Hkv as [Hkv|Hkv].
      * rewrite forallb_forall in Hall. by apply Hall.
      * destruct kv as [b v]. by apply well_formed_branch_ok, (Hwf b).
    + rewrite (all_shas_Permutation _ _ Hperm), all_shas_app.
      apply NoDup_app.
      split; [exact Hnd0|]. split; [|exact Hnd].
      intros x Hx Hx'. by apply (Hfresh x).
Qed.

End BranchCommitsTheorems.

Ltac concrete_commit :=
  unfold well_formed_commit; do 5 eexists;
  split; [reflexivity|];
  split; [vm_compute; reflexivity|];
  split; [reflexivity|];
  split; [vm_compute; reflexivity|];
  split; [reflexivity|];
  split; [vm_compute; lia|];
  split; [reflexivity|];
  split; [reflexivity | vm_compute; discriminate].

Ltac concrete_branch :=
  eexists; split; [reflexivity|]; split; [vm_compute; lia|];
  intros c [<-|[<-|[<-|[]]]]; concrete_commit.

Lemma sample_ledger_well_formed (b : pystr) (v : json) :
  In (b, v) (extra_branch :: sample_ledger) ->
  well_formed_branch json_artifact_spec v.
Proof.
  intros [E|[E|[E|[E|[]]]]]; injection E as <- <-; concrete_branch.
Defined.

Lemma branch_commits_well_formed_pass_witness :
  _validate_branch_commits_json (L := parses_to (JObj sample_ledger))
    CONFIG (str "ledger") =
  ([Print JsonSyntaxOk; Print (BranchesOk 3); Print CommitsOk], Ret true).
Proof.
  apply (branch_commits_well_formed_pass (L := parses_to (JObj sample_ledger))
           (str "ledger") sample_ledger).
  - reflexivity.
  - vm_compute; lia.
  - intros b [<-|[<-|[<-|[]]]]; vm_compute; reflexivity.
  - intros b v Hin. apply (sample_ledger_well_formed b v). by right.
  - apply (bool_decide_unpack _). vm_compute. exact I.
Defined.

(** C3, refuted as stated: three branches, each an array of three complete
    commits, all nine shas distinct and matching the pattern; the artifact
    fails because the branch names are not the expected ones. *)
Lemma branch_commits_other_names_fail :
  length ledger_other_names = 3 /\
  forallb (fun kv => branch_ok json_artifact_spec (snd kv))
    ledger_other_names = true /\
  forallb (re_match sha_pattern) (all_shas ledger_other_names) = true /\
  NoDup (all_shas ledger_other_names) /\
  _validate_branch_commits_json (L := parses_to (JObj ledger_other_names))
    CONFIG (str "ledger") =
  ([Print JsonSyntaxOk;
    Print (MissingBranches (expected_branches json_artifact_spec))],
   Ret false).
Proof.
  split; [reflexivity|].
  split; [vm_compute; reflexivity|].
  split; [vm_compute; reflexivity|].
  split; [apply (bool_decide_unpack _); vm_compute; exact I|].
  vm_compute; reflexivity.
Qed.



Lemma branch_commits_expected_names_witness :
  result (_validate_branch_commits_json (L := sample_parser) CONFIG
            (str "ledger without pr/45")) = Ret false /\
  result (_validate_branch_commits_json (L := sample_parser) CONFIG
            (str "ledger with extra")) = Ret true.
Proof.
  split.
  - apply (proj1 (branch_commits_expected_names (L := sample_parser))
             (str "ledger without pr/45") sample_ledger
             (str "pr/45-googlefan256-main")).
    + by left.
    + reflexivity.
  - apply (proj2 (branch_commits_expected_names (L := sample_parser))
             (str "ledger") (str "ledger with extra") sample_ledger
             [extra_branch] (extra_branch :: sample_ledger)).
    + reflexivity.
    + vm_compute; reflexivity.
    + reflexivity.
    + apply Permutation_cons_append.
    + intros b v [E|[]]. apply (sample_ledger_well_formed b v). by left.
    + apply (bool_decide_unpack _). vm_compute. exact I.
    + intros s Hs Hs'.
      assert (H : bool_decide (s ∈ all_shas [extra_branch]
                               /\ s ∈ all_shas sample_ledger) = false).
      { apply list_elem_of_In in Hs.
        destruct Hs as [<-|[<-|[<-|[]]]]; vm_compute; reflexivity. }
      apply bool_decide_eq_false in H. tauto.
Defined.

(** *** What the loops report *)

Section Reports.
Context {U : UnicodeDB}.
Variable rules : JsonSpec.






End Reports.



(** ** The orchestrator *)

Lemma requested_app (l k : list event) :
  requested (l ++ k) = requested l ++ requested k.
Proof. apply omap_app. Qed.

Lemma In_requested_app_l (x : pystr) (l k : list event) :
  In x (requested l) -> In x (requested (l ++ k)).
Proof. rewrite requested_app. intros. apply in_or_app. by left. Qed.

Lemma In_requested_app_r (x : pystr) (l k : list event) :
  In x (requested k) -> In x (requested (l ++ k)).
Proof. rewrite requested_app. intros. apply in_or_app. by right. Qed.

Lemma In_requested_cons (x : pystr) (ev : event) (l : list event) :
  In x (requested l) -> In x (requested (ev :: l)).
Proof. apply (In_requested_app_r x [ev] l). Qed.

Section Orchestrator.
Context {U : UnicodeDB} {L : Libs}.
Variable cfg : Config.
Variable world : World.
Variable headers : list (pystr * pystr).
Variable org : pystr.

(** [_get_artifact_content] requests the file and returns; no exception
    leaves it. *)
Lemma get_artifact_content_returns (branch file_name : pystr) :
  exists l o,
    _get_artifact_content cfg world branch file_name headers org =
    (HttpGet (api_url cfg org (contents_endpoint branch file_name)) headers
       (timeout cfg) :: l, Ret o).
Proof.
  unfold _get_artifact_content. fold (contents_endpoint branch file_name).
  rewrite call_github_api_eq.
  match goal with
  | |- context [bind (?l0, Ret ?a) ?f] =>
      rewrite (bind_Ret (l0, Ret a) f l0 a eq_refl);
      generalize a; intros [success file_data]
  end.
  cbn [app].
  match goal with
  | |- exists l o, (_ :: ?l1 ++ output ?m, result ?m) = _ =>
      assert (Hm : exists o, result m = Ret o);
      [|destruct Hm as [o Ho]; rewrite Ho; eauto]
  end.
  destruct (negb success || negb (truthy file_data)).
  { rewrite bind_print. eauto. }
  rewrite result_try_except.
  match goal with
  | |- exists o, match result ?body with _ => _ end = _ =>
      assert (Hb : (exists o, result body = Ret o) \/
                   (exists e, result body = Raise e /\ is_Exception e = true))
  end.
  { rewrite result_bind.
    destruct (py_get file_data (str "content") (JStr [])) as [content|e]
      eqn:Eget; cbn [lift result snd].
    2: { right. exists e. split; [reflexivity|].
         unfold py_get in Eget.
         by destruct file_data; try destruct (dict_get _ _); inversion Eget. }
    rewrite result_bind.
    destruct (py_replace_newline content) as [b64|e] eqn:Erep;
      cbn [lift result snd].
    2: { right. exists e. split; [reflexivity|].
         by destruct content; inversion Erep. }
    rewrite result_bind. unfold next_encoding.
    destruct (omap _ _) as [|enc encs]; cbn [ret raise result snd].
    { right. eauto. }
    rewrite result_bind. unfold decode_base64.
    destruct (b64decode b64) as [raw|]; cbn [raise result snd];
      [|right; eauto].
    destruct (bytes_decode raw _) as [text|]; cbn [ret raise result snd];
      [left; eauto | right; eauto]. }
  destruct Hb as [[o ->]|(e & -> & ->)]; [eauto|].
  rewrite bind_print. eauto.
Qed.

Lemma fetched_Some (art : Artifact) (content : pystr) :
  fetched cfg world headers org art = Some content <->
  result (_get_artifact_content cfg world (target_branch cfg) (name art)
            headers org) = Ret (Some content) /\ nonempty content = true.
Proof.
  unfold fetched.
  destruct (result _) as [[c|]|e]; try (split; [discriminate | by intros [? ?]]).
  destruct (nonempty c) eqn:Ec.
  - split; [by intros [= <-] | by intros [[= <-] _]].
  - split; [discriminate | intros [[= <-] ?]; congruence].
Qed.

Lemma falsy_str_fetched (art : Artifact) (o : option pystr) :
  result (_get_artifact_content cfg world (target_branch cfg) (name art)
            headers org) = Ret o ->
  (falsy_str o = true /\ fetched cfg world headers org art = None) \/
  (exists content, o = Some content /\ falsy_str o = false /\
                   fetched cfg world headers org art = Some content).
Proof.
  intros H. unfold fetched. rewrite H.
  destruct o as [c|]; cbn [falsy_str]; [|by left].
  destruct (nonempty c); cbn [negb]; [right; eauto | by left].
Qed.

(** The loop of step 3 visits every artifact: each one is requested, and
    the loop returns whether all of them passed. *)
Lemma artifacts_loop_spec (arts : list Artifact) (all_valid : bool) :
  (forall art content,
     In art arts -> fetched cfg world headers org art = Some content ->
     exists ok, result (_validate_artifact cfg content (name art)) = Ret ok) ->
  exists b,
    result (artifacts_loop cfg world (target_branch cfg) headers org arts
              all_valid) = Ret b /\
    (b = true <->
     all_valid = true /\
     forall art, In art arts -> artifact_passes cfg world headers org art) /\
    (forall art, In art arts ->
       In (artifact_url cfg org art)
         (requested (output (artifacts_loop cfg world (target_branch cfg)
                               headers org arts all_valid)))).
Proof.
  revert all_valid. induction arts as [|a arts IH]; intros all_valid Hret.
  - exists all_valid. cbn. split; [reflexivity|]. split; [|tauto].
    split; [by intros -> | tauto].
  - cbn [artifacts_loop]. rewrite bind_print. cbn [result output fst snd].
    destruct (get_artifact_content_returns (target_branch cfg) (name a))
      as (l & o & Hget).
    rewrite (bind_Ret _ _ _ _ Hget).
    assert (Hres : result (_get_artifact_content cfg world (target_branch cfg)
                             (name a) headers org) = Ret o)
      by (by rewrite Hget).
    assert (IHrest : forall v,
      exists b,
        result (artifacts_loop cfg world (target_branch cfg) headers org arts v)
          = Ret b /\
        (b = true <->
         v = true /\
         forall art, In art arts ->
                     artifact_passes cfg world headers org art) /\
        (forall art, In art arts ->
           In (artifact_url cfg org art)
             (requested (output (artifacts_loop cfg world (target_branch cfg)
                                   headers org arts v))))).
    { intros v. apply IH. intros art content Hin. apply Hret. by right. }
    assert (Hurl : forall (k : list event) art,
      (art = a \/ In (artifact_url cfg org art) (requested k)) ->
      In (artifact_url cfg org art)
        (requested
           (Print (Validating (name a))
            :: (HttpGet (api_url cfg org
                           (contents_endpoint (target_branch cfg) (name a)))
                  headers (timeout cfg) :: l) ++ k))).
    { intros k art [->|Hk]; cbn [app requested omap]; fold (requested (l ++ k)).
      - by left.
      - right. rewrite requested_app. apply in_or_app. by right. }
    destruct (falsy_str_fetched a o Hres) as [[Hf Hnone]|(c & -> & Hf & Hsome)];
      rewrite Hf.
    + destruct (IHrest false) as (b & Hb & Hiff & Hreq).
      exists b. cbn [result output fst snd]. split; [exact Hb|]. split.
      * split; [intros Hbt; apply Hiff in Hbt as [? _]; discriminate|].
        intros [_ Hall]. destruct (Hall a (or_introl eq_refl)) as (c & Hc & _).
        congruence.
      * intros art [<-|Hin]; apply Hurl; [by left | right; by apply Hreq].
    + cbn [default]. destruct (Hret a c (or_introl eq_refl) Hsome) as [ok Hok].
      rewrite (bind_Ret _ _ (output (_validate_artifact cfg c (name a))) ok)
        by (rewrite <- Hok; apply M_eta).
      destruct ok; cbn [negb].
      * rewrite bind_print. cbn [result output fst snd].
        destruct (IHrest all_valid) as (b & Hb & Hiff & Hreq).
        exists b. split; [exact Hb|]. split.
        -- rewrite Hiff. split; intros [Hv Hall]; (split; [exact Hv|]).
           ++ intros art [<-|Hin]; [by exists c | by apply Hall].
           ++ intros art Hin. apply Hall. by right.
        -- intros art [<-|Hin]; apply Hurl; [by left | right].
           rewrite requested_app. apply in_or_app. right.
           cbn [requested omap]. by apply Hreq.
      * destruct (IHrest false) as (b & Hb & Hiff & Hreq).
        exists b. cbn [result output fst snd]. split; [exact Hb|]. split.
        -- split; [intros Hbt; apply Hiff in Hbt as [? _]; discriminate|].
           intros [_ Hall].
           destruct (Hall a (or_introl eq_refl)) as (c' & Hc' & Hv).
           rewrite Hsome in Hc'. injection Hc' as <-. congruence.
        -- intros art [<-|Hin]; apply Hurl; [by left | right].
           rewrite requested_app. apply in_or_app. right. by apply Hreq.
Qed.

(** Steps 3 to 5, by the outcome of the loop. *)
Lemma main_steps_3_to_5_eq (b : bool) :
  result (artifacts_loop cfg world (target_branch cfg) headers org
            (ARTIFACTS cfg) true) = Ret b ->
  main_steps_3_to_5 cfg world (target_branch cfg) headers org =
  (Print (Step 3) ::
     output (artifacts_loop cfg world (target_branch cfg) headers org
               (ARTIFACTS cfg) true) ++
     (if b then
        [Print (Step 4);
         Print (if source_validation_enable cfg
                then SourceValidationPlaceholder
                else SourceValidationSkipped);
         Print (Step 5);
         Print (PolicyOk (forbid_modifying_existing_files cfg)
                  (only_allow_artifacts cfg));
         Print (Summary org (target_branch cfg))]
      else [Print ArtifactsFailed]),
   Raise (SystemExit (if b then 0 else 1))).
Proof.
  intros Hb. unfold main_steps_3_to_5. rewrite bind_print.
  rewrite (bind_Ret _ _ (output (artifacts_loop cfg world (target_branch cfg)
                                   headers org (ARTIFACTS cfg) true)) b)
    by (rewrite <- Hb; apply M_eta).
  destruct b; cbn [negb].
  - rewrite bind_print. destruct (source_validation_enable cfg);
      rewrite !bind_print; reflexivity.
  - rewrite bind_print. reflexivity.
Qed.

End Orchestrator.

Section OrchestratorTheorems.
Context {U : UnicodeDB} {L : Libs}.

Lemma validate_artifact_md (content : pystr) :
  _validate_artifact CONFIG content (name CROSS_BRANCH_ANALYSIS) =
  _validate_cross_branch_md CONFIG content.
Proof. reflexivity. Qed.

(** With the configured artifacts every validation that takes place
    returns: only the narrative document can reach its validator. *)
Lemma config_validations_return (world : World)
  (headers : list (pystr * pystr)) (org : pystr) :
  validations_return CONFIG world headers org.
Proof.
  intros art content [<-|[<-|[<-|[]]]] Hf.
  - apply fetched_Some in Hf as [Hf _].
    rewrite (get_artifact_content_no_encoding CONFIG world _ _ headers org
               next_encoding_json) in Hf.
    discriminate.
  - rewrite validate_artifact_md. apply validate_cross_branch_md_total.
  - apply fetched_Some in Hf as [Hf _].
    rewrite (get_artifact_content_no_encoding CONFIG world _ _ headers org
               next_encoding_txt) in Hf.
    discriminate.
Qed.

(** The artifact phase for any configuration.  Once the branch is verified,
    step 3 runs over every configured artifact whatever happened to the ones
    before: each artifact is requested; only then does the program stop with
    status 1 if some artifact is missing or invalid, and otherwise it goes
    on to the summary and stops with status 0.  This holds whenever no
    validation raises, which is the case of the configured artifacts in
    every world. *)
Theorem artifacts_phase_runs_to_completion :
  (forall world headers org, validations_return CONFIG world headers org) /\
  (forall cfg world token org,
     env_loaded cfg world token org ->
     let headers := _build_github_headers cfg token in
     result (_check_branch_existence cfg world (target_branch cfg) headers
               org) = Ret true ->
     validations_return cfg world headers org ->
     (forall art, In art (ARTIFACTS cfg) ->
        In (artifact_url cfg org art)
          (requested (output (main cfg world)))) /\
     ((forall art, In art (ARTIFACTS cfg) ->
                   artifact_passes cfg world headers org art) ->
      exit_status (main cfg world) = 0%Z /\
      printed (Summary org (target_branch cfg)) (output (main cfg world))) /\
     (~ (forall art, In art (ARTIFACTS cfg) ->
                     artifact_passes cfg world headers org art) ->
      exit_status (main cfg world) = 1%Z /\
      printed ArtifactsFailed (output (main cfg world)))).
Proof.
  split; [exact config_validations_return|].
  intros cfg world token org Henv headers Hcheck Hret.
  pose proof (main_env_loaded cfg world token org Henv) as Hmain.
  cbv zeta in Hmain. fold headers in Hmain. rewrite Hcheck in Hmain.
  destruct (artifacts_loop_spec cfg world headers org (ARTIFACTS cfg) true
              Hret) as (b & Hb & Hiff & Hreq).
  rewrite (main_steps_3_to_5_eq cfg world headers org b Hb) in Hmain.
  cbn [output result fst snd] in Hmain.
  rewrite Hmain. unfold exit_status. cbn [output result fst snd].
  split; [|split].
  - intros art Hin. do 4 apply In_requested_cons.
    apply In_requested_app_r, In_requested_cons, In_requested_app_l.
    by apply Hreq.
  - intros Hall. assert (b = true) as -> by (by apply Hiff).
    split; [reflexivity|]. unfold printed.
    do 4 right. apply in_or_app. right. right. apply in_or_app. right.
    do 4 right. by left.
  - intros Hnot. assert (b = false) as ->.
    { destruct b; [|reflexivity]. destruct Hnot. by apply Hiff. }
    split; [reflexivity|]. unfold printed.
    do 4 right. apply in_or_app. right. right. apply in_or_app. right.
    by left.
Qed.

End OrchestratorTheorems.

Lemma report_world_branch_exists (cfg : Config) :
  target_branch cfg = target_branch CONFIG ->
  repo_name cfg = repo_name CONFIG ->
  result (_check_branch_existence cfg report_world
            (target_branch cfg)
            (_build_github_headers cfg (str "ghp_token")) (str "acme"))
  = Ret true.
Proof.
  intros _ _.
  erewrite (check_branch_200 cfg report_world); reflexivity.
Defined.

Lemma artifacts_phase_runs_to_completion_witness :
  (* the configured artifacts: all three requested, status 1 *)
  (forall art, In art (ARTIFACTS CONFIG) ->
     In (artifact_url CONFIG (str "acme") art)
       (requested (output (main (L := identity_codec) CONFIG report_world))))
  /\
  exit_status (main (L := identity_codec) CONFIG report_world) = 1%Z /\
  (* the narrative document alone: status 0 *)
  exit_status (main (L := identity_codec) CONFIG_md_only report_world) = 0%Z.
Proof.
  pose proof (artifacts_phase_runs_to_completion (L := identity_codec))
    as [Hconfig Hphase].
  split; [|split].
  - pose proof (Hphase CONFIG report_world (str "ghp_token") (str "acme")
                  (sample_env_loaded _)
                  (report_world_branch_exists CONFIG eq_refl eq_refl)
                  (Hconfig _ _ _)) as H.
    exact (proj1 H).
  - pose proof (Hphase CONFIG report_world (str "ghp_token") (str "acme")
                  (sample_env_loaded _)
                  (report_world_branch_exists CONFIG eq_refl eq_refl)
                  (Hconfig _ _ _)) as H.
    refine (proj1 (proj2 (proj2 H) _)). intros Hall.
    destruct (Hall BRANCH_COMMITS (or_introl eq_refl)) as (content & Hf & _).
    vm_compute in Hf. discriminate.
  - assert (Hret : validations_return (L := identity_codec) CONFIG_md_only
                     report_world
                     (_build_github_headers CONFIG_md_only (str "ghp_token"))
                     (str "acme")).
    { intros art content [<-|[]] _.
      apply (validate_cross_branch_md_total content). }
    pose proof (Hphase CONFIG_md_only report_world (str "ghp_token")
                  (str "acme") (sample_env_loaded _)
                  (report_world_branch_exists CONFIG_md_only eq_refl eq_refl)
                  Hret) as H.
    refine (proj1 (proj1 (proj2 H) _)).
    intros art [<-|[]]. exists (remove_char newline (pad_to 600 report_body)).
    split; vm_compute; reflexivity.
Defined.

(** *** The artifact phase of the configuration as shipped *)

Section ShippedPhase.
Context {U : UnicodeDB} {L : Libs}.
Variable world : World.
Variable headers : list (pystr * pystr).
Variable org : pystr.

Lemma artifacts_loop_cons (cfg : Config) (branch : pystr) (art : Artifact)
  (rest : list Artifact) (all_valid : bool) :
  artifacts_loop cfg world branch headers org (art :: rest) all_valid =
  (print (Validating (name art)) >>
   let* content :=
     _get_artifact_content cfg world branch (name art) headers org in
   if falsy_str content then
     artifacts_loop cfg world branch headers org rest false
   else
     let* ok := _validate_artifact cfg (default [] content) (name art) in
     if negb ok then artifacts_loop cfg world branch headers org rest false
     else
       print (ArtifactOk (name art)) >>
       artifacts_loop cfg world branch headers org rest all_valid).
Proof. reflexivity. Qed.

(** The last round of the loop: the timeline is requested and never
    returned. *)
Lemma artifacts_loop_timeline (all_valid : bool) :
  artifacts_loop CONFIG world (target_branch CONFIG) headers org
    [MERGE_TIMELINE] all_valid =
  (Print (Validating (name MERGE_TIMELINE))
     :: output (_get_artifact_content CONFIG world (target_branch CONFIG)
                  (name MERGE_TIMELINE) headers org),
   Ret false).
Proof.
  rewrite artifacts_loop_cons, bind_print.
  rewrite (bind_Ret _ _
             (output (_get_artifact_content CONFIG world
                        (target_branch CONFIG) (name MERGE_TIMELINE) headers
                        org)) None).
  - cbn [falsy_str artifacts_loop ret output result fst snd].
    by rewrite app_nil_r.
  - rewrite <- (get_artifact_content_no_encoding CONFIG world
                  (target_branch CONFIG) (name MERGE_TIMELINE) headers org
                  next_encoding_txt).
    apply M_eta.
Qed.

(** The three rounds of the loop.  The ledger and the timeline are
    requested and never returned; the narrative document, when it is
    returned and not empty, is validated although the ledger has failed
    before it. *)
Lemma artifacts_loop_shipped :
  artifacts_loop CONFIG world (target_branch CONFIG) headers org
    (ARTIFACTS CONFIG) true =
  ([Print (Validating (name BRANCH_COMMITS))]
   ++ output (_get_artifact_content CONFIG world (target_branch CONFIG)
                (name BRANCH_COMMITS) headers org)
   ++ [Print (Validating (name CROSS_BRANCH_ANALYSIS))]
   ++ output (_get_artifact_content CONFIG world (target_branch CONFIG)
                (name CROSS_BRANCH_ANALYSIS) headers org)
   ++ match fetched CONFIG world headers org CROSS_BRANCH_ANALYSIS with
      | Some content =>
          output (_validate_cross_branch_md CONFIG content)
          ++ (if passed (_validate_cross_branch_md CONFIG content)
              then [Print (ArtifactOk (name CROSS_BRANCH_ANALYSIS))]
              else [])
      | None => []
      end
   ++ [Print (Validating (name MERGE_TIMELINE))]
   ++ output (_get_artifact_content CONFIG world (target_branch CONFIG)
                (name MERGE_TIMELINE) headers org),
   Ret false).
Proof.
  change (ARTIFACTS CONFIG)
    with [BRANCH_COMMITS; CROSS_BRANCH_ANALYSIS; MERGE_TIMELINE].
  rewrite artifacts_loop_cons, bind_print.
  rewrite (bind_Ret _ _
             (output (_get_artifact_content CONFIG world
                        (target_branch CONFIG) (name BRANCH_COMMITS) headers
                        org)) None).
  2: { rewrite <- (get_artifact_content_no_encoding CONFIG world
                     (target_branch CONFIG) (name BRANCH_COMMITS) headers org
                     next_encoding_json).
       apply M_eta. }
  cbn [falsy_str]. rewrite artifacts_loop_cons, bind_print.
  pose proof (M_eta (_get_artifact_content CONFIG world (target_branch CONFIG)
                       (name CROSS_BRANCH_ANALYSIS) headers org)) as Hmd.
  destruct (get_artifact_content_returns CONFIG world headers org
              (target_branch CONFIG) (name CROSS_BRANCH_ANALYSIS))
    as (l & o & Hret).
  assert (Hres : result (_get_artifact_content CONFIG world
                           (target_branch CONFIG)
                           (name CROSS_BRANCH_ANALYSIS) headers org) = Ret o)
    by (by rewrite Hret).
  rewrite Hres in Hmd. rewrite (bind_Ret _ _ _ _ Hmd).
  unfold fetched. rewrite Hres.
  destruct o as [content|]; cbn [falsy_str default].
  2: { rewrite artifacts_loop_timeline. cbn [output result fst snd app].
       reflexivity. }
  destruct (nonempty content); cbn [negb].
  2: { rewrite artifacts_loop_timeline. cbn [output result fst snd app].
       reflexivity. }
  rewrite validate_artifact_md.
  destruct (validate_cross_branch_md_total content) as [ok Hok].
  rewrite (bind_Ret _ _ (output (_validate_cross_branch_md CONFIG content))
             ok) by (rewrite <- Hok; apply M_eta).
  unfold passed. rewrite Hok.
  destruct ok; cbn [negb].
  - rewrite bind_print, artifacts_loop_timeline.
    cbn [output result fst snd app]. by rewrite <- !app_assoc.
  - rewrite artifacts_loop_timeline. cbn [output result fst snd app].
    by rewrite app_nil_r.
Qed.

End ShippedPhase.

Section ShippedPhaseTheorem.
Context {U : UnicodeDB} {L : Libs}.

(** C9, as the code has it.  With the configuration as shipped the artifact
    phase does run to its end, but it never validates all three artifacts
    and never goes on to the remaining steps.  Once the credentials are
    loaded and the branch is verified, the run is, in every world: the
    ledger requested and not returned; the narrative document requested
    and, if it is returned and not empty, validated (and acknowledged if it
    passes), although the ledger has failed before it; the timeline
    requested and not returned; then the failure line and exit status 1.
    The validators of the ledger and of the timeline are never run. *)
Theorem artifacts_phase_as_shipped (world : World) (token org : pystr) :
  env_loaded CONFIG world token org ->
  let headers := _build_github_headers CONFIG token in
  let branch := target_branch CONFIG in
  let check := _check_branch_existence CONFIG world branch headers org in
  let fetch :=
    fun art => _get_artifact_content CONFIG world branch (name art) headers
                 org in
  result check = Ret true ->
  result (fetch BRANCH_COMMITS) = Ret None /\
  result (fetch MERGE_TIMELINE) = Ret None /\
  main CONFIG world =
  ([Print Banner; Print (Step 1); Print (EnvReady org); Print (Step 2)]
   ++ output check
   ++ [Print (Step 3); Print (Validating (name BRANCH_COMMITS))]
   ++ output (fetch BRANCH_COMMITS)
   ++ [Print (Validating (name CROSS_BRANCH_ANALYSIS))]
   ++ output (fetch CROSS_BRANCH_ANALYSIS)
   ++ match fetched CONFIG world headers org CROSS_BRANCH_ANALYSIS with
      | Some content =>
          output (_validate_cross_branch_md CONFIG content)
          ++ (if passed (_validate_cross_branch_md CONFIG content)
              then [Print (ArtifactOk (name CROSS_BRANCH_ANALYSIS))]
              else [])
      | None => []
      end
   ++ [Print (Validating (name MERGE_TIMELINE))]
   ++ output (fetch MERGE_TIMELINE)
   ++ [Print ArtifactsFailed],
   Raise (SystemExit 1)).
Proof.
  intros Henv headers branch check fetch Hcheck.
  split; [apply get_artifact_content_no_encoding, next_encoding_json|].
  split; [apply get_artifact_content_no_encoding, next_encoding_txt|].
  rewrite (main_env_loaded CONFIG world token org Henv). cbv zeta.
  fold headers branch check. rewrite Hcheck.
  pose proof (artifacts_loop_shipped world headers org) as Hloop.
  rewrite (main_steps_3_to_5_eq CONFIG world headers org false)
    by (by rewrite Hloop).
  rewrite Hloop. cbn [output result fst snd app]. subst fetch branch.
  cbn beta. f_equal. do 4 f_equal.
  repeat (rewrite <- app_assoc || rewrite <- app_comm_cons). reflexivity.
Qed.

End ShippedPhaseTheorem.

Lemma intact_world_branch_exists :
  result (_check_branch_existence CONFIG intact_world (target_branch CONFIG)
            (_build_github_headers CONFIG (str "ghp_token")) (str "acme"))
  = Ret true.
Proof. vm_compute. reflexivity. Defined.

Lemma intact_world_env_loaded :
  env_loaded CONFIG intact_world (str "ghp_token") (str "acme").
Proof. repeat split. Defined.

Lemma artifacts_phase_as_shipped_witness :
  (* the three files, as served, are valid *)
  result (_validate_branch_commits_json (L := intact_libs) CONFIG ledger_text)
  = Ret true /\
  result (_validate_cross_branch_md CONFIG (pad_to 600 report_body))
  = Ret true /\
  result (_validate_merge_timeline CONFIG good_timeline) = Ret true /\
  (* the run *)
  main (L := intact_libs) CONFIG intact_world =
  ([Print Banner; Print (Step 1); Print (EnvReady (str "acme"));
    Print (Step 2);
    HttpGet
      (api_url CONFIG (str "acme") (branch_endpoint (target_branch CONFIG)))
      (_build_github_headers CONFIG (str "ghp_token")) (timeout CONFIG);
    Print (BranchExists (target_branch CONFIG));
    Print (Step 3);
    Print (Validating (name BRANCH_COMMITS));
    HttpGet (artifact_url CONFIG (str "acme") BRANCH_COMMITS)
      (_build_github_headers CONFIG (str "ghp_token")) (timeout CONFIG);
    Print (DecodeFailed (name BRANCH_COMMITS) StopIteration);
    Print (Validating (name CROSS_BRANCH_ANALYSIS));
    HttpGet (artifact_url CONFIG (str "acme") CROSS_BRANCH_ANALYSIS)
      (_build_github_headers CONFIG (str "ghp_token")) (timeout CONFIG);
    Print LengthOk; Print SectionsOk; Print KeywordsOk; Print ContributorsOk;
    Print (ArtifactOk (name CROSS_BRANCH_ANALYSIS));
    Print (Validating (name MERGE_TIMELINE));
    HttpGet (artifact_url CONFIG (str "acme") MERGE_TIMELINE)
      (_build_github_headers CONFIG (str "ghp_token")) (timeout CONFIG);
    Print (DecodeFailed (name MERGE_TIMELINE) StopIteration);
    Print ArtifactsFailed],
   Raise (SystemExit 1)).
Proof.
  split; [vm_compute; reflexivity|].
  split; [vm_compute; reflexivity|].
  split; [vm_compute; reflexivity|].
  pose proof (artifacts_phase_as_shipped (L := intact_libs) intact_world
                (str "ghp_token") (str "acme") intact_world_env_loaded
                intact_world_branch_exists) as (_ & _ & Hmain).
  etrans; [exact Hmain|]. vm_compute. reflexivity.
Defined.

(** * Further properties *)

(** ** The API client, in full *)

Section ClientContract.
Context {U : UnicodeDB} {L : Libs}.
Variable cfg : Config.
Variable world : World.

(** The two ways a call ends. *)
Lemma call_github_api_cases (endpoint : pystr)
  (headers : list (pystr * pystr)) (org : pystr) :
  let answer :=
    requests_get world (api_url cfg org endpoint) headers (timeout cfg) in
  exists success data lines,
    _call_github_api cfg world endpoint headers org =
      (HttpGet (api_url cfg org endpoint) headers (timeout cfg)
         :: map Print lines, Ret (success, data)) /\
    ((success = true /\ lines = [] /\
      exists text, answer = Response 200 (Some data) text) \/
     (success = false /\ data = JNull /\ lines <> [] /\
      forall body text, answer <> Response 200 (Some body) text)).
Proof.
  cbv zeta. rewrite call_github_api_eq.
  destruct (requests_get world _ headers _) as [status [data|] text|].
  - destruct (Z.eqb_spec status 200) as [->|Hne].
    + exists true, data, []. split; [reflexivity|]. left. eauto.
    + destruct (status =? 404)%Z.
      * exists false, JNull, [ApiNotFound endpoint]. split; [reflexivity|].
        right. do 3 (split; [done|]). by intros ? ? [= ? _ _].
      * exists false, JNull,
          [ApiRequestFailed endpoint status; ApiResponseText (take 200 text)].
        split; [reflexivity|].
        right. do 3 (split; [done|]). by intros ? ? [= ? _ _].
  - destruct (Z.eqb_spec status 200) as [->|Hne].
    + exists false, JNull, [ApiException endpoint ValueError].
      split; [reflexivity|]. right. do 3 (split; [done|]). discriminate.
    + destruct (status =? 404)%Z.
      * exists false, JNull, [ApiNotFound endpoint]. split; [reflexivity|].
        right. do 3 (split; [done|]). discriminate.
      * exists false, JNull,
          [ApiRequestFailed endpoint status; ApiResponseText (take 200 text)].
        split; [reflexivity|]. right. do 3 (split; [done|]). discriminate.
  - exists false, JNull, [ApiException endpoint RequestError].
    split; [reflexivity|]. right. do 3 (split; [done|]). discriminate.
Qed.

(** X1.  [_call_github_api] (lines 161-189) sends one request and always
    returns: whatever the status and whatever [requests] raises, the caller
    gets a pair.  The call succeeds exactly on a 200 answer with a JSON
    body, which is then the data returned; a successful call prints nothing,
    a failed one returns [None] and prints at least one line. *)
Theorem call_github_api_contract (endpoint : pystr)
  (headers : list (pystr * pystr)) (org : pystr) :
  let answer :=
    requests_get world (api_url cfg org endpoint) headers (timeout cfg) in
  exists success data lines,
    _call_github_api cfg world endpoint headers org =
      (HttpGet (api_url cfg org endpoint) headers (timeout cfg)
         :: map Print lines, Ret (success, data)) /\
    (forall body text,
       answer = Response 200 (Some body) text ->
       success = true /\ data = body) /\
    (success = true ->
     (exists text, answer = Response 200 (Some data) text) /\ lines = []) /\
    (success = false -> data = JNull /\ lines <> []).
Proof.
  cbv zeta.
  destruct (call_github_api_cases endpoint headers org)
    as (success & data & lines & Hcall & Hcases).
  cbv zeta in Hcall, Hcases. exists success, data, lines.
  split; [exact Hcall|].
  destruct Hcases as [(-> & -> & text & Ht)|(-> & -> & Hne & Hno)].
  - split; [|split; [eauto | discriminate]].
    intros body text' E. rewrite E in Ht. by injection Ht as ->.
  - split; [|split; [discriminate | done]].
    intros body text E. by destruct (Hno body text).
Qed.

(** The branch check in one equation: it fails only for a mandatory branch
    whose lookup did not succeed. *)
Lemma check_branch_result (branch : pystr) (headers : list (pystr * pystr))
  (org : pystr) :
  exists l success data,
    _call_github_api cfg world (branch_endpoint branch) headers org
      = (l, Ret (success, data)) /\
    _check_branch_existence cfg world branch headers org =
      (l ++ [Print (if success then BranchExists branch
                    else if must_exist cfg then BranchMissingAbort branch
                    else BranchMissingContinue branch)],
       Ret (success || negb (must_exist cfg))).
Proof.
  destruct (call_github_api_returns cfg world (branch_endpoint branch)
              headers org) as (l & success & data & Hcall).
  exists l, success, data. split; [exact Hcall|].
  unfold _check_branch_existence. fold (branch_endpoint branch).
  rewrite (bind_Ret _ _ _ _ Hcall).
  destruct success, (must_exist cfg); reflexivity.
Qed.

End ClientContract.

(** ** Requests and exit status of a run *)

Lemma gets_app (l k : list event) : gets (l ++ k) = gets l ++ gets k.
Proof. apply omap_app. Qed.

Lemma gets_map_Print (lines : list msg) : gets (map Print lines) = [].
Proof. by induction lines. Qed.

Lemma gets_HttpGet (url : pystr) (h : list (pystr * pystr)) (t : N)
  (l : list event) :
  gets (HttpGet url h t :: l) = (url, h, t) :: gets l.
Proof. reflexivity. Qed.

Lemma gets_Print (m : msg) (l : list event) : gets (Print m :: l) = gets l.
Proof. reflexivity. Qed.

Lemma requested_gets (log : list event) :
  requested log = map (fun g => fst (fst g)) (gets log).
Proof.
  induction log as [|[m|url h t] log IH]; simpl; [done | exact IH |].
  by rewrite <- IH.
Qed.

Lemma gets_bind {A B} (m : M A) (f : A -> M B) :
  gets (output (bind m f)) =
  gets (output m) ++ match result m with
                     | Ret a => gets (output (f a))
                     | Raise _ => []
                     end.
Proof. rewrite output_bind, gets_app. by destruct (result m). Qed.

Lemma gets_bind_nil {A B} (m : M A) (f : A -> M B) :
  gets (output m) = [] -> (forall a, gets (output (f a)) = []) ->
  gets (output (bind m f)) = [].
Proof.
  intros Hm Hf. rewrite gets_bind, Hm. destruct (result m); [apply Hf | done].
Qed.

Lemma gets_try_except_nil {A} (m : M A) (h : exn -> M A) :
  gets (output m) = [] -> (forall e, gets (output (h e)) = []) ->
  gets (output (try_except m h)) = [].
Proof.
  intros Hm Hh. rewrite output_try_except, gets_app, Hm.
  destruct (result m) as [a|e]; [done|].
  destruct (is_Exception e); [apply Hh | done].
Qed.

(** Proves that a computation built from prints and pure steps sends no
    request. *)
Ltac no_request :=
  repeat first
    [ reflexivity
    | apply gets_bind_nil; [|intros]
    | apply gets_try_except_nil; [|intros]
    | match goal with
      | |- gets (output (if ?b then _ else _)) = [] => destruct b
      | |- gets (output (match ?x with _ => _ end)) = [] => destruct x
      | |- gets (output (let (_, _) := ?x in _)) = [] => destruct x
      end ].

Section Silent.
Context {U : UnicodeDB} {L : Libs}.
Variable cfg : Config.

Lemma not_in_no_request (xs : list pystr) (v : json) :
  gets (output (not_in xs v)) = [].
Proof. by rewrite not_in_output. Qed.

Lemma check_commit_no_request (rules : JsonSpec) (branch : pystr) (idx : nat)
  (c : json) (st : loop_state) :
  gets (output (check_commit rules branch idx c st)) = [].
Proof.
  destruct st as [S v]. unfold check_commit.
  apply gets_bind_nil; [apply not_in_no_request | intros]. no_request.
Qed.

Lemma commits_loop_no_request (rules : JsonSpec) (branch : pystr) (idx : nat)
  (cs : list json) (st : loop_state) :
  gets (output (commits_loop rules branch idx cs st)) = [].
Proof.
  revert idx st. induction cs as [|c cs IH]; intros idx st; cbn [commits_loop].
  - reflexivity.
  - apply gets_bind_nil; [apply check_commit_no_request | intros; apply IH].
Qed.

Lemma branches_loop_no_request (rules : JsonSpec)
  (items : list (pystr * json)) (st : loop_state) :
  gets (output (branches_loop rules items st)) = [].
Proof.
  revert st. induction items as [|[b v] items IH]; intros st;
    cbn [branches_loop].
  - reflexivity.
  - apply gets_bind_nil; [reflexivity | intros n].
    destruct (n <? _).
    + apply gets_bind_nil; [reflexivity | intros; apply IH].
    + apply gets_bind_nil; [reflexivity | intros cs].
      apply gets_bind_nil; [apply commits_loop_no_request | intros; apply IH].
Qed.

Lemma validate_branch_commits_no_request (rules : JsonSpec) (data : json) :
  gets (output (validate_branch_commits rules data)) = [].
Proof.
  unfold validate_branch_commits.
  apply gets_bind_nil; [reflexivity | intros n].
  destruct (n <? _); [no_request|].
  apply gets_bind_nil; [apply not_in_no_request | intros missing].
  destruct (nonempty missing); [no_request|].
  apply gets_bind_nil; [reflexivity | intros _].
  apply gets_bind_nil; [reflexivity | intros items].
  apply gets_bind_nil; [apply branches_loop_no_request | intros]. no_request.
Qed.

(** No validator sends a request. *)
Lemma validate_artifact_no_request (content artifact_name : pystr) :
  gets (output (_validate_artifact cfg content artifact_name)) = [].
Proof.
  unfold _validate_artifact.
  destruct (pystr_eqb artifact_name (str "BRANCH_COMMITS.json")).
  { unfold _validate_branch_commits_json, artifact_named, json_spec.
    apply gets_bind_nil; [no_request | intros art].
    apply gets_bind_nil; [no_request | intros rules].
    destruct (json_loads content);
      [|destruct (json_loads_error content); no_request].
    apply gets_bind_nil; [reflexivity | intros _].
    apply validate_branch_commits_no_request. }
  destruct (pystr_eqb artifact_name (str "CROSS_BRANCH_ANALYSIS.md")).
  { unfold _validate_cross_branch_md, artifact_named, md_spec.
    apply gets_bind_nil; [no_request | intros art].
    apply gets_bind_nil; [no_request | intros rules]. no_request. }
  destruct (pystr_eqb artifact_name (str "MERGE_TIMELINE.txt")).
  { unfold _validate_merge_timeline, artifact_named, txt_spec.
    apply gets_bind_nil; [no_request | intros art].
    apply gets_bind_nil; [no_request | intros rules]. no_request. }
  no_request.
Qed.

Variable world : World.
Variable headers : list (pystr * pystr).
Variable org : pystr.

Lemma call_github_api_gets (endpoint : pystr) :
  gets (output (_call_github_api cfg world endpoint headers org)) =
  [(api_url cfg org endpoint, headers, timeout cfg)].
Proof.
  destruct (call_github_api_cases cfg world endpoint headers org)
    as (success & data & lines & Hcall & _).
  cbv zeta in Hcall. rewrite Hcall.
  cbn [output fst]. by rewrite gets_HttpGet, gets_map_Print.
Qed.

Lemma check_branch_gets (branch : pystr) :
  gets (output (_check_branch_existence cfg world branch headers org)) =
  [(api_url cfg org (branch_endpoint branch), headers, timeout cfg)].
Proof.
  unfold _check_branch_existence. fold (branch_endpoint branch).
  rewrite gets_bind, call_github_api_gets.
  destruct (result _) as [[success data]|e]; [|reflexivity].
  destruct (negb success && must_exist cfg); [reflexivity|].
  by destruct (negb success).
Qed.

Lemma get_artifact_content_gets (branch file_name : pystr) :
  gets (output (_get_artifact_content cfg world branch file_name headers org))
  = [(api_url cfg org (contents_endpoint branch file_name), headers,
      timeout cfg)].
Proof.
  unfold _get_artifact_content. fold (contents_endpoint branch file_name).
  rewrite gets_bind, call_github_api_gets.
  destruct (result _) as [[success data]|e]; [|reflexivity].
  match goal with |- _ ++ ?g = _ => assert (Hg : g = []); [|by rewrite Hg] end.
  destruct (negb success || negb (truthy data)); [reflexivity|].
  apply gets_try_except_nil; [|intros; reflexivity].
  unfold next_encoding, decode_base64. no_request.
Qed.

(** The requests of step 3 are an initial segment of the configured
    artifacts, in order, one request each. *)
Lemma artifacts_loop_gets (arts : list Artifact) (all_valid : bool) :
  gets (output (artifacts_loop cfg world (target_branch cfg) headers org arts
                  all_valid))
  `prefix_of`
  map (fun art => (artifact_url cfg org art, headers, timeout cfg)) arts.
Proof.
  revert all_valid. induction arts as [|a arts IH]; intros all_valid;
    cbn [artifacts_loop].
  - by exists [].
  - rewrite bind_print. cbn [output fst]. rewrite gets_Print.
    rewrite gets_bind, get_artifact_content_gets. cbn [map app].
    apply prefix_cons.
    destruct (result _) as [content|e]; [|apply prefix_nil].
    destruct (falsy_str content); [apply IH|].
    rewrite gets_bind, validate_artifact_no_request. cbn [app].
    destruct (result _) as [ok|e]; [|apply prefix_nil].
    destruct (negb ok); [apply IH|].
    rewrite bind_print. cbn [output fst]. rewrite gets_Print. apply IH.
Qed.

End Silent.

Section Runs.
Context {U : UnicodeDB} {L : Libs}.
Variable cfg : Config.
Variable world : World.

(** Lines 138-149: one line per missing variable, and the two values as
    read. *)
Lemma load_github_env_eq :
  let token := environ world (env_file cfg) (github_token_var cfg) in
  let org := environ world (env_file cfg) (github_org_var cfg) in
  _load_github_env cfg world =
  ((if falsy_str token
    then [Print (EnvVarMissing (github_token_var cfg) (env_file cfg))]
    else [])
   ++ (if falsy_str org
       then [Print (EnvVarMissing (github_org_var cfg) (env_file cfg))]
       else []),
   Ret (token, org)).
Proof.
  intros token org. unfold _load_github_env. fold token org.
  destruct (falsy_str token), (falsy_str org);
    rewrite ?bind_print, ?bind_ret_l; cbn [output result fst snd];
    rewrite ?bind_print, ?bind_ret_l; reflexivity.
Qed.

Lemma main_missing_credentials_eq :
  let token := environ world (env_file cfg) (github_token_var cfg) in
  let org := environ world (env_file cfg) (github_org_var cfg) in
  falsy_str token || falsy_str org = true ->
  main cfg world =
    ([Print Banner; Print (Step 1)]
     ++ (if falsy_str token
         then [Print (EnvVarMissing (github_token_var cfg) (env_file cfg))]
         else [])
     ++ (if falsy_str org
         then [Print (EnvVarMissing (github_org_var cfg) (env_file cfg))]
         else [])
     ++ [Print EnvInitFailed],
     Raise (SystemExit 1)).
Proof.
  intros token org Hmiss.
  unfold main. rewrite !bind_print, (bind_Ret _ _ _ _ load_github_env_eq).
  fold token org. rewrite Hmiss. cbn [output result fst snd sys_exit raise].
  by rewrite <- !app_assoc.
Qed.

Lemma main_missing_credentials_gets :
  falsy_str (environ world (env_file cfg) (github_token_var cfg))
  || falsy_str (environ world (env_file cfg) (github_org_var cfg)) = true ->
  gets (output (main cfg world)) = [].
Proof.
  intros Hmiss. rewrite (main_missing_credentials_eq Hmiss).
  cbn [output fst]. rewrite !gets_app.
  by destruct (falsy_str _), (falsy_str _).
Qed.

(** X4.  Lines 138-149 and 396-401: without the token or the organisation
    (unset or empty) the run prints which variable is missing, sends no
    request and stops with status 1. *)
Theorem main_without_credentials :
  let token := environ world (env_file cfg) (github_token_var cfg) in
  let org := environ world (env_file cfg) (github_org_var cfg) in
  falsy_str token || falsy_str org = true ->
  main cfg world =
    ([Print Banner; Print (Step 1)]
     ++ (if falsy_str token
         then [Print (EnvVarMissing (github_token_var cfg) (env_file cfg))]
         else [])
     ++ (if falsy_str org
         then [Print (EnvVarMissing (github_org_var cfg) (env_file cfg))]
         else [])
     ++ [Print EnvInitFailed],
     Raise (SystemExit 1)) /\
  exit_status (main cfg world) = 1%Z /\
  gets (output (main cfg world)) = [].
Proof.
  intros token org Hmiss.
  split; [exact (main_missing_credentials_eq Hmiss)|].
  split; [by rewrite (main_missing_credentials_eq Hmiss)|].
  exact (main_missing_credentials_gets Hmiss).
Qed.

Lemma credentials_present_or_missing :
  (exists token org, env_loaded cfg world token org) \/
  falsy_str (environ world (env_file cfg) (github_token_var cfg))
  || falsy_str (environ world (env_file cfg) (github_org_var cfg)) = true.
Proof.
  unfold env_loaded.
  destruct (environ world (env_file cfg) (github_token_var cfg)) as [t|];
    [|by right].
  destruct (environ world (env_file cfg) (github_org_var cfg)) as [o|];
    [|right; apply orb_true_r].
  cbn [falsy_str]. destruct (nonempty t) eqn:Et; [|by right].
  destruct (nonempty o) eqn:Eo; [|by right].
  left. by exists t, o.
Qed.

Lemma main_steps_3_to_5_gets (headers : list (pystr * pystr)) (org : pystr) :
  gets (output (main_steps_3_to_5 cfg world (target_branch cfg) headers org))
  = gets (output (artifacts_loop cfg world (target_branch cfg) headers org
                    (ARTIFACTS cfg) true)).
Proof.
  unfold main_steps_3_to_5. rewrite bind_print. cbn [output fst].
  rewrite gets_Print, gets_bind.
  destruct (result _) as [b|e]; [|by rewrite app_nil_r].
  match goal with |- _ ++ ?g = _ => assert (Hg : g = []); [|by rewrite Hg, app_nil_r] end.
  destruct (negb b); [reflexivity|].
  rewrite bind_print. cbn [output fst]. rewrite gets_Print.
  destruct (source_validation_enable cfg); reflexivity.
Qed.

(** X5.  Lines 392-456: a run never retries and never asks for anything else.
    Its requests are an initial segment of the branch lookup followed by the
    configured artifacts in order, each requested at most once, all with the
    headers built from the token and with the configured timeout. *)
Theorem main_requests_initial_segment :
  let token :=
    default [] (environ world (env_file cfg) (github_token_var cfg)) in
  let org := default [] (environ world (env_file cfg) (github_org_var cfg)) in
  let headers := _build_github_headers cfg token in
  gets (output (main cfg world)) `prefix_of`
  map (fun url => (url, headers, timeout cfg))
    (api_url cfg org (branch_endpoint (target_branch cfg))
       :: map (artifact_url cfg org) (ARTIFACTS cfg)).
Proof.
  intros token org headers.
  destruct credentials_present_or_missing as [(t & o & Henv)|Hmiss].
  - assert (token = t) as -> by (subst token; by rewrite (proj1 Henv)).
    assert (org = o) as ->
      by (subst org; by rewrite (proj1 (proj2 Henv))).
    rewrite (main_env_loaded cfg world t o Henv). cbv zeta. fold headers.
    cbn [output fst]. rewrite !gets_Print, gets_app, check_branch_gets.
    cbn [map app]. apply prefix_cons.
    destruct (result _) as [[|]|e]; try apply prefix_nil.
    rewrite main_steps_3_to_5_gets, map_map. apply artifacts_loop_gets.
  - rewrite (main_missing_credentials_gets Hmiss). apply prefix_nil.
Qed.

(** X6.  Lines 192-206 and 406-409: for a mandatory branch every answer but a
    200 with a JSON body (404, another status, a body that is not JSON, a
    network failure) ends the run with status 1 after that one request; for
    a branch that is not mandatory the run goes on to step 3 whatever the
    answer. *)
Theorem branch_lookup_failure (token org : pystr) :
  env_loaded cfg world token org ->
  let headers := _build_github_headers cfg token in
  let url := api_url cfg org (branch_endpoint (target_branch cfg)) in
  (forall data text,
     requests_get world url headers (timeout cfg)
     <> Response 200 (Some data) text) ->
  (must_exist cfg = true ->
   exit_status (main cfg world) = 1%Z /\
   gets (output (main cfg world)) = [(url, headers, timeout cfg)] /\
   printed (BranchMissingAbort (target_branch cfg)) (output (main cfg world)))
  /\
  (must_exist cfg = false ->
   printed (BranchMissingContinue (target_branch cfg))
     (output (main cfg world)) /\
   printed (Step 3) (output (main cfg world))).
Proof.
  intros Henv headers url Hfail.
  rewrite (main_env_loaded cfg world token org Henv). cbv zeta. fold headers.
  pose proof (check_branch_gets cfg world headers org (target_branch cfg))
    as Hgets.
  destruct (check_branch_result cfg world (target_branch cfg) headers org)
    as (l & success & data & Hcall & Hcheck).
  assert (success = false) as ->.
  { destruct (call_github_api_cases cfg world
                (branch_endpoint (target_branch cfg)) headers org)
      as (s' & d' & lines & Hc & Hcases).
    cbv zeta in Hc, Hcases. rewrite Hcall in Hc. injection Hc as _ <- <-.
    destruct Hcases as [(_ & _ & text & Ht)|(Hf & _)]; [|exact Hf].
    by destruct (Hfail data text). }
  rewrite Hcheck in *. cbn [orb result output fst snd] in *.
  split; intros Hm; rewrite Hm in *; cbn [negb] in *.
  - split; [reflexivity|]. split.
    + rewrite !gets_Print, gets_app, Hgets. reflexivity.
    + unfold printed. do 4 right. apply in_or_app. left. apply in_or_app.
      right. by left.
  - split.
    + unfold printed. do 4 right. apply in_or_app. left. apply in_or_app.
      right. by left.
    + unfold printed. do 4 right. apply in_or_app. right.
      apply main_steps_3_to_5_starts.
Qed.

End Runs.

Lemma artifacts_loop_gets_returns {U : UnicodeDB} {L : Libs} (cfg : Config)
  (world : World) (headers : list (pystr * pystr)) (org : pystr)
  (arts : list Artifact) (all_valid b : bool) :
  result (artifacts_loop cfg world (target_branch cfg) headers org arts
            all_valid) = Ret b ->
  gets (output (artifacts_loop cfg world (target_branch cfg) headers org arts
                  all_valid))
  = map (fun art => (artifact_url cfg org art, headers, timeout cfg)) arts.
Proof.
  revert all_valid. induction arts as [|a arts IH]; intros all_valid;
    cbn [artifacts_loop].
  - reflexivity.
  - rewrite bind_print. cbn [output result fst snd]. rewrite gets_Print.
    rewrite gets_bind, get_artifact_content_gets, result_bind. cbn [map app].
    destruct (result (_get_artifact_content _ _ _ _ _ _)) as [content|e];
      [|discriminate].
    destruct (falsy_str content); [intros H; f_equal; by eapply IH|].
    rewrite gets_bind, validate_artifact_no_request, result_bind. cbn [app].
    destruct (result (_validate_artifact _ _ _)) as [ok|e]; [|discriminate].
    destruct (negb ok); [intros H; f_equal; by eapply IH|].
    rewrite bind_print. cbn [output result fst snd]. rewrite gets_Print.
    intros H; f_equal; by eapply IH.
Qed.

(** X7.  Lines 41-118, 209-234 and 392-456: with the configuration as shipped no
    run ends with status 0.  Whatever the environment and whatever the
    network answers, the program stops with status 1; when the credentials
    are there and the branch is found, it does so after requesting the
    branch and each of the three artifacts once. *)
Theorem shipped_configuration_never_succeeds {U : UnicodeDB} {L : Libs}
  (world : World) :
  exit_status (main CONFIG world) = 1%Z /\
  (forall token org,
     env_loaded CONFIG world token org ->
     result (_check_branch_existence CONFIG world (target_branch CONFIG)
               (_build_github_headers CONFIG token) org) = Ret true ->
     requested (output (main CONFIG world)) =
       api_url CONFIG org (branch_endpoint (target_branch CONFIG))
         :: map (artifact_url CONFIG org) (ARTIFACTS CONFIG)).
Proof.
  assert (Hloop : forall headers org,
    result (artifacts_loop CONFIG world (target_branch CONFIG) headers org
              (ARTIFACTS CONFIG) true) = Ret false).
  { intros headers org.
    destruct (artifacts_loop_spec CONFIG world headers org (ARTIFACTS CONFIG)
                true (config_validations_return world headers org))
      as (b & Hb & Hiff & _).
    destruct b; [|exact Hb].
    destruct (proj1 Hiff eq_refl) as [_ Hall].
    destruct (Hall BRANCH_COMMITS (or_introl eq_refl)) as (content & Hf & _).
    apply fetched_Some in Hf as [Hf _].
    rewrite (get_artifact_content_no_encoding CONFIG world _ _ headers org
               next_encoding_json) in Hf.
    discriminate. }
  split.
  - destruct (credentials_present_or_missing CONFIG world)
      as [(t & o & Henv)|Hmiss].
    + rewrite (main_env_loaded CONFIG world t o Henv). cbv zeta.
      destruct (check_branch_result CONFIG world (target_branch CONFIG)
                  (_build_github_headers CONFIG t) o)
        as (l & success & data & _ & ->).
      cbn [result snd]. destruct success; cbn [orb negb must_exist CONFIG];
        [|reflexivity].
      by rewrite (main_steps_3_to_5_eq CONFIG world _ o false (Hloop _ _)).
    + by rewrite (main_missing_credentials_eq CONFIG world Hmiss).
  - intros token org Henv Hcheck.
    rewrite (main_env_loaded CONFIG world token org Henv). cbv zeta.
    rewrite Hcheck. cbn [output fst].
    rewrite requested_gets, !gets_Print, gets_app, check_branch_gets,
      main_steps_3_to_5_gets,
      (artifacts_loop_gets_returns CONFIG world _ org _ true false
         (Hloop _ _)).
    reflexivity.
Qed.

(** ** Fetching an artifact, in full *)

Section Fetch.
Context {U : UnicodeDB} {L : Libs}.
Variable cfg : Config.
Variable world : World.
Variable headers : list (pystr * pystr).
Variable org : pystr.

(** The [try] block of lines 225-231 prints nothing; it ends with the
    decoded text or with an exception that the [except] clause catches. *)
Lemma decode_block (file_data : json) (file_name : pystr) :
  let block :=
    (let* content := lift (py_get file_data (str "content") (JStr [])) in
     let* base64_content := lift (py_replace_newline content) in
     let* declared := next_encoding cfg file_name in
     let encoding := if nonempty declared then declared else str "utf-8" in
     let* text := decode_base64 base64_content encoding in
     ret (Some text)) in
  output block = [] /\
  ((exists text, result block = Ret (Some text) /\
      exists items b64 declared raw,
        file_data = JObj items /\ content_field items = JStr b64 /\
        next_encoding cfg file_name = ret declared /\
        b64decode (remove_char newline b64) = Some raw /\
        bytes_decode raw (effective_encoding declared) = Some text) \/
   (exists e, result block = Raise e /\ is_Exception e = true)).
Proof.
  cbv zeta. unfold py_get.
  destruct file_data as [| | | | | |items];
    try (split; [reflexivity | right; eexists; split; reflexivity]).
  assert (Hget : Ret (content_field items) =
                 match dict_get (str "content") items with
                 | Some x => Ret x
                 | None => Ret (JStr [])
                 end) by (unfold content_field; by destruct (dict_get _ _)).
  rewrite <- Hget, bind_lift_Ret.
  destruct (content_field items) as [| | | |b64| |] eqn:Ec;
    try (split; [reflexivity | right; eexists; split; reflexivity]).
  cbn [py_replace_newline]. rewrite bind_lift_Ret.
  destruct (next_encoding cfg file_name) as [l [declared|e]] eqn:Enext.
  2: { assert (l = [] /\ e = StopIteration) as [-> ->].
       { unfold next_encoding in Enext. destruct (omap _ _); by inversion Enext. }
       split; [reflexivity | right; eexists; split; reflexivity]. }
  assert (l = []) as ->.
  { unfold next_encoding in Enext. destruct (omap _ _); by inversion Enext. }
  rewrite (bind_Ret _ _ _ _ eq_refl). fold (effective_encoding declared).
  unfold decode_base64.
  destruct (b64decode (remove_char newline b64)) as [raw|] eqn:Eb;
    [|split; [reflexivity | right; eexists; split; reflexivity]].
  destruct (bytes_decode raw (effective_encoding declared)) as [text|] eqn:Ed;
    [|split; [reflexivity | right; eexists; split; reflexivity]].
  split; [reflexivity|]. left. exists text. split; [reflexivity|].
  by exists items, b64, declared, raw.
Qed.

(** X2.  Lines 209-234: [_get_artifact_content] sends one request and always
    returns; no fetch or decode error leaves it.  When it returns a text it
    has printed nothing; when it returns [None] its last line says why: the
    file was not found, or decoding failed with the exception named. *)
Theorem get_artifact_content_contract (branch file_name : pystr) :
  exists o lines,
    _get_artifact_content cfg world branch file_name headers org =
      (HttpGet (api_url cfg org (contents_endpoint branch file_name)) headers
         (timeout cfg) :: map Print lines, Ret o) /\
    (is_Some o -> lines = []) /\
    (o = None ->
     last lines = Some (FileNotFound branch file_name) \/
     exists e, last lines = Some (DecodeFailed file_name e)).
Proof.
  unfold _get_artifact_content. fold (contents_endpoint branch file_name).
  destruct (call_github_api_cases cfg world
              (contents_endpoint branch file_name) headers org)
    as (success & data & lines0 & Hcall & Hcases).
  cbv zeta in Hcall, Hcases. rewrite (bind_Ret _ _ _ _ Hcall).
  destruct (negb success || negb (truthy data)) eqn:Egate.
  - exists None, (lines0 ++ [FileNotFound branch file_name]).
    rewrite bind_print. cbn [output result fst snd app].
    rewrite map_app. split; [reflexivity|].
    split; [by intros [? ?] | intros _; left; apply last_snoc].
  - assert (success = true) as -> by (by destruct success).
    destruct Hcases as [(_ & -> & _)|(? & _)]; [|discriminate].
    cbn [map app].
    destruct (decode_block data file_name) as [Hout Hres]. cbv zeta in *.
    rewrite (M_eta (try_except _ _)), output_try_except, result_try_except,
      Hout.
    destruct Hres as [(text & -> & _)|(e & -> & ->)].
    + exists (Some text), []. split; [reflexivity|].
      split; [done | discriminate].
    + exists None, [DecodeFailed file_name e]. rewrite bind_print.
      split; [reflexivity|]. split; [by intros [? ?] | intros _; right; eauto].
Qed.

(** X3.  Lines 216-231: exactly when a text is returned.  The answer is a 200
    with a non-empty JSON object whose [content] (the empty string if the
    key is absent) is a string; some configured artifact of that name
    declares an encoding; and the content, its newlines removed, decodes
    from base64 and then from that encoding (from utf-8 if the declared
    encoding is the empty string) to the text. *)
Theorem get_artifact_content_text (branch file_name text : pystr) :
  result (_get_artifact_content cfg world branch file_name headers org)
  = Ret (Some text) <->
  exists items rest b64 declared raw,
    requests_get world (api_url cfg org (contents_endpoint branch file_name))
      headers (timeout cfg) = Response 200 (Some (JObj items)) rest /\
    items <> [] /\
    content_field items = JStr b64 /\
    next_encoding cfg file_name = ret declared /\
    b64decode (remove_char newline b64) = Some raw /\
    bytes_decode raw (effective_encoding declared) = Some text.
Proof.
  unfold _get_artifact_content. fold (contents_endpoint branch file_name).
  destruct (call_github_api_cases cfg world
              (contents_endpoint branch file_name) headers org)
    as (success & data & lines0 & Hcall & Hcases).
  cbv zeta in Hcall, Hcases.
  rewrite (bind_Ret _ _ _ _ Hcall). cbn [result snd].
  destruct (decode_block data file_name) as [_ Hres]. cbv zeta in Hres.
  split.
  - destruct (negb success || negb (truthy data)) eqn:Egate.
    { rewrite bind_print. discriminate. }
    apply orb_false_iff in Egate as [Hs Ht].
    destruct success; [|discriminate]. apply negb_false_iff in Ht.
    destruct Hcases as [(_ & _ & rest & Hresp)|(? & _)]; [|discriminate].
    rewrite result_try_except.
    destruct Hres as [(text' & -> & items & b64 & declared & raw & -> & Hc &
                       Hn & Hb & Hd)|(e & -> & ->)].
    + intros [= <-]. exists items, rest, b64, declared, raw.
      repeat split; try assumption. by destruct items.
    + rewrite bind_print. discriminate.
  - intros (items & rest & b64 & declared & raw & Hresp & Hne & Hc & Hn & Hb
            & Hd).
    assert (success = true /\ data = JObj items) as [-> ->].
    { destruct Hcases as [(-> & _ & text' & Ht)|(_ & _ & _ & Hno)];
        [|by destruct (Hno _ _ Hresp)].
      rewrite Hresp in Ht. by injection Ht as ->. }
    assert (Ht : truthy (JObj items) = true) by (by destruct items).
    rewrite Ht. cbn [negb orb]. rewrite result_try_except.
    destruct Hres as [(text' & -> & items' & b64' & declared' & raw' & [= <-]
                       & Hc' & Hn' & Hb' & Hd')|(e & He & _)].
    + rewrite Hc in Hc'. injection Hc' as <-.
      rewrite Hn in Hn'. injection Hn' as <-.
      rewrite Hb in Hb'. injection Hb' as <-.
      rewrite Hd in Hd'. by injection Hd' as <-.
    + exfalso. revert He. unfold py_get.
      assert (Hget : Ret (content_field items) =
                 match dict_get (str "content") items with
                 | Some x => Ret x
                 | None => Ret (JStr [])
                 end) by (unfold content_field; by destruct (dict_get _ _)).
      rewrite <- Hget, bind_lift_Ret, Hc. cbn [py_replace_newline].
      rewrite bind_lift_Ret, Hn, bind_ret_l.
      fold (effective_encoding declared). unfold decode_base64.
      rewrite Hb, Hd. discriminate.
Qed.

End Fetch.

(** ** The ledger validator, in full *)

Lemma failures_app (l k : list event) :
  failures (l ++ k) = failures l ++ failures k.
Proof. apply omap_app. Qed.

Lemma failures_one (m : msg) :
  is_failure m = true -> failures [Print m] = [m].
Proof. intros H. unfold failures. cbn. by rewrite H. Qed.

Section LedgerFull.
Context {U : UnicodeDB}.
Variable rules : JsonSpec.

Lemma accepted_commit_ok (c : json) :
  accepted_commit rules c <-> commit_ok rules c = true.
Proof.
  split.
  - intros (fields & sha & author & n & fc & -> & Hf & Hsha & Hre & Hauth &
            Hlen & Hn & Hfc & Hint & Hmin).
    unfold commit_ok. rewrite Hsha, Hauth, Hfc, Hre, Hlen, Hint.
    rewrite (proj2 (forallb_forall _ _) Hf). cbn [andb].
    rewrite andb_true_r, andb_true_iff. split.
    + by apply Nat.leb_le.
    + by apply Z.leb_le.
  - unfold commit_ok. destruct c as [| | | | | |fields]; try discriminate.
    destruct (dict_get (str "sha") fields) as [[| | | |sha| |]|] eqn:Hsha;
      try (rewrite andb_false_r; discriminate).
    destruct (dict_get (str "author") fields) as [author|] eqn:Hauth;
      [|rewrite andb_false_r; discriminate].
    destruct (dict_get (str "files_changed") fields) as [fc|] eqn:Hfc;
      [|rewrite andb_false_r; discriminate].
    destruct (py_len author) as [n|e] eqn:Hlen;
      [|rewrite !andb_false_r; discriminate].
    rewrite !andb_true_iff.
    intros (Hf & ((Hre & Hn) & Hint) & Hmin).
    exists fields, sha, author, n, fc. rewrite forallb_forall in Hf.
    apply Nat.leb_le in Hn. apply Z.leb_le in Hmin. by repeat split.
Qed.

(** With a positive minimum of commits only an array can be an acceptable
    branch: iterating an object or a string yields strings, which are not
    commits. *)
Lemma branch_ok_array (v : json) :
  1 <= min_commits_per_branch rules ->
  branch_ok rules v = true <->
  exists cs, v = JArr cs /\ min_commits_per_branch rules <= length cs /\
             forall c, In c cs -> accepted_commit rules c.
Proof.
  intros Hmin. unfold branch_ok, branch_commits. split.
  - destruct v as [| | | |s|cs|kvs]; try discriminate; cbn [py_len py_iter];
      rewrite andb_true_iff, Nat.leb_le; intros [Hn Hall].
    + destruct s; [simpl in Hn; lia | discriminate].
    + exists cs. split; [reflexivity|]. split; [exact Hn|].
      intros c Hc. apply accepted_commit_ok.
      rewrite forallb_forall in Hall. by apply Hall.
    + destruct kvs; [simpl in Hn; lia | discriminate].
  - intros (cs & -> & Hn & Hall). cbn [py_len py_iter].
    rewrite andb_true_iff, Nat.leb_le. split; [exact Hn|].
    apply forallb_forall. intros c Hc. by apply accepted_commit_ok, Hall.
Qed.

Lemma artifact_ok_accepted (items : list (pystr * json)) :
  1 <= min_commits_per_branch rules ->
  artifact_ok rules items <-> accepted_artifact rules items.
Proof.
  intros Hmin. unfold artifact_ok, accepted_artifact.
  rewrite !forallb_forall.
  split; intros (Hn & Hexp & Hall & Hnd); (split; [exact Hn|]);
    (split; [|split; [|exact Hnd]]).
  - intros b Hb. by apply has_key_In, Hexp.
  - intros b v Hin. apply branch_ok_array; [exact Hmin|].
    apply (Hall (b, v) Hin).
  - intros b Hb. by apply has_key_In, Hexp.
  - intros [b v] Hin. apply branch_ok_array; [exact Hmin|]. by apply (Hall b).
Qed.

Ltac step :=
  cbn [lift ret raise result output fst snd negb orb andb];
  rewrite ?bind_print, ?bind_lift_Ret, ?bind_ret_l, ?bind_lift_Raise;
  cbn [lift ret raise result output fst snd negb orb andb].

(** A commit either leaves [valid] alone and prints nothing, or clears it
    and prints one failure line. *)
Lemma check_commit_verdict (branch : pystr) (idx : nat) (c : json)
  (S : gset pystr) (v : bool) (S' : gset pystr) (v' : bool) :
  result (check_commit rules branch idx c (S, v)) = Ret (S', v') ->
  (v' = v /\ output (check_commit rules branch idx c (S, v)) = []) \/
  (v' = false /\
   exists m, output (check_commit rules branch idx c (S, v)) = [Print m] /\
             is_failure m = true).
Proof.
  unfold check_commit. rewrite not_in_eta.
  destruct (result (not_in (commit_fields rules) c)) as [missing|e];
    step; [|discriminate].
  destruct (nonempty missing); step; [intros [= <- <-]; right; eauto|].
  destruct (py_getitem c (str "sha")) as [sha_v|e]; step; [|discriminate].
  destruct sha_v as [| | | |sha| |]; try discriminate.
  destruct (re_match _ sha); step; [|intros [= <- <-]; right; eauto].
  destruct (bool_decide (sha ∈ S)); step; [intros [= <- <-]; right; eauto|].
  destruct (py_getitem c (str "author")) as [author|e]; step;
    [|discriminate].
  destruct (py_len author) as [n|e]; step; [|discriminate].
  destruct (n <? _); step; [intros [= <- <-]; right; eauto|].
  destruct (py_getitem c (str "files_changed")) as [fc|e]; step;
    [|discriminate].
  destruct (negb (isinstance_int fc) || _); step; intros [= <- <-];
    [right; eauto | by left].
Qed.

Lemma commits_loop_verdict (branch : pystr) (idx : nat) (cs : list json)
  (S : gset pystr) (v : bool) (S' : gset pystr) (v' : bool) :
  result (commits_loop rules branch idx cs (S, v)) = Ret (S', v') ->
  (v' = v /\ failures (output (commits_loop rules branch idx cs (S, v))) = [])
  \/
  (v' = false /\
   failures (output (commits_loop rules branch idx cs (S, v))) <> []).
Proof.
  revert idx S v. induction cs as [|c cs IH]; intros idx S v;
    cbn [commits_loop].
  - intros [= <- <-]. by left.
  - intros H. rewrite output_bind, failures_app.
    apply result_bind_Ret in H as ([S1 v1] & Hc & Hrest). rewrite Hc.
    destruct (check_commit_verdict _ _ _ _ _ _ _ Hc)
      as [[-> Ho]|(-> & m & Ho & Hm)]; rewrite Ho;
      destruct (IH _ _ _ Hrest) as [[-> Hr]|[-> Hne]].
    + left. by rewrite Hr.
    + right. split; [reflexivity|]. exact Hne.
    + right. split; [reflexivity|]. by rewrite (failures_one _ Hm).
    + right. split; [reflexivity|]. by rewrite (failures_one _ Hm).
Qed.

Lemma branches_loop_verdict (items : list (pystr * json)) (S : gset pystr)
  (v : bool) (S' : gset pystr) (v' : bool) :
  result (branches_loop rules items (S, v)) = Ret (S', v') ->
  (v' = v /\ failures (output (branches_loop rules items (S, v))) = []) \/
  (v' = false /\ failures (output (branches_loop rules items (S, v))) <> []).
Proof.
  revert S v. induction items as [|[b commits] items IH]; intros S v;
    cbn [branches_loop].
  - intros [= <- <-]. by left.
  - destruct (py_len commits) as [n|e]; step; [|discriminate].
    destruct (n <? _); step.
    + intros H. right.
      destruct (IH _ _ H) as [[-> _]|[-> _]]; (split; [reflexivity|]);
        discriminate.
    + destruct (py_iter commits) as [cs|e]; step; [|discriminate].
      intros H. rewrite output_bind, failures_app.
      apply result_bind_Ret in H as ([S1 v1] & Hc & Hrest). rewrite Hc.
      destruct (commits_loop_verdict _ _ _ _ _ _ _ Hc) as [[-> Ho]|[-> Hne]];
        destruct (IH _ _ Hrest) as [[-> Hr]|[-> Hne']].
      * left. by rewrite Ho, Hr.
      * right. split; [reflexivity|]. by rewrite Ho.
      * right. split; [reflexivity|]. intros [? ?]%app_eq_nil. contradiction.
      * right. split; [reflexivity|]. intros [? ?]%app_eq_nil. contradiction.
Qed.

(** When the validator returns, it returns [True] exactly when it has
    printed no failure line. *)
Lemma validate_branch_commits_verdict (data : json) (verdict : bool) :
  result (validate_branch_commits rules data) = Ret verdict ->
  (verdict = true <->
   failures (output (validate_branch_commits rules data)) = []).
Proof.
  unfold validate_branch_commits.
  destruct (py_len data) as [n|e]; step; [|discriminate].
  destruct (n <? _); step; [by intros [= <-]|].
  rewrite not_in_eta.
  destruct (result (not_in _ data)) as [missing|e]; step; [|discriminate].
  destruct (nonempty missing); step; [by intros [= <-]|].
  destruct (py_items data) as [items|e]; step; [|discriminate].
  intros H.
  match goal with
  | |- _ <-> failures (?e :: ?l) = [] =>
      change (failures (e :: l)) with (failures l)
  end.
  rewrite output_bind, failures_app.
  apply result_bind_Ret in H as ([S1 v1] & Hloop & Hv). rewrite Hloop.
  destruct (branches_loop_verdict _ _ _ _ _ Hloop) as [[-> E]|[-> Hne]];
    rewrite ?E; revert Hv; step; intros [= <-]; [done|].
  split; [discriminate|]. intros [? ?]%app_eq_nil. contradiction.
Qed.

End LedgerFull.

Section LedgerTheorems.
Context {U : UnicodeDB} {L : Libs}.

(** X8.  What [_validate_branch_commits_json] accepts, exactly: it returns
    [True] if and only if the content parses to an object with at least the
    minimum number of branches, among them every expected branch, each
    branch an array of at least the minimum number of commits, each commit
    an object with the four required fields whose sha is a string matching
    the pattern, whose author has a length (string, array or object) of at
    least the minimum and whose files_changed is an int (integer or boolean)
    of at least the minimum, and all shas pairwise distinct.  Text that does
    not parse, and any parsed value that is not an object, is never
    accepted. *)
Theorem branch_commits_acceptance (content : pystr) :
  result (_validate_branch_commits_json CONFIG content) = Ret true <->
  exists items,
    json_loads content = Some (JObj items) /\
    accepted_artifact json_artifact_spec items.
Proof.
  assert (Hmin : 1 <= min_commits_per_branch json_artifact_spec)
    by (vm_compute; lia).
  destruct (json_loads content) as [data|] eqn:Hparse.
  - rewrite (validate_branch_commits_json_true_iff content data Hparse).
    split.
    + intros (items & -> & Hok). exists items. split; [reflexivity|].
      by apply artifact_ok_accepted.
    + intros (items & [= ->] & Hok). exists items. split; [reflexivity|].
      by apply artifact_ok_accepted.
  - rewrite (validate_branch_commits_json_not_loaded content Hparse).
    split; [by destruct (json_loads_error content)|].
    intros (items & Habs & _). discriminate.
Qed.

(** X9.  Whenever [_validate_branch_commits_json] returns, its verdict and
    its report agree: it returns [True] exactly when it printed no failure
    line, and [False] exactly when it printed at least one. *)
Theorem branch_commits_verdict_matches_report (content : pystr)
  (verdict : bool) :
  result (_validate_branch_commits_json CONFIG content) = Ret verdict ->
  (verdict = true <->
   failures (output (_validate_branch_commits_json CONFIG content)) = []).
Proof.
  destruct (json_loads content) as [data|] eqn:Hparse.
  - rewrite (validate_branch_commits_json_parsed content data Hparse).
    cbn [result output fst snd].
    change (failures (Print JsonSyntaxOk :: ?l)) with (failures l).
    apply validate_branch_commits_verdict.
  - rewrite (validate_branch_commits_json_not_loaded content Hparse).
    destruct (json_loads_error content); [|discriminate].
    cbn [result output fst snd]. intros [= <-]. split; discriminate.
Qed.

(** X10.  Valid JSON that is not an object never passes, and mostly not by
    a verdict: on a number, a boolean or null the validator raises an
    uncaught [TypeError] right after the syntax line ([len] of a scalar); on
    a string or an array it either fails one of the two gates or, when the
    value happens to hold the expected names, raises [AttributeError] at
    [data.items()]. *)
Theorem branch_commits_non_object (content : pystr) (data : json) :
  json_loads content = Some data ->
  (forall items, data <> JObj items) ->
  let run := _validate_branch_commits_json CONFIG content in
  (is_scalar data = true -> run = ([Print JsonSyntaxOk], Raise TypeError)) /\
  (is_scalar data = false ->
   result run = Ret false \/ result run = Raise AttributeError).
Proof.
  intros Hparse Hobj. cbv zeta.
  rewrite (validate_branch_commits_json_parsed content data Hparse).
  unfold validate_branch_commits. split.
  - destruct data; try discriminate; reflexivity.
  - destruct data as [| | | |s|l|items]; try discriminate;
      [| |by destruct (Hobj items)]; intros _; cbn [py_len];
      rewrite bind_lift_Ret;
      (destruct (_ <? _); [rewrite bind_print; by left|]);
      rewrite not_in_eta;
      (destruct (result (not_in _ _)) as [missing|e] eqn:Hm;
        [rewrite bind_lift_Ret|]).
    + destruct (nonempty missing); rewrite bind_print; [by left|by right].
    + exfalso. revert Hm. generalize (expected_branches json_artifact_spec).
      intros l. induction l as [|x l IH]; cbn [not_in]; [discriminate|].
      cbn [py_in]. rewrite bind_lift_Ret. rewrite result_bind.
      destruct (result (not_in l (JStr s))); [|by auto].
      by destruct (contains s x).
    + destruct (nonempty missing); rewrite bind_print; [by left|by right].
    + exfalso. revert Hm. generalize (expected_branches json_artifact_spec).
      intros xs. induction xs as [|x xs IH]; cbn [not_in]; [discriminate|].
      cbn [py_in]. rewrite bind_lift_Ret. rewrite result_bind.
      destruct (result (not_in xs (JArr l))); [|by auto].
      by destruct (existsb _ l).
Qed.

End LedgerTheorems.

Lemma branch_commits_acceptance_witness :
  result (_validate_branch_commits_json (L := parses_to (JObj sample_ledger))
            CONFIG (str "ledger")) = Ret true /\
  exists items,
    Some (JObj sample_ledger) = Some (JObj items) /\
    accepted_artifact json_artifact_spec items.
Proof.
  assert (H : result (_validate_branch_commits_json
                        (L := parses_to (JObj sample_ledger))
                        CONFIG (str "ledger")) = Ret true)
    by (vm_compute; reflexivity).
  split; [exact H|].
  exact (proj1 (branch_commits_acceptance
                  (L := parses_to (JObj sample_ledger)) (str "ledger")) H).
Defined.

Lemma branch_commits_verdict_matches_report_witness :
  false = true <->
  failures (output (_validate_branch_commits_json
                      (L := parses_to (JObj ledger_with_duplicate))
                      CONFIG (str "ledger"))) = [].
Proof.
  apply (branch_commits_verdict_matches_report
           (L := parses_to (JObj ledger_with_duplicate)) (str "ledger") false).
  vm_compute. reflexivity.
Defined.

Lemma branch_commits_non_object_witness :
  _validate_branch_commits_json (L := parses_to (JInt 5)) CONFIG (str "5") =
  ([Print JsonSyntaxOk], Raise TypeError).
Proof.
  apply (branch_commits_non_object (L := parses_to (JInt 5)) (str "5")
           (JInt 5)); [reflexivity | discriminate | reflexivity].
Defined.

(** ** Runs in sample worlds *)

Lemma main_without_credentials_witness :
  exit_status (main (L := no_libs) CONFIG empty_env_world) = 1%Z /\
  gets (output (main (L := no_libs) CONFIG empty_env_world)) = [].
Proof.
  exact (proj2 (main_without_credentials (L := no_libs) CONFIG empty_env_world
                  eq_refl)).
Defined.

Lemma error_world_no_branch (url : pystr)
  (headers : list (pystr * pystr)) (t : N) (data : json) (text : pystr) :
  requests_get error_world url headers t <> Response 200 (Some data) text.
Proof. discriminate. Defined.

Lemma sample_env_loaded_optional (r : http_result) :
  env_loaded (with_must_exist CONFIG false) (constant_world r)
    (str "ghp_token") (str "acme").
Proof. repeat split. Defined.

Lemma branch_lookup_failure_witness :
  exit_status (main (L := no_libs) CONFIG error_world) = 1%Z /\
  printed (Step 3)
    (output (main (L := no_libs) (with_must_exist CONFIG false) error_world)).
Proof.
  pose proof (branch_lookup_failure (L := no_libs) CONFIG error_world
                (str "ghp_token") (str "acme") (sample_env_loaded _)
                (fun data text => error_world_no_branch _ _ _ data text))
    as [Hmandatory _].
  pose proof (branch_lookup_failure (L := no_libs)
                (with_must_exist CONFIG false) error_world
                (str "ghp_token") (str "acme") (sample_env_loaded_optional _)
                (fun data text =>
                   error_world_no_branch _ _ _ data text))
    as [_ Hoptional].
  split.
  - exact (proj1 (Hmandatory eq_refl)).
  - exact (proj2 (Hoptional eq_refl)).
Defined.

Lemma shipped_configuration_never_succeeds_witness :
  exit_status (main (L := identity_codec) CONFIG report_world) = 1%Z /\
  requested (output (main (L := identity_codec) CONFIG report_world)) =
    api_url CONFIG (str "acme") (branch_endpoint (target_branch CONFIG))
      :: map (artifact_url CONFIG (str "acme")) (ARTIFACTS CONFIG).
Proof.
  pose proof (shipped_configuration_never_succeeds (L := identity_codec)
                report_world) as [Hexit Hrequests].
  split; [exact Hexit|].
  exact (Hrequests (str "ghp_token") (str "acme") (sample_env_loaded _)
           (report_world_branch_exists CONFIG eq_refl eq_refl)).
Defined.

Lemma get_artifact_content_text_witness :
  result (_get_artifact_content (L := identity_codec) CONFIG report_world
            (target_branch CONFIG) (str "CROSS_BRANCH_ANALYSIS.md") []
            (str "acme"))
  = Ret (Some (remove_char newline (pad_to 600 report_body))).
Proof.
  refine (proj2 (get_artifact_content_text (L := identity_codec) CONFIG
                   report_world [] (str "acme") (target_branch CONFIG)
                   (str "CROSS_BRANCH_ANALYSIS.md")
                   (remove_char newline (pad_to 600 report_body))) _).
  exists [(str "content", JStr (pad_to 600 report_body));
          (str "encoding", JStr (str "base64"))],
    [], (pad_to 600 report_body), (str "utf-8"),
    (remove_char newline (pad_to 600 report_body)).
  split; [reflexivity|]. split; [discriminate|].
  split; [reflexivity|]. split; [reflexivity|].
  split; reflexivity.
Defined.

(** ** The patterns *)

Section RegexSemantics.
Context {U : UnicodeDB}.

Lemma matches_Void (s : pystr) : ~ matches Void s.
Proof. intros H. inversion H. Qed.

Lemma matches_Eps (s : pystr) : matches Eps s <-> s = [].
Proof. split; [intros H; by inversion H | intros ->; constructor]. Qed.

Lemma matches_Class (cl : char_class) (s : pystr) :
  matches (Class cl) s <-> exists c, s = [c] /\ class_mem cl c = true.
Proof.
  split; [intros H; inversion H; eauto | intros (c & -> & H); by constructor].
Qed.

Lemma matches_Seq (r1 r2 : regex) (s : pystr) :
  matches (Seq r1 r2) s <->
  exists s1 s2, s = s1 ++ s2 /\ matches r1 s1 /\ matches r2 s2.
Proof.
  split; [intros H; inversion H; eauto 6|].
  intros (s1 & s2 & -> & H1 & H2). by constructor.
Qed.

Lemma matches_Alt (r1 r2 : regex) (s : pystr) :
  matches (Alt r1 r2) s <-> matches r1 s \/ matches r2 s.
Proof.
  split; [intros H; inversion H; auto|].
  intros [H|H]; [by apply MAltL | by apply MAltR].
Qed.

Lemma matches_mk_seq (r1 r2 : regex) (s : pystr) :
  matches (mk_seq r1 r2) s <-> matches (Seq r1 r2) s.
Proof.
  assert (HV1 : forall r, matches Void s <-> matches (Seq Void r) s).
  { intros r. split; [intros H; by destruct (matches_Void _ H)|].
    rewrite matches_Seq. intros (? & ? & _ & H & _).
    by destruct (matches_Void _ H). }
  assert (HV2 : forall r, matches Void s <-> matches (Seq r Void) s).
  { intros r. split; [intros H; by destruct (matches_Void _ H)|].
    rewrite matches_Seq. intros (? & ? & _ & _ & H).
    by destruct (matches_Void _ H). }
  assert (HE : forall r, matches r s <-> matches (Seq Eps r) s).
  { intros r. rewrite matches_Seq. split.
    - intros H. exists [], s. repeat split; [constructor | exact H].
    - intros (s1 & s2 & -> & H1 & H2). apply matches_Eps in H1 as ->.
      exact H2. }
  destruct r1; try apply HV1; destruct r2; try apply HV2; try apply HE;
    reflexivity.
Qed.

Lemma matches_mk_alt (r1 r2 : regex) (s : pystr) :
  matches (mk_alt r1 r2) s <-> matches (Alt r1 r2) s.
Proof.
  assert (HV1 : forall r, matches r s <-> matches (Alt Void r) s).
  { intros r. rewrite matches_Alt. split; [auto|].
    intros [H|H]; [by destruct (matches_Void _ H) | exact H]. }
  assert (HV2 : forall r, matches r s <-> matches (Alt r Void) s).
  { intros r. rewrite matches_Alt. split; [auto|].
    intros [H|H]; [exact H | by destruct (matches_Void _ H)]. }
  destruct r1; try apply HV1; destruct r2; try apply HV2; reflexivity.
Qed.

Lemma nullable_matches (r : regex) : nullable r = true <-> matches r [].
Proof.
  induction r as [| |cl|r1 IH1 r2 IH2|r1 IH1 r2 IH2|r IH]; cbn [nullable].
  - split; [discriminate | intros H; by destruct (matches_Void _ H)].
  - split; [constructor | reflexivity].
  - split; [discriminate|]. rewrite matches_Class.
    intros (c & H & _). discriminate.
  - rewrite andb_true_iff, IH1, IH2, matches_Seq. split.
    + intros [H1 H2]. by exists [], [].
    + intros (s1 & s2 & E & H1 & H2). symmetry in E.
      apply app_eq_nil in E as [-> ->]. by split.
  - by rewrite orb_true_iff, IH1, IH2, matches_Alt.
  - split; [constructor | reflexivity].
Qed.

(** A non-empty match of [r*] starts with a non-empty match of [r]. *)
Lemma matches_Star_cons (r : regex) (c : char) (s : pystr) :
  matches (Star r) (c :: s) <->
  exists s1 s2, s = s1 ++ s2 /\ matches r (c :: s1) /\ matches (Star r) s2.
Proof.
  split.
  - intros H. remember (Star r) as r' eqn:Er. remember (c :: s) as t eqn:Et.
    revert c s Er Et.
    induction H as [| | | | | |r0 s1 s2 H1 _ H2 IH2]; intros x t Er Et;
      try discriminate.
    injection Er as ->. destruct s1 as [|c1 s1].
    + apply (IH2 x t eq_refl Et).
    + injection Et as -> <-. by exists s1, s2.
  - intros (s1 & s2 & -> & H1 & H2).
    change (c :: s1 ++ s2) with ((c :: s1) ++ s2). by constructor.
Qed.

Lemma deriv_matches (r : regex) (c : char) (s : pystr) :
  matches (deriv c r) s <-> matches r (c :: s).
Proof.
  revert s.
  induction r as [| |cl|r1 IH1 r2 IH2|r1 IH1 r2 IH2|r IH]; intros s;
    cbn [deriv].
  - split; intros H; by destruct (matches_Void _ H).
  - split; intros H; [by destruct (matches_Void _ H) | by inversion H].
  - rewrite matches_Class. destruct (class_mem cl c) eqn:E.
    + rewrite matches_Eps. split.
      * intros ->. by exists c.
      * by intros (c' & [= <- ->] & _).
    + split; [intros H; by destruct (matches_Void _ H)|].
      intros (c' & [= <- ->] & H). congruence.
  - assert (Hseq : matches (mk_seq (deriv c r1) r2) s <->
                   exists s1 s2, s = s1 ++ s2 /\ matches r1 (c :: s1) /\
                                 matches r2 s2).
    { rewrite matches_mk_seq, matches_Seq.
      split; intros (s1 & s2 & E & H1 & H2); exists s1, s2;
        (split; [exact E|]); (split; [by apply IH1 | exact H2]). }
    rewrite (matches_Seq r1 r2 (c :: s)).
    destruct (nullable r1) eqn:En.
    + rewrite matches_mk_alt, matches_Alt, Hseq, IH2. split.
      * intros [(s1 & s2 & -> & H1 & H2)|H].
        -- by exists (c :: s1), s2.
        -- exists [], (c :: s). repeat split; [|exact H].
           by apply nullable_matches.
      * intros (s1 & s2 & E & H1 & H2). destruct s1 as [|c1 s1].
        -- right. cbn [app] in E. by rewrite E.
        -- injection E as <- ->. left. by exists s1, s2.
    + rewrite Hseq. split.
      * intros (s1 & s2 & -> & H1 & H2). by exists (c :: s1), s2.
      * intros (s1 & s2 & E & H1 & H2). destruct s1 as [|c1 s1].
        -- apply nullable_matches in H1. congruence.
        -- injection E as <- ->. by exists s1, s2.
  - by rewrite matches_mk_alt, !matches_Alt, IH1, IH2.
  - rewrite matches_mk_seq, matches_Seq, matches_Star_cons.
    split; intros (s1 & s2 & E & H1 & H2); exists s1, s2;
      (split; [exact E|]); (split; [by apply IH | exact H2]).
Qed.

(** The matcher decides the language of the pattern. *)
Lemma fullmatch_matches (r : regex) (s : pystr) :
  fullmatch r s = true <-> matches r s.
Proof.
  unfold fullmatch. revert r. induction s as [|c s IH]; intros r; cbn [fold_left].
  - apply nullable_matches.
  - by rewrite IH, deriv_matches.
Qed.

(** [re.match("^body$", s)]: the body matches all of [s], or all of it but
    a final newline. *)
Lemma re_match_matches (body : regex) (s : pystr) :
  re_match body s = true <->
  exists t, up_to_final_newline s t /\ matches body t.
Proof.
  unfold re_match, up_to_final_newline.
  rewrite orb_true_iff, fullmatch_matches. split.
  - intros [H|H]; [by exists s; auto|].
    destruct (rev s) as [|c s'] eqn:E; [discriminate|].
    apply andb_true_iff in H as [Hc H]. apply N.eqb_eq in Hc as ->.
    apply fullmatch_matches in H. exists (rev s'). split; [right|exact H].
    by rewrite <- (rev_involutive s), E.
  - intros (t & [->| ->] & H); [by left|]. right.
    rewrite rev_app_distr. cbn [rev app]. rewrite N.eqb_refl, rev_involutive.
    by apply fullmatch_matches.
Qed.

Lemma matches_rep_class (cl : char_class) (n : nat) (s : pystr) :
  matches (rep n (Class cl)) s <->
  length s = n /\ Forall (fun c => class_mem cl c = true) s.
Proof.
  revert s. induction n as [|n IH]; intros s; cbn [rep].
  - rewrite matches_Eps. split; [by intros -> | intros [H _]].
    by destruct s.
  - rewrite matches_Seq. split.
    + intros (s1 & s2 & -> & H1 & H2). apply matches_Class in H1 as (c & -> & Hc).
      apply IH in H2 as [<- Hall]. split; [reflexivity | by constructor].
    + intros [Hlen Hall]. destruct s as [|c s]; [discriminate|].
      inversion Hall; subst. exists [c], s. split; [reflexivity|].
      split; [by apply matches_Class; exists c | apply IH].
      split; [by injection Hlen | assumption].
Qed.

Lemma matches_lit (l s : pystr) : matches (lit l) s <-> s = l.
Proof.
  revert s. induction l as [|x l IH]; intros s; cbn [lit].
  - apply matches_Eps.
  - rewrite matches_Seq. split.
    + intros (s1 & s2 & -> & H1 & H2).
      apply matches_Class in H1 as (c & -> & Hc). cbn [class_mem] in Hc.
      apply N.eqb_eq in Hc as ->. apply IH in H2 as ->. reflexivity.
    + intros ->. exists [x], l. split; [reflexivity|].
      split; [|by apply IH]. apply matches_Class. exists x.
      split; [reflexivity|]. apply N.eqb_refl.
Qed.

Lemma matches_star_class (cl : char_class) (s : pystr) :
  matches (Star (Class cl)) s <-> Forall (fun c => class_mem cl c = true) s.
Proof.
  induction s as [|c s IH].
  - split; constructor.
  - rewrite matches_Star_cons. split.
    + intros (s1 & s2 & -> & H1 & H2).
      apply matches_Class in H1 as (c' & [= <- ->] & Hc).
      constructor; [exact Hc | by apply IH].
    + intros H. inversion H; subst. exists [], s. split; [reflexivity|].
      split; [by apply matches_Class; exists c | by apply IH].
Qed.

Lemma matches_plus_class (cl : char_class) (s : pystr) :
  matches (plus (Class cl)) s <->
  s <> [] /\ Forall (fun c => class_mem cl c = true) s.
Proof.
  unfold plus. rewrite matches_Seq. split.
  - intros (s1 & s2 & -> & H1 & H2).
    apply matches_Class in H1 as (c & -> & Hc).
    apply matches_star_class in H2. split; [discriminate | by constructor].
  - intros [Hne H]. destruct s as [|c s]; [done|]. inversion H; subst.
    exists [c], s. split; [reflexivity|].
    split; [by apply matches_Class; exists c | by apply matches_star_class].
Qed.

Lemma class_mem_hex (c : char) : class_mem hex_digit c = true <-> is_hex c.
Proof.
  unfold hex_digit, is_hex, in_range. cbn [class_mem]. unfold in_range.
  rewrite orb_true_iff, !andb_true_iff, !N.leb_le. tauto.
Qed.

Lemma Forall_hex (s : pystr) :
  Forall (fun c => class_mem hex_digit c = true) s <-> Forall is_hex s.
Proof. apply Forall_iff. intros c. apply class_mem_hex. Qed.

(** X11.  The sha check of line 284, [re.match("^[0-9a-f]{40}$", sha)],
    accepts exactly the strings of 40 lowercase hexadecimal digits and, since
    [$] also matches before a final newline, those strings followed by one
    newline. *)
Theorem sha_pattern_accepts (s : pystr) :
  re_match sha_pattern s = true <->
  exists digits,
    up_to_final_newline s digits /\
    length digits = 40 /\ Forall is_hex digits.
Proof.
  rewrite re_match_matches. unfold sha_pattern.
  split; intros (t & Hs & H); exists t; (split; [exact Hs|]).
  - apply matches_rep_class in H as [Hlen H]. by rewrite <- Forall_hex.
  - apply matches_rep_class. by rewrite Forall_hex.
Qed.

(** X12.  The line check of lines 348 and 361 accepts exactly the lines
    [<yyyy>-<mm>-<dd> | <text> | <sha>] (optionally followed by one
    newline) in which the date parts are 4, 2 and 2 decimal digits of any
    script ([\d] on a [str] pattern), the text is not empty and holds no
    newline, and the sha is 40 lowercase hexadecimal digits.  Nothing checks
    that the digits form a date. *)
Theorem timeline_pattern_accepts (s : pystr) :
  re_match timeline_pattern s = true <->
  exists y m d text sha,
    up_to_final_newline s (timeline_entry y m d text sha) /\
    (length y = 4 /\ Forall (fun c => isdecimal c = true) y) /\
    (length m = 2 /\ Forall (fun c => isdecimal c = true) m) /\
    (length d = 2 /\ Forall (fun c => isdecimal c = true) d) /\
    (text <> [] /\ Forall (fun c => c <> newline) text) /\
    (length sha = 40 /\ Forall is_hex sha).
Proof.
  assert (Hdot : forall t, Forall (fun c => class_mem CDot c = true) t <->
                           Forall (fun c => c <> newline) t).
  { intros t. apply Forall_iff. intros c. cbn [class_mem].
    rewrite negb_true_iff. apply N.eqb_neq. }
  rewrite re_match_matches. unfold timeline_pattern, timeline_entry.
  cbn [seqs]. split.
  - intros (t & Hs & H).
    apply matches_Seq in H as (y & t1 & -> & Hy & H).
    apply matches_Seq in H as (? & t2 & -> & ->%matches_lit & H).
    apply matches_Seq in H as (m & t3 & -> & Hm & H).
    apply matches_Seq in H as (? & t4 & -> & ->%matches_lit & H).
    apply matches_Seq in H as (d & t5 & -> & Hd & H).
    apply matches_Seq in H as (? & t6 & -> & ->%matches_lit & H).
    apply matches_Seq in H as (text & t7 & -> & Ht & H).
    apply matches_Seq in H as (? & t8 & -> & ->%matches_lit & H).
    apply matches_Seq in H as (sha & t9 & -> & Hsha & ->%matches_Eps).
    rewrite app_nil_r in Hs.
    exists y, m, d, text, sha. split; [exact Hs|].
    apply matches_rep_class in Hy, Hm, Hd, Hsha.
    apply matches_plus_class in Ht. rewrite Hdot in Ht.
    rewrite Forall_hex in Hsha.
    split; [exact Hy|]. split; [exact Hm|]. split; [exact Hd|].
    split; [exact Ht | exact Hsha].
  - intros (y & m & d & text & sha & Hs & Hy & Hm & Hd & Ht & Hsha).
    exists (timeline_entry y m d text sha). split; [exact Hs|].
    unfold timeline_entry.
    rewrite <- Hdot in Ht. rewrite <- Forall_hex in Hsha.
    apply MSeq; [by apply matches_rep_class|].
    apply (MSeq _ _ (str "-")); [by apply matches_lit|].
    apply MSeq; [by apply matches_rep_class|].
    apply (MSeq _ _ (str "-")); [by apply matches_lit|].
    apply MSeq; [by apply matches_rep_class|].
    apply (MSeq _ _ (str " | ")); [by apply matches_lit|].
    apply MSeq; [by apply matches_plus_class|].
    apply (MSeq _ _ (str " | ")); [by apply matches_lit|].
    rewrite <- (app_nil_r sha).
    apply MSeq; [by apply matches_rep_class | constructor].
Qed.

End RegexSemantics.

(** ** The two text validators, in full *)

Lemma contains_app_around (pre s post sub : pystr) :
  contains s sub = true -> contains (pre ++ s ++ post) sub = true.
Proof.
  rewrite !contains_infix. intros (a & b & ->).
  exists (pre ++ a), (b ++ post). by rewrite <- !app_assoc.
Qed.

Lemma forallb_impl {A} (f g : A -> bool) (l : list A) :
  (forall x, f x = true -> g x = true) ->
  forallb f l = true -> forallb g l = true.
Proof.
  intros Hfg. rewrite !forallb_forall. intros H x Hx. by apply Hfg, H.
Qed.

Lemma split_cons (sep : char) (s : pystr) :
  exists l ls, split sep s = l :: ls.
Proof.
  induction s as [|c s (l & ls & IH)]; cbn [split]; [eauto|].
  destruct (c =? sep)%N; [eauto|]. rewrite IH. eauto.
Qed.

(** Splitting distributes over a separator. *)
Lemma split_app (sep : char) (a b : pystr) :
  split sep (a ++ sep :: b) = split sep a ++ split sep b.
Proof.
  induction a as [|c a IH]; cbn [split app].
  - by rewrite N.eqb_refl.
  - destruct (c =? sep)%N; [by rewrite IH|].
    rewrite IH. by destruct (split_cons sep a) as (l & ls & ->).
Qed.

Section TextValidators.
Context {U : UnicodeDB}.

Lemma timeline_lines_app (a b : pystr) :
  timeline_lines (a ++ newline :: b) = timeline_lines a ++ timeline_lines b.
Proof.
  unfold timeline_lines. by rewrite split_app, map_app, List.filter_app.
Qed.

Lemma validate_cross_branch_md_true_iff (content : pystr) :
  result (_validate_cross_branch_md CONFIG content) = Ret true <->
  min_length md_artifact_spec <= length content /\
  forallb (contains content) (required_sections md_artifact_spec) = true /\
  forallb (fun k => contains (lower content) (lower k))
    (must_contain_keywords md_artifact_spec) = true /\
  forallb (contains content) (expected_contributors md_artifact_spec) = true.
Proof.
  rewrite validate_cross_branch_md_eq. cbv zeta.
  rewrite <- !filter_nil_forallb, <- !nonempty_false.
  destruct (Nat.ltb_spec (length content) (min_length md_artifact_spec)).
  { cbn [result snd]. split; [discriminate | lia]. }
  destruct (nonempty (List.filter _ (required_sections _)));
    [cbn [result snd]; split; [discriminate | by intros (_ & ? & _)]|].
  destruct (nonempty (List.filter _ (must_contain_keywords _)));
    [cbn [result snd]; split; [discriminate | by intros (_ & _ & ? & _)]|].
  destruct (nonempty (List.filter _ (expected_contributors _)));
    [cbn [result snd]; split; [discriminate | by intros (_ & _ & _ & ?)]|].
  cbn [result snd]. by repeat split.
Qed.

Lemma validate_merge_timeline_true_iff (content : pystr) :
  result (_validate_merge_timeline CONFIG content) = Ret true <->
  min_lines timeline_artifact_spec <= length (timeline_lines content) /\
  forallb (re_match (line_pattern timeline_artifact_spec))
    (timeline_lines content) = true /\
  forallb (contains content) (expected_entries timeline_artifact_spec) = true.
Proof.
  rewrite validate_merge_timeline_eq. cbv zeta.
  rewrite <- (first_bad_line_None _ 1), <- filter_nil_forallb, <- nonempty_false.
  destruct (Nat.ltb_spec (length (timeline_lines content))
              (min_lines timeline_artifact_spec)).
  { cbn [result snd]. split; [discriminate | lia]. }
  destruct (first_bad_line _ 1 _) as [[idx line]|].
  { cbn [result snd]. split; [discriminate | by intros (_ & ? & _)]. }
  destruct (nonempty _).
  { cbn [result snd]. split; [discriminate | by intros (_ & _ & ?)]. }
  cbn [result snd]. by repeat split.
Qed.

(** X13.  What [_validate_cross_branch_md] accepts, exactly: a text of at
    least [min_length] code points that contains each required section
    header and each contributor line literally, and each keyword in any
    letter case.  Nothing else is looked at: neither the order of the
    sections nor where the contributor lines stand. *)
Theorem cross_branch_md_acceptance (content : pystr) :
  result (_validate_cross_branch_md CONFIG content) = Ret true <->
  min_length md_artifact_spec <= length content /\
  (forall s, In s (required_sections md_artifact_spec) ->
             exists pre post, content = pre ++ s ++ post) /\
  (forall k, In k (must_contain_keywords md_artifact_spec) ->
             exists pre post, lower content = pre ++ lower k ++ post) /\
  (forall c, In c (expected_contributors md_artifact_spec) ->
             exists pre post, content = pre ++ c ++ post).
Proof.
  rewrite validate_cross_branch_md_true_iff, !forallb_forall.
  split; intros (Hlen & Hs & Hk & Hc); (split; [exact Hlen|]);
    (split; [|split]); intros x Hx; apply contains_infix; auto.
Qed.

(** X14.  The narrative validator only looks for presence: text put before
    and after a document that passes gives a document that passes (for
    texts on which [str.lower] works piece by piece, as it does apart from
    context-sensitive letters such as the final sigma). *)
Theorem cross_branch_md_extension (content pre post : pystr) :
  lower (pre ++ content ++ post) = lower pre ++ lower content ++ lower post ->
  result (_validate_cross_branch_md CONFIG content) = Ret true ->
  _validate_cross_branch_md CONFIG (pre ++ content ++ post) =
  ([Print LengthOk; Print SectionsOk; Print KeywordsOk; Print ContributorsOk],
   Ret true).
Proof.
  intros Hlower (Hlen & Hs & Hk & Hc)%validate_cross_branch_md_true_iff.
  rewrite forallb_forall in Hs, Hk, Hc.
  apply validate_cross_branch_md_pass.
  - change (min_length md_artifact_spec) with 500 in Hlen.
    rewrite !length_app. lia.
  - intros s Hin. by apply contains_app_around, Hs.
  - intros k Hin. rewrite Hlower. by apply contains_app_around, Hk.
  - intros c Hin. by apply contains_app_around, Hc.
Qed.

(** X15.  A merge log may grow at either end: a log that passes still
    passes when further lines are put after it or before it, as long as the
    new non-blank lines, once trimmed, match the line pattern. *)
Theorem merge_timeline_extension (content more : pystr) :
  result (_validate_merge_timeline CONFIG content) = Ret true ->
  forallb (re_match (line_pattern timeline_artifact_spec))
    (timeline_lines more) = true ->
  result (_validate_merge_timeline CONFIG (content ++ newline :: more))
  = Ret true /\
  result (_validate_merge_timeline CONFIG (more ++ newline :: content))
  = Ret true.
Proof.
  intros (Hlen & Hlines & Hentries)%validate_merge_timeline_true_iff Hmore.
  split; apply validate_merge_timeline_true_iff;
    rewrite timeline_lines_app, length_app, forallb_app, Hlines, Hmore;
    (split; [lia|]); (split; [reflexivity|]);
    apply (forallb_impl (contains content)); try exact Hentries; intros e He.
  - by apply contains_app_l.
  - apply contains_infix in He as (a & b & ->). apply contains_infix.
    exists (more ++ newline :: a), b. by rewrite <- app_assoc.
Qed.

End TextValidators.

Lemma cross_branch_md_extension_witness :
  _validate_cross_branch_md CONFIG
    (str "Preface." ++ pad_to 600 report_body ++ str "The end.") =
  ([Print LengthOk; Print SectionsOk; Print KeywordsOk; Print ContributorsOk],
   Ret true).
Proof.
  apply (cross_branch_md_extension (pad_to 600 report_body) (str "Preface.")
           (str "The end.")).
  - vm_compute. reflexivity.
  - vm_compute. reflexivity.
Defined.

Lemma merge_timeline_extension_witness :
  result (_validate_merge_timeline CONFIG
            (good_timeline ++ newline :: timeline_seven)) = Ret true /\
  result (_validate_merge_timeline CONFIG
            (timeline_seven ++ newline :: good_timeline)) = Ret true.
Proof.
  apply (merge_timeline_extension good_timeline timeline_seven).
  - vm_compute. reflexivity.
  - vm_compute. reflexivity.
Defined.

(** ** When the ledger validator raises *)

Section LedgerExceptions.
Context {U : UnicodeDB}.
Variable rules : JsonSpec.

Lemma branches_loop_result_app (before rest : list (pystr * json))
  (st st' : loop_state) :
  result (branches_loop rules before st) = Ret st' ->
  result (branches_loop rules (before ++ rest) st) =
  result (branches_loop rules rest st').
Proof.
  revert st. induction before as [|[b v] before IH]; intros st;
    cbn [branches_loop app].
  - by intros [= ->].
  - destruct (py_len v) as [n|e]; [rewrite !bind_lift_Ret | discriminate].
    destruct (n <? _).
    + rewrite !bind_print. cbn [result snd]. apply IH.
    + destruct (py_iter v) as [cs|e]; [rewrite !bind_lift_Ret | discriminate].
      rewrite !result_bind.
      destruct (result (commits_loop rules b 1 cs st)) as [st1|e];
        [apply IH | discriminate].
Qed.

(** A branch entry that is a number, a boolean or null stops the loop with
    a [TypeError], whatever came before it. *)
Lemma branches_loop_scalar (before after : list (pystr * json)) (b : pystr)
  (v : json) (st st' : loop_state) :
  result (branches_loop rules before st) = Ret st' ->
  is_scalar v = true ->
  result (branches_loop rules (before ++ (b, v) :: after) st)
  = Raise TypeError.
Proof.
  intros Hbefore Hv. rewrite (branches_loop_result_app _ _ _ _ Hbefore).
  cbn [branches_loop]. by destruct v.
Qed.

End LedgerExceptions.

Section LedgerExceptionTheorems.
Context {U : UnicodeDB} {L : Libs}.

(** X16.  Which exceptions [_validate_branch_commits_json] lets out.  On a
    text that [json.loads] loads as an object of the documented shape (its
    entries are arrays of objects in which sha and author, where present,
    are strings) no check raises, whatever the values are, and the function
    returns its verdict; so it does on a text that [json.loads] rejects with
    a [JSONDecodeError].  Any other exception of [json.loads] is not caught
    at line 250: the function raises it before it has printed anything.
    (Writing a report line is taken to succeed.) *)
Theorem branch_commits_returns_on_shaped (content : pystr) :
  ((json_loads content = None /\ json_loads_error content = JSONDecodeError)
   \/ (exists items,
         json_loads content = Some (JObj items) /\
         artifact_shaped items = true) ->
   exists verdict,
     result (_validate_branch_commits_json CONFIG content) = Ret verdict) /\
  (forall e,
     json_loads content = None ->
     json_loads_error content = OtherError e ->
     _validate_branch_commits_json CONFIG content = ([], Raise e)).
Proof.
  split.
  - intros [[Hparse Herr]|(items & Hparse & Hshape)].
    + rewrite (validate_branch_commits_json_syntax_error content Hparse Herr).
      eauto.
    + rewrite (validate_branch_commits_json_parsed content _ Hparse).
      cbn [result snd].
      exact (validate_branch_commits_returns json_artifact_spec
               ltac:(cbn; tauto) ltac:(cbn; tauto) ltac:(cbn; tauto)
               items Hshape).
  - intros e Hparse Herr.
    by rewrite (validate_branch_commits_json_not_loaded content Hparse), Herr.
Qed.

(** X17.  Off that shape the validator can crash instead of reporting: when
    the object passes the two gates (enough entries, the expected names
    among them) and one of its entries is a number, a boolean or null, the
    run ends with an uncaught [TypeError] at [len(commits)], provided the
    entries before it are of the documented shape. *)
Theorem branch_commits_scalar_branch_raises (content : pystr)
  (before after : list (pystr * json)) (b : pystr) (v : json) :
  let items := before ++ (b, v) :: after in
  json_loads content = Some (JObj items) ->
  min_branches json_artifact_spec <= length items ->
  (forall e, In e (expected_branches json_artifact_spec) ->
             has_key e items = true) ->
  artifact_shaped before = true ->
  is_scalar v = true ->
  result (_validate_branch_commits_json CONFIG content) = Raise TypeError.
Proof.
  intros items Hparse Hn Hexp Hshape Hv.
  rewrite (validate_branch_commits_json_parsed content _ Hparse).
  cbn [result snd]. unfold validate_branch_commits. cbn [py_len].
  rewrite bind_lift_Ret.
  destruct (Nat.ltb_spec (length items) (min_branches json_artifact_spec));
    [lia|].
  rewrite not_in_JObj, bind_ret_l.
  apply forallb_forall in Hexp.
  apply (filter_nil_forallb (fun e => has_key e items)) in Hexp.
  rewrite Hexp. cbn [nonempty]. rewrite bind_print. cbn [result snd py_items].
  rewrite bind_lift_Ret, result_bind.
  destruct (branches_loop_returns json_artifact_spec
              ltac:(cbn; tauto) ltac:(cbn; tauto) ltac:(cbn; tauto)
              before (∅, true) Hshape) as [st' Hbefore].
  subst items.
  by rewrite (branches_loop_scalar json_artifact_spec before after b v
                (∅, true) st' Hbefore Hv).
Qed.

End LedgerExceptionTheorems.

Lemma branch_commits_returns_on_shaped_witness :
  (exists verdict,
     result (_validate_branch_commits_json
               (L := parses_to (JObj ledger_three_faults)) CONFIG
               (str "ledger")) = Ret verdict) /\
  (exists verdict,
     result (_validate_branch_commits_json (L := no_libs) CONFIG
               (str "{")) = Ret verdict) /\
  _validate_branch_commits_json (L := loads_raises RecursionError) CONFIG
    (str "[[[[") = ([], Raise RecursionError).
Proof.
  split; [|split].
  - apply (proj1 (branch_commits_returns_on_shaped
                    (L := parses_to (JObj ledger_three_faults))
                    (str "ledger"))).
    right. exists ledger_three_faults. split; [reflexivity|].
    vm_compute. reflexivity.
  - apply (proj1 (branch_commits_returns_on_shaped (L := no_libs)
                    (str "{"))).
    left. split; reflexivity.
  - apply (proj2 (branch_commits_returns_on_shaped
                    (L := loads_raises RecursionError) (str "[[[["))
             RecursionError); reflexivity.
Defined.

Lemma branch_commits_scalar_branch_raises_witness :
  result (_validate_branch_commits_json
            (L := parses_to (JObj ledger_with_number)) CONFIG (str "ledger"))
  = Raise TypeError.
Proof.
  apply (branch_commits_scalar_branch_raises
           (L := parses_to (JObj ledger_with_number)) (str "ledger")
           sample_ledger [] (str "notes") (JInt 7)).
  - reflexivity.
  - vm_compute. lia.
  - intros e [<-|[<-|[<-|[]]]]; vm_compute; reflexivity.
  - vm_compute. reflexivity.
  - reflexivity.
Defined.
